(** * RobsCron9000: scheduling engine and execution subsystem

    A shallow embedding of the scheduler's core (package [robcorn] and the
    HTTP backend under [Schedule API/]) together with the properties the
    specification states about it.

    Conventions of the embedding:
    - Python [int] is [Z]; [str] is [string] (one [ascii] per code point, so
      the model covers the Latin-1 range); [Optional[T]] is [option T];
    - a [dict[str, str]] is an insertion-ordered association list without
      duplicate keys, written through [dict_set];
    - [datetime] is the record of its calendar fields, compared
      lexicographically as CPython compares them;
    - code that can raise returns an [outcome]; code with effects on the
      outside world runs in the monad [M], which threads the clock and the
      log of attempted executions and consults a [World] of oracles for what
      the operating system and the network answer;
    - the SQLite database is a record of tables, each a list of rows. *)

From Stdlib Require Import ZArith List String Ascii Bool Lia.
Import ListNotations.

Local Open Scope string_scope.
Local Open Scope list_scope.
Local Open Scope Z_scope.

(* ===================================================================== *)
(** * Python built-ins used by the program *)
(* ===================================================================== *)

Module Py.

(** [not s] for a string: the empty string is falsy. *)
Definition is_empty (s : string) : bool :=
  match s with EmptyString => true | String _ _ => false end.

(** [c in s] for a one-character needle. *)
Fixpoint contains (c : ascii) (s : string) : bool :=
  match s with
  | EmptyString => false
  | String a s' => if Ascii.eqb a c then true else contains c s'
  end.

(** [s.startswith(p)]. *)
Fixpoint startswith (p s : string) : bool :=
  match p, s with
  | EmptyString, _ => true
  | String a p', String b s' => if Ascii.eqb a b then startswith p' s' else false
  | String _ _, EmptyString => false
  end.

(** Drop the first [n] characters: [s[n:]]. *)
Fixpoint drop (n : nat) (s : string) : string :=
  match n, s with
  | O, _ => s
  | S n', String _ s' => drop n' s'
  | S _, EmptyString => EmptyString
  end.

(** [s.split(sep)] for a one-character separator: never the empty list. *)
Fixpoint split (sep : ascii) (s : string) : list string :=
  match s with
  | EmptyString => [EmptyString]
  | String a s' =>
      if Ascii.eqb a sep then EmptyString :: split sep s'
      else match split sep s' with
           | h :: t => String a h :: t
           | [] => [String a EmptyString]
           end
  end.

(** [s.split(sep, 1)] for a one-character separator, as the pair the
    callers unpack it into; they test [sep in s] first, and for a string
    without the separator the second component is empty here. *)
Fixpoint split_first (sep : ascii) (s : string) : string * string :=
  match s with
  | EmptyString => (EmptyString, EmptyString)
  | String a s' =>
      if Ascii.eqb a sep then (EmptyString, s')
      else let '(k, v) := split_first sep s' in (String a k, v)
  end.

(** [s.split(pat, 1)[-1]]: what follows the first occurrence of [pat], or
    the whole string when [pat] does not occur. *)
Fixpoint after_first_aux (pat s : string) : option string :=
  if startswith pat s then Some (drop (String.length pat) s)
  else match s with
       | EmptyString => None
       | String _ s' => after_first_aux pat s'
       end.

Definition split_last (pat s : string) : string :=
  match after_first_aux pat s with Some r => r | None => s end.

(** [sep.join(items)]. *)
Fixpoint join (sep : string) (items : list string) : string :=
  match items with
  | [] => EmptyString
  | [x] => x
  | x :: rest => x ++ sep ++ join sep rest
  end.

(** [str.lower] and [str.upper] on the ASCII letters. *)
Definition lower_char (c : ascii) : ascii :=
  let n := nat_of_ascii c in
  if (Nat.leb 65 n && Nat.leb n 90)%bool then ascii_of_nat (n + 32) else c.

Definition upper_char (c : ascii) : ascii :=
  let n := nat_of_ascii c in
  if (Nat.leb 97 n && Nat.leb n 122)%bool then ascii_of_nat (n - 32) else c.

Fixpoint map_chars (f : ascii -> ascii) (s : string) : string :=
  match s with
  | EmptyString => EmptyString
  | String a s' => String (f a) (map_chars f s')
  end.

Definition lower := map_chars lower_char.
Definition upper := map_chars upper_char.

(** Characters [str.strip()] removes (the white space of Latin-1). *)
Definition is_space (c : ascii) : bool :=
  let n := nat_of_ascii c in
  ((Nat.leb 9 n && Nat.leb n 13) || (Nat.leb 28 n && Nat.leb n 32)
   || Nat.eqb n 133 || Nat.eqb n 160)%bool.

Fixpoint lstrip (s : string) : string :=
  match s with
  | String a s' => if is_space a then lstrip s' else s
  | EmptyString => EmptyString
  end.

Fixpoint rstrip (s : string) : string :=
  match s with
  | EmptyString => EmptyString
  | String a s' =>
      match rstrip s' with
      | EmptyString => if is_space a then EmptyString else String a EmptyString
      | r => String a r
      end
  end.

Definition strip (s : string) : string := rstrip (lstrip s).

(** Line boundaries of [str.splitlines()] within Latin-1, other than the
    two-character boundary CR LF, which [splitlines] treats as one. *)
Definition is_linebreak (c : ascii) : bool :=
  let n := nat_of_ascii c in
  ((Nat.leb 10 n && Nat.leb n 13) || (Nat.leb 28 n && Nat.leb n 30)
   || Nat.eqb n 133)%bool.

(** [s.splitlines()]: [cur] is the line being read, in reverse. *)
Fixpoint rev_string (acc s : string) : string :=
  match s with
  | EmptyString => acc
  | String a s' => rev_string (String a acc) s'
  end.

Fixpoint splitlines_aux (after_cr : bool) (cur s : string) : list string :=
  match s with
  | EmptyString =>
      match cur with
      | EmptyString => []
      | _ => [rev_string EmptyString cur]
      end
  | String a s' =>
      if (after_cr && Nat.eqb (nat_of_ascii a) 10)%bool
      then splitlines_aux false cur s'
      else if is_linebreak a
      then rev_string EmptyString cur
             :: splitlines_aux (Nat.eqb (nat_of_ascii a) 13) EmptyString s'
      else splitlines_aux false (String a cur) s'
  end.

Definition splitlines (s : string) : list string :=
  splitlines_aux false EmptyString s.

(** ** [int(s)] and decimal formatting *)

Definition digit_of (c : ascii) : option Z :=
  let n := nat_of_ascii c in
  if (Nat.leb 48 n && Nat.leb n 57)%bool then Some (Z.of_nat (n - 48)) else None.

(** Digits of a literal, most significant first; a single underscore is
    allowed between two digits. [prev] tells whether the previous
    character was a digit. *)
Fixpoint int_digits (prev : bool) (acc : Z) (s : string) : option Z :=
  match s with
  | EmptyString => if prev then Some acc else None
  | String a s' =>
      match digit_of a with
      | Some d => int_digits true (10 * acc + d) s'
      | None =>
          if (Ascii.eqb a "_" && prev)%bool then int_digits false acc s'
          else None
      end
  end.

(** The white space [int()] skips around a literal: the six characters of
    C's [isspace], and the two white-space characters of Latin-1 beyond
    ASCII, which [int()] turns into blanks first. The separators U+001C to
    U+001F, which [str.strip] removes, are not among them. *)
Definition is_int_space (c : ascii) : bool :=
  let n := nat_of_ascii c in
  ((Nat.leb 9 n && Nat.leb n 13) || Nat.eqb n 32 || Nat.eqb n 133 || Nat.eqb n 160)%bool.

Fixpoint int_lstrip (s : string) : string :=
  match s with
  | String a s' => if is_int_space a then int_lstrip s' else s
  | EmptyString => EmptyString
  end.

Fixpoint int_rstrip (s : string) : string :=
  match s with
  | EmptyString => EmptyString
  | String a s' =>
      match int_rstrip s' with
      | EmptyString => if is_int_space a then EmptyString else String a EmptyString
      | r => String a r
      end
  end.

(** [int(s)] in base ten: surrounding white space, an optional sign, then
    digits. [None] stands for the [ValueError]. *)
Definition int (s : string) : option Z :=
  match int_rstrip (int_lstrip s) with
  | String "-" s' => option_map Z.opp (int_digits false 0 s')
  | String "+" s' => int_digits false 0 s'
  | s' => int_digits false 0 s'
  end.

Definition digit_char (d : Z) : ascii := ascii_of_nat (48 + Z.to_nat d).

(** The [width] low decimal digits of [n >= 0], zero padded. *)
Fixpoint digits_fixed (width : nat) (n : Z) (acc : string) : string :=
  match width with
  | O => acc
  | S w => digits_fixed w (n / 10) (String (digit_char (n mod 10)) acc)
  end.

(** [f"{n:02d}"] and [f"{n:04d}"] for the values the program formats: a
    day, month, hour or minute (two digits) and a year in 1..9999. *)
Definition fmt02 (n : Z) : string := digits_fixed 2 n EmptyString.
Definition fmt04 (n : Z) : string := digits_fixed 4 n EmptyString.

(** ** [dict[str, str]] *)

Definition dict := list (string * string).

Fixpoint dict_get (k : string) (d : dict) : option string :=
  match d with
  | [] => None
  | (k', v) :: d' => if String.eqb k' k then Some v else dict_get k d'
  end.

(** [d[k] = v]: an existing key keeps its position, a new one goes last. *)
Fixpoint dict_set (k v : string) (d : dict) : dict :=
  match d with
  | [] => [(k, v)]
  | (k', v') :: d' =>
      if String.eqb k' k then (k', v) :: d' else (k', v') :: dict_set k v d'
  end.

(** [d.get(k, default)]. *)
Definition dict_get_default (k default : string) (d : dict) : string :=
  match dict_get k d with Some v => v | None => default end.

(** [d.setdefault(k, v)], for its effect on [d]. *)
Definition dict_setdefault (k v : string) (d : dict) : dict :=
  match dict_get k d with Some _ => d | None => dict_set k v d end.

Definition keys (d : dict) : list string := map fst d.

End Py.

(* ===================================================================== *)
(** * tools.py: parameters of the built-in utility actions *)
(* ===================================================================== *)

Module Tools.
Import Py.

Record ToolResult := mkToolResult { success : bool; message : string }.

(** A call of one of the methods of [ToolExecutor], with its arguments. *)
Inductive tool_call :=
| copy_path (source destination : string)
| move_path (source destination : string)
| delete_path (target : string)
| zip_path (source zip_target : string)
| download_file (url destination : string)
| send_email (smtp_host : string) (smtp_port : Z)
             (sender recipient subject body : string)
             (username password : option string) (use_tls : bool)
| set_wallpaper (image_path : string)
| reboot
| shutdown
| connect_vpn (command : list string).

(** [f"{key}={value}"]. *)
Definition item_of (kv : string * string) : string :=
  (fst kv ++ "=" ++ snd kv)%string.

(** [serialize_tool_params]: the items, joined by [;]. *)
Definition serialize_tool_params (params : dict) : string :=
  join ";" (map item_of params).

(** One iteration of the loop of [parse_tool_params]. *)
Definition parse_item (params : dict) (item : string) : dict :=
  if is_empty item then params
  else if negb (contains "=" item) then dict_set item "" params
  else let '(key, value) := split_first "=" item in dict_set key value params.

Definition parse_tool_params (raw : string) : dict :=
  if is_empty raw then []
  else fold_left parse_item (split ";" raw) [].

(** [_require_field]: [if not params.get(key)]. *)
Definition require_field (params : dict) (key : string) (errors : list string)
  : list string :=
  match dict_get key params with
  | Some (String _ _) => errors
  | _ => errors ++ [("Missing " ++ key ++ ".")%string]
  end.

Definition validate_tool_params (tool_name : string) (params : dict) : list string :=
  let req := fold_left (fun errors key => require_field params key errors) in
  if (String.eqb tool_name "copy" || String.eqb tool_name "move"
      || String.eqb tool_name "zip")%bool
  then req ["source"; "destination"] []
  else if String.eqb tool_name "delete" then req ["target"] []
  else if String.eqb tool_name "download" then req ["url"; "destination"] []
  else if String.eqb tool_name "email"
  then req ["smtp_host"; "smtp_port"; "sender"; "recipient"; "subject"; "body"] []
  else if String.eqb tool_name "wallpaper" then req ["image_path"] []
  else if String.eqb tool_name "vpn" then req ["command"] []
  else [].

End Tools.

(* ===================================================================== *)
(** * The [datetime] and [calendar] modules *)
(* ===================================================================== *)

Module Datetime.

Record date := mkDate { year : Z; month : Z; day : Z }.

Record datetime := mkDT
  { dt_date : date; hour : Z; minute : Z; second : Z; microsecond : Z }.

Definition MINYEAR : Z := 1.
Definition MAXYEAR : Z := 9999.

Definition is_leap (y : Z) : bool :=
  ((y mod 4 =? 0) && (negb (y mod 100 =? 0) || (y mod 400 =? 0)))%bool.

(** [calendar.monthrange(y, m)[1]] for a month in 1..12. *)
Definition days_in_month (y m : Z) : Z :=
  if m =? 2 then (if is_leap y then 29 else 28)
  else if ((m =? 4) || (m =? 6) || (m =? 9) || (m =? 11))%bool then 30
  else 31.

Definition days_before_year (y : Z) : Z :=
  let p := y - 1 in p * 365 + p / 4 - p / 100 + p / 400.

Fixpoint days_before_month_aux (y : Z) (k : nat) : Z :=
  match k with
  | O => 0
  | S k' => days_before_month_aux y k' + days_in_month y (Z.of_nat k)
  end.

Definition days_before_month (y m : Z) : Z :=
  days_before_month_aux y (Z.to_nat (m - 1)).

(** [date.toordinal()]: 1 for 0001-01-01. *)
Definition toordinal (d : date) : Z :=
  days_before_year (year d) + days_before_month (year d) (month d) + day d.

(** [date.weekday()]: Monday is 0, Sunday is 6. *)
Definition weekday (d : date) : Z := (toordinal d + 6) mod 7.

Definition valid_date (d : date) : bool :=
  ((MINYEAR <=? year d) && (year d <=? MAXYEAR)
   && (1 <=? month d) && (month d <=? 12)
   && (1 <=? day d) && (day d <=? days_in_month (year d) (month d)))%bool.

Definition valid_datetime (t : datetime) : bool :=
  (valid_date (dt_date t)
   && (0 <=? hour t) && (hour t <=? 23)
   && (0 <=? minute t) && (minute t <=? 59)
   && (0 <=? second t) && (second t <=? 59)
   && (0 <=? microsecond t) && (microsecond t <=? 999999))%bool.

(** Comparison of dates and of naive datetimes: field by field. *)
Definition date_eqb (a b : date) : bool :=
  ((year a =? year b) && (month a =? month b) && (day a =? day b))%bool.

Definition date_ltb (a b : date) : bool :=
  ((year a <? year b)
   || ((year a =? year b)
       && ((month a <? month b)
           || ((month a =? month b) && (day a <? day b)))))%bool.

Definition time_key (t : datetime) : Z :=
  ((hour t * 60 + minute t) * 60 + second t) * 1000000 + microsecond t.

Definition datetime_ltb (a b : datetime) : bool :=
  (date_ltb (dt_date a) (dt_date b)
   || (date_eqb (dt_date a) (dt_date b)
       && ((hour a <? hour b)
           || ((hour a =? hour b)
               && ((minute a <? minute b)
                   || ((minute a =? minute b)
                       && ((second a <? second b)
                           || ((second a =? second b)
                               && (microsecond a <? microsecond b)))))))))%bool.

Definition datetime_leb (a b : datetime) : bool := negb (datetime_ltb b a).

(** The day after [d]. *)
Definition next_day (d : date) : date :=
  if day d <? days_in_month (year d) (month d)
  then mkDate (year d) (month d) (day d + 1)
  else if month d <? 12 then mkDate (year d) (month d + 1) 1
  else mkDate (year d + 1) 1 1.

(** [d + timedelta(days=k)] for [k >= 0]; [None] is the [OverflowError]
    of a result after year 9999. *)
Fixpoint add_days (k : nat) (d : date) : option date :=
  match k with
  | O => Some d
  | S k' =>
      let d' := next_day d in
      if MAXYEAR <? year d' then None else add_days k' d'
  end.

(** [datetime(y, m, d)], midnight; [None] is the [ValueError] of fields
    out of range. *)
Definition make_datetime (y m d : Z) : option datetime :=
  let dd := mkDate y m d in
  if valid_date dd then Some (mkDT dd 0 0 0 0) else None.

(** [t.replace(hour=h, minute=mi, second=0, microsecond=0)]. *)
Definition replace_time (t : datetime) (h mi : Z) : option datetime :=
  if ((0 <=? h) && (h <=? 23) && (0 <=? mi) && (mi <=? 59))%bool
  then Some (mkDT (dt_date t) h mi 0 0) else None.

(** [t.replace(second=0, microsecond=0)]. *)
Definition truncate_minute (t : datetime) : datetime :=
  mkDT (dt_date t) (hour t) (minute t) 0 0.

(** What [datetime.fromisoformat] reads back from
    [t.isoformat(timespec="seconds")]. *)
Definition truncate_second (t : datetime) : datetime :=
  mkDT (dt_date t) (hour t) (minute t) (second t) 0.

(** [d.isoformat()]: YYYY-MM-DD. *)
Definition isoformat_date (d : date) : string :=
  Py.fmt04 (year d) ++ "-" ++ Py.fmt02 (month d) ++ "-" ++ Py.fmt02 (day d).

(** [t.isoformat(timespec="minutes")] and [timespec="seconds"]. *)
Definition isoformat_minutes (t : datetime) : string :=
  isoformat_date (dt_date t) ++ "T" ++ Py.fmt02 (hour t) ++ ":" ++ Py.fmt02 (minute t).

Definition isoformat_seconds (t : datetime) : string :=
  isoformat_minutes t ++ ":" ++ Py.fmt02 (second t).

(** [now.hour * 60 + now.minute]. *)
Definition minute_of_day (t : datetime) : Z := hour t * 60 + minute t.

(** A reader of the calendar dates [isoformat_date] writes, for use where
    a concrete [datetime.fromisoformat] is wanted. *)
Definition parse_iso_date (s : string) : option date :=
  match Py.split "-" s with
  | [y; m; d] =>
      if ((String.length y =? 4)%nat && (String.length m =? 2)%nat
          && (String.length d =? 2)%nat)%bool
      then match Py.int_digits false 0 y, Py.int_digits false 0 m,
                 Py.int_digits false 0 d with
           | Some y', Some m', Some d' =>
               let dd := mkDate y' m' d' in
               if valid_date dd then Some dd else None
           | _, _, _ => None
           end
      else None
  | _ => None
  end.

End Datetime.

(* ===================================================================== *)
(** * Exceptions and results *)
(* ===================================================================== *)

Inductive exn :=
| ValueError (msg : string)
| KeyError (key : string)
| ImportError (msg : string)
| OSError (msg : string)
| OverflowError (msg : string)
| AttributeError (msg : string)
| IntegrityError (msg : string)
| RuntimeError (msg : string)
| OtherError (msg : string).

(** [str(exc)]. *)
Definition str_exn (e : exn) : string :=
  match e with
  | ValueError m | ImportError m | OSError m | OverflowError m
  | AttributeError m | IntegrityError m | RuntimeError m | OtherError m => m
  | KeyError k => "'" ++ k ++ "'"
  end.

Inductive outcome (A : Type) :=
| Ret (a : A)
| Raise (e : exn).
Arguments Ret {A} a.
Arguments Raise {A} e.

Definition returns {A} (o : outcome A) : bool :=
  match o with Ret _ => true | Raise _ => false end.

(* ===================================================================== *)
(** * models.py *)
(* ===================================================================== *)

Module Job.
Record t := mk
  { id : Z;
    name : string;
    description : string;
    send_to : string;
    program_path : string;
    parameters : string;
    batch_path : string;
    api_enabled : bool;
    api_method : string;
    api_url : string;
    api_headers : string;
    api_body : string;
    api_auth_type : string;
    api_auth_value : string;
    api_timeout : Z;
    api_retries : Z;
    active : bool;
    once_per_day : bool;
    autostart : bool;
    run_as_enabled : bool;
    run_as_admin : bool;
    run_as_user : string;
    run_as_domain : string;
    run_as_password : string;
    last_run_at : option Datetime.datetime }.

(** The [UPDATE jobs SET last_run_at = ?] of [persist_run], seen on the
    [Job] that [from_row] builds. *)
Definition set_last_run_at (j : t) (v : option Datetime.datetime) : t :=
  mk (id j) (name j) (description j) (send_to j) (program_path j)
     (parameters j) (batch_path j) (api_enabled j) (api_method j) (api_url j)
     (api_headers j) (api_body j) (api_auth_type j) (api_auth_value j)
     (api_timeout j) (api_retries j) (active j) (once_per_day j) (autostart j)
     (run_as_enabled j) (run_as_admin j) (run_as_user j) (run_as_domain j)
     (run_as_password j) v.
End Job.

Module ScheduleSlot.
Record t := mk
  { id : Z;
    job_id : Z;
    schedule_type : string;
    days_mask : Z;
    date : option string;
    minute_of_day : Z;
    active : bool }.
End ScheduleSlot.

(** A row of [run_logs], with the columns as the schema types them. *)
Module RunLog.
Record t := mk
  { id : Z;
    job_id : Z;
    scheduled_time : string;
    start_time : option string;
    end_time : option string;
    status : string;
    exit_code : option Z;
    output : option string;
    error : option string }.
End RunLog.

Module RunResult.
Record t := mk
  { status : string;
    exit_code : option Z;
    output : string;
    error : string;
    start_time : Datetime.datetime;
    end_time : Datetime.datetime }.
End RunResult.

(* ===================================================================== *)
(** * db.py: the persisted schema *)
(* ===================================================================== *)

(** The tables [jobs], [schedules] and [run_logs], rows in rowid order. The
    rows of [jobs] and [schedules] are held as [Job.from_row] and
    [ScheduleSlot.from_row] read them: the 0/1 integers that [create_job],
    [update_job], [replace_schedule_slots] and [set_schedule_active] store
    are booleans, and [last_run_at] is the parsed timestamp. The columns
    [created_at] and [updated_at], which nothing reads, are left out. *)
Module Db.
Record t := mk
  { jobs : list Job.t;
    schedules : list ScheduleSlot.t;
    run_logs : list RunLog.t }.
End Db.

(* ===================================================================== *)
(** * The outside world and the effects of a run *)
(* ===================================================================== *)

(** The [urllib.request.Request] that [perform_request] builds, as its
    attributes [full_url], [data] and [headers] and its [get_method()]. *)
Module UrlRequest.
Record t := mk
  { full_url : string;
    data : option string;
    headers : Py.dict;
    method : string }.
End UrlRequest.

(** What one [urlopen] attempt meets. *)
Inductive attempt :=
| Answered (status : Z) (text : string)
    (** a response arrived and its body was read *)
| HTTPError (code : Z) (body : outcome string) (msg : string)
    (** the server answered with an error status; [body] is what reading
        the error body gives *)
| Failed (e : exn).
    (** any other exception: connection, timeout, broken read *)

(** What [subprocess.run] meets. *)
Inductive process :=
| Completed (returncode : Z) (stdout stderr : string)
| TimeoutExpired (stdout stderr : option string)
| LaunchError (e : exn).

(** Executions attempted, in order. *)
Inductive event :=
| EvUrlopen (request : UrlRequest.t) (timeout : Z) (attempt : nat)
| EvSleep (seconds : Z)
| EvTool (call : Tools.tool_call)
| EvSubprocess (command : list string) (timeout : Z)
| EvShellExecute (file params : string)
| EvLogon (username domain password command_line : string).

(** The answers of the operating system, the file system and the network.
    Library functions whose text is not part of the program ([shlex.split],
    [base64.b64encode], [str(Path(p))], [repr], [urllib.parse.urlparse]) are
    taken from here as well. *)
Record World := mkWorld
  { clock : nat -> Datetime.datetime;
      (** successive answers of [datetime.now()] *)
    path_exists : string -> outcome bool;
      (** [Path(p).exists()]: the [OSError] it lets through (a name too
          long, a directory that may not be searched) is a [Raise] *)
    path_str : string -> string;
    shlex_split : string -> outcome (list string);
    b64encode : string -> string;
    repr : string -> string;
      (** [repr(s)] of a string, as exception messages quote it *)
    backend_module : option exn;
      (** loading [Schedule API/request.py]: [None] when it loads *)
    urlparse : string -> option exn;
      (** [urllib.parse.urlparse(url)]: the [ValueError] it raises on a
          malformed authority, [None] when the URL parses *)
    urlopen : UrlRequest.t -> Z -> nat -> attempt;
    subprocess_run : list string -> Z -> process;
    shell_execute_ex : string -> string -> outcome Z;
    platform_system : string;
    named_temporary_file : outcome string;
    create_process_with_logon : string -> string -> string -> string -> outcome Z;
    read_output : string -> outcome string;
      (** the text of the output file, empty when the file is absent *)
    executor : Tools.tool_call -> Tools.ToolResult }.

(** State threaded through a run: how often the clock was read, and the log
    of executions attempted so far. *)
Record St := mkSt { ticks : nat; log : list event }.

Definition M (A : Type) : Type := St -> outcome A * St.

Definition ret {A} (a : A) : M A := fun s => (Ret a, s).

Definition raise {A} (e : exn) : M A := fun s => (Raise e, s).

Definition bind {A B} (m : M A) (k : A -> M B) : M B :=
  fun s =>
    match m s with
    | (Ret a, s') => k a s'
    | (Raise e, s') => (Raise e, s')
    end.

(** [try: m  except Exception as exc: h exc]. *)
Definition try_except {A} (m : M A) (h : exn -> M A) : M A :=
  fun s =>
    match m s with
    | (Ret a, s') => (Ret a, s')
    | (Raise e, s') => h e s'
    end.

Definition lift {A} (o : outcome A) : M A := fun s => (o, s).

Definition emit (e : event) : M unit :=
  fun s => (Ret tt, mkSt (ticks s) (log s ++ [e])).

Definition now (w : World) : M Datetime.datetime :=
  fun s => (Ret (clock w (ticks s)), mkSt (S (ticks s)) (log s)).

Declare Scope run_scope.
Delimit Scope run_scope with run.
Notation "x <- m ;; k" := (bind m (fun x => k))
  (at level 61, m at next level, right associativity) : run_scope.
Notation "m ;;; k" := (bind m (fun _ => k))
  (at level 61, right associativity) : run_scope.
Local Open Scope run_scope.

(* ===================================================================== *)
(** * Schedule API/request.py: the HTTP client *)
(* ===================================================================== *)

Module Request.
Import Py.

(** The result dictionary, with its keys ["status"], ["response"] and,
    when present, ["error"]. *)
Record Response := mkResponse
  { status : Z; response : string; error : option string }.

(** [urllib.parse.unwrap]. *)
Fixpoint drop_last (s : string) : string :=
  match s with
  | EmptyString => EmptyString
  | String a EmptyString => EmptyString
  | String a s' => String a (drop_last s')
  end.

Fixpoint endswith_char (c : ascii) (s : string) : bool :=
  match s with
  | EmptyString => false
  | String a EmptyString => Ascii.eqb a c
  | String _ s' => endswith_char c s'
  end.

Definition unwrap (url : string) : string :=
  let u := strip url in
  let u := if (startswith "<" u && endswith_char ">" u)%bool
           then strip (drop_last (drop 1 u)) else u in
  if startswith "URL:" u then strip (drop 4 u) else u.

(** [urllib.parse._splittype] finds a scheme: one or more characters other
    than [/] and [:], then a colon. *)
Fixpoint has_scheme_aux (seen : bool) (s : string) : bool :=
  match s with
  | EmptyString => false
  | String a s' =>
      if Ascii.eqb a ":" then seen
      else if Ascii.eqb a "/" then false
      else has_scheme_aux true s'
  end.

(** The unwrapped URL starts with a scheme. *)
Definition has_scheme (url : string) : bool := has_scheme_aux false (unwrap url).

(** [urllib.parse._splittag]: [url.rpartition('#')], the fragment being
    [None] when the URL holds no [#]. *)
Fixpoint _splittag (url : string) : string * option string :=
  match url with
  | EmptyString => (EmptyString, None)
  | String a s' =>
      match _splittag s' with
      | (path, Some tag) => (String a path, Some tag)
      | (path, None) =>
          if Ascii.eqb a "#" then (EmptyString, Some path) else (String a path, None)
      end
  end.

(** The property [Request.full_url]: the fragment is put back when it is
    not empty. *)
Definition full_url_of (path : string) (fragment : option string) : string :=
  match fragment with
  | Some (String a t) => path ++ "#" ++ String a t
  | _ => path
  end.

(** [str.capitalize] on the ASCII letters. *)
Definition capitalize (s : string) : string :=
  match s with
  | EmptyString => EmptyString
  | String a r => String (upper_char a) (lower r)
  end.

(** The loop [for key, value in headers.items(): self.add_header(key, value)]
    of the constructor: [add_header] stores the value under
    [key.capitalize()]. *)
Definition add_headers (headers : dict) : dict :=
  fold_left (fun acc kv => dict_set (capitalize (fst kv)) (snd kv) acc) headers [].

(** [Request.get_method()] of a request built with [method=m]: an empty
    [m] leaves the default, which depends on the body. *)
Definition get_method (m : string) (data : option string) : string :=
  if is_empty m
  then match data with Some _ => "POST" | None => "GET" end
  else m.

Definition carries_body (method : string) : bool :=
  let m := upper method in
  (String.eqb m "POST" || String.eqb m "PUT" || String.eqb m "PATCH"
   || String.eqb m "DELETE")%bool.

(** The body [perform_request] hands to the constructor. *)
Definition request_data (method body : string) : option string :=
  if (negb (is_empty body) && carries_body method)%bool then Some body else None.

Section WithWorld.
Variable w : World.

(** The loop [for attempt in range(attempts)], on the attempts left. *)
Fixpoint attempt_loop (request : UrlRequest.t) (timeout attempts : Z)
         (todo : list nat) : M (option Response) :=
  match todo with
  | [] => ret None
  | attempt :: rest =>
      emit (EvUrlopen request timeout attempt) ;;;
      match urlopen w request timeout attempt with
      | Answered st text => ret (Some (mkResponse st text None))
      | HTTPError code body msg =>
          text <- lift body ;;
          ret (Some (mkResponse code text (Some msg)))
      | Failed exc =>
          if Z.of_nat attempt <? attempts - 1
          then emit (EvSleep 1) ;;; attempt_loop request timeout attempts rest
          else ret (Some (mkResponse 0 "" (Some (str_exn exc))))
      end
  end.

(** The dictionary [perform_request] hands to the constructor: the default
    content type when a body is sent, and the [Authorization] header. *)
Definition request_headers (method : string) (headers : dict)
           (body auth_type auth_value : string) : dict :=
  let headers :=
    match request_data method body with
    | Some _ => dict_setdefault "Content-Type" "application/json" headers
    | None => headers
    end in
  let headers :=
    if (String.eqb auth_type "Bearer" && negb (is_empty auth_value))%bool
    then dict_set "Authorization" ("Bearer " ++ auth_value) headers
    else headers in
  if (String.eqb auth_type "Basic" && negb (is_empty auth_value))%bool
  then dict_set "Authorization" ("Basic " ++ b64encode w auth_value) headers
  else headers.

(** [urllib.request.Request(url, data=data, headers=headers, method=method)]:
    the constructor unwraps the URL, splits the fragment off and raises
    ValueError when what is left has no scheme; it then stores the headers
    and, for the origin host, parses the full URL, which can raise as well. *)
Definition new_request (url : string) (data : option string) (headers : dict)
           (method : string) : outcome UrlRequest.t :=
  let '(path, fragment) := _splittag (unwrap url) in
  let full_url := full_url_of path fragment in
  if negb (has_scheme_aux false path)
  then Raise (ValueError ("unknown url type: " ++ repr w full_url))
  else match urlparse w full_url with
       | Some e => Raise e
       | None =>
           Ret (UrlRequest.mk full_url data (add_headers headers)
                              (get_method method data))
       end.

(** The request object [perform_request] builds. *)
Definition prepare (method url : string) (headers : dict)
           (body auth_type auth_value : string) : outcome UrlRequest.t :=
  new_request url (request_data method body)
              (request_headers method headers body auth_type auth_value)
              (upper method).

(** [timeout or 30]. *)
Definition effective_timeout (timeout : Z) : Z :=
  if timeout =? 0 then 30 else timeout.

Definition perform_request (method url : string) (headers : dict)
           (body auth_type auth_value : string) (timeout retries : Z)
  : M (option Response) :=
  request <- lift (prepare method url headers body auth_type auth_value) ;;
  let attempts := Z.max 1 (retries + 1) in
  attempt_loop request (effective_timeout timeout) attempts
               (seq 0 (Z.to_nat attempts)).

End WithWorld.
End Request.

(* ===================================================================== *)
(** * schedule_api.py: loading the HTTP client *)
(* ===================================================================== *)

Module ScheduleApi.

(** [_load_module]. *)
Definition _load_module (w : World) : M unit :=
  match backend_module w with
  | None => ret tt
  | Some e => raise e
  end.

Definition perform_request (w : World) (method url : string) (headers : Py.dict)
           (body auth_type auth_value : string) (timeout retries : Z)
  : M (option Request.Response) :=
  _load_module w ;;;
  Request.perform_request w method url headers body auth_type auth_value
                          timeout retries.

End ScheduleApi.

(* ===================================================================== *)
(** * runner.py: the execution dispatcher *)
(* ===================================================================== *)

Module Runner.
Import Py.

(** The double quote character, as a string. *)
Definition dq : string := String (ascii_of_nat 34) EmptyString.

Definition RunResult := RunResult.t.

(** [_parse_headers]. *)
Definition parse_header_line (headers : dict) (line : string) : dict :=
  if is_empty (strip line) then headers
  else if negb (contains ":" line) then headers
  else let '(key, value) := split_first ":" line in
       dict_set (strip key) (strip value) headers.

Definition _parse_headers (raw : string) : dict :=
  if is_empty raw then []
  else fold_left parse_header_line (splitlines raw) [].

(** [_split_params]. *)
Definition _split_params (w : World) (params : string) : outcome (list string) :=
  if is_empty params then Ret [] else shlex_split w params.

(** The quoting shared by [_command_line] and [_shell_execute_admin]. *)
Definition quote_arg (arg : string) : string :=
  if contains " " arg then dq ++ arg ++ dq else arg.

Definition _command_line (command : list string) : string :=
  join " " (map quote_arg command).

Definition DEFAULT_TIMEOUT : Z := 3600.

Definition no_target_message : string :=
  "No executable or batch file configured.".

(** [f'cmd.exe /c "{base_command} 1> "{output_path}" 2>&1"']. *)
Definition wrap_command (base_command output_path : string) : string :=
  "cmd.exe /c " ++ dq ++ base_command ++ " 1> " ++ dq ++ output_path ++ dq
    ++ " 2>&1" ++ dq.

Definition http_mode (job : Job.t) : bool :=
  (Job.api_enabled job && negb (is_empty (Job.api_url job))
   && negb (is_empty (Job.api_method job)))%bool.

Definition is_tool (job : Job.t) : bool :=
  startswith "tool:" (Job.program_path job).

Section WithWorld.
Variable w : World.

Definition failed (start_time : Datetime.datetime) (exit_code : option Z)
           (error : string) : M RunResult :=
  end_time <- now w ;;
  ret (RunResult.mk "failed" exit_code "" error start_time end_time).

(** [_build_command]; [Ret None] is the [None] of the source. *)
Definition _build_command (job : Job.t) : outcome (option (list string)) :=
  if is_tool job then Ret None
  else if negb (is_empty (Job.batch_path job)) then
    match path_exists w (Job.batch_path job) with
    | Raise e => Raise e
    | Ret false => Ret None
    | Ret true => Ret (Some ["cmd.exe"; "/c"; path_str w (Job.batch_path job)])
    end
  else if negb (is_empty (Job.program_path job)) then
    match path_exists w (Job.program_path job) with
    | Raise e => Raise e
    | Ret false => Ret None
    | Ret true =>
        if negb (is_empty (Job.parameters job)) then
          match _split_params w (Job.parameters job) with
          | Ret extra => Ret (Some (path_str w (Job.program_path job) :: extra))
          | Raise e => Raise e
          end
        else Ret (Some [path_str w (Job.program_path job)])
    end
  else Ret None.

(** [_run_api]. *)
Definition _run_api (job : Job.t) (start_time : Datetime.datetime) : M RunResult :=
  let headers := _parse_headers (Job.api_headers job) in
  result <- ScheduleApi.perform_request w (Job.api_method job) (Job.api_url job)
              headers (Job.api_body job) (Job.api_auth_type job)
              (Job.api_auth_value job) (Job.api_timeout job)
              (Job.api_retries job) ;;
  end_time <- now w ;;
  match result with
  | None => raise (AttributeError "'NoneType' object has no attribute 'get'")
  | Some r =>
      let status_code := Request.status r in
      let ok := ((200 <=? status_code) && (status_code <? 300))%bool in
      ret (RunResult.mk (if ok then "success" else "failed")
                        (if status_code =? 0 then None else Some status_code)
                        (Request.response r)
                        (match Request.error r with Some e => e | None => "" end)
                        start_time end_time)
  end.

(** [params[key]]. *)
Definition item (params : dict) (key : string) : M string :=
  match dict_get key params with
  | Some v => ret v
  | None => raise (KeyError key)
  end.

Definition or_none (s : string) : option string :=
  if is_empty s then None else Some s.

(** [_execute_tool]: the call is logged when the executor is entered. *)
Definition call_tool (c : Tools.tool_call) : M Tools.ToolResult :=
  emit (EvTool c) ;;; ret (executor w c).

Definition _execute_tool (tool_name : string) (params : dict) : M Tools.ToolResult :=
  if String.eqb tool_name "copy" then
    s <- item params "source" ;; d <- item params "destination" ;;
    call_tool (Tools.copy_path s d)
  else if String.eqb tool_name "move" then
    s <- item params "source" ;; d <- item params "destination" ;;
    call_tool (Tools.move_path s d)
  else if String.eqb tool_name "delete" then
    t <- item params "target" ;; call_tool (Tools.delete_path t)
  else if String.eqb tool_name "zip" then
    s <- item params "source" ;; d <- item params "destination" ;;
    call_tool (Tools.zip_path s d)
  else if String.eqb tool_name "download" then
    u <- item params "url" ;; d <- item params "destination" ;;
    call_tool (Tools.download_file u d)
  else if String.eqb tool_name "email" then
    let port_text := dict_get_default "smtp_port" "25" params in
    port <- (if is_empty port_text then ret 25
             else match Py.int port_text with
                  | Some p => ret p
                  | None => raise (ValueError
                              ("invalid literal for int() with base 10: "
                                 ++ repr w port_text))
                  end) ;;
    call_tool (Tools.send_email
                 (dict_get_default "smtp_host" "" params) port
                 (dict_get_default "sender" "" params)
                 (dict_get_default "recipient" "" params)
                 (dict_get_default "subject" "" params)
                 (dict_get_default "body" "" params)
                 (or_none (dict_get_default "username" "" params))
                 (or_none (dict_get_default "password" "" params))
                 (negb (String.eqb (lower (dict_get_default "use_tls" "true" params))
                                   "false")))
  else if String.eqb tool_name "wallpaper" then
    p <- item params "image_path" ;; call_tool (Tools.set_wallpaper p)
  else if String.eqb tool_name "reboot" then call_tool Tools.reboot
  else if String.eqb tool_name "shutdown" then call_tool Tools.shutdown
  else if String.eqb tool_name "vpn" then
    let command := split " " (dict_get_default "command" "" params) in
    call_tool (Tools.connect_vpn (filter (fun part => negb (is_empty part)) command))
  else raise (ValueError ("Unknown tool: " ++ tool_name)).

(** [_run_tool]. *)
Definition _run_tool (job : Job.t) (start_time : Datetime.datetime) : M RunResult :=
  let tool_name := split_last "tool:" (Job.program_path job) in
  let params := Tools.parse_tool_params (Job.parameters job) in
  let errors := Tools.validate_tool_params tool_name params in
  match errors with
  | _ :: _ => failed start_time (Some 1) (join " " errors)
  | [] =>
      try_except
        (result <- _execute_tool tool_name params ;;
         end_time <- now w ;;
         let ok := Tools.success result in
         ret (RunResult.mk (if ok then "success" else "failed")
                           (Some (if ok then 0 else 1))
                           (if ok then Tools.message result else "")
                           (if ok then "" else Tools.message result)
                           start_time end_time))
        (fun exc => failed start_time None (str_exn exc))
  end.

(** [_shell_execute_admin]. *)
Definition _shell_execute_admin (command : list string) : M Z :=
  match command with
  | [] => ret 1
  | file_path :: rest =>
      let params := join " " (map quote_arg rest) in
      emit (EvShellExecute file_path params) ;;;
      lift (shell_execute_ex w file_path params)
  end.

Definition finished (exit_code : Z) (output : string)
           (start_time : Datetime.datetime) : M RunResult :=
  end_time <- now w ;;
  ret (RunResult.mk (if exit_code =? 0 then "success" else "failed")
                    (Some exit_code) output "" start_time end_time).

(** [_run_as_admin]. *)
Definition _run_as_admin (command : list string) (start_time : Datetime.datetime)
  : M RunResult :=
  try_except
    (exit_code <- _shell_execute_admin command ;;
     finished exit_code "" start_time)
    (fun exc => failed start_time None (str_exn exc)).

(** [_run_as]. The [finally] clause, which removes the output file and
    swallows the [OSError] of doing so, leaves no trace here. *)
Definition _run_as (job : Job.t) (command : list string)
           (start_time : Datetime.datetime) : M RunResult :=
  if negb (String.eqb (lower (platform_system w)) "windows")
  then failed start_time None "Run-as is only supported on Windows."
  else
    try_except
      (output_path <- lift (named_temporary_file w) ;;
       let base_command := _command_line command in
       let wrapped := wrap_command base_command output_path in
       emit (EvLogon (Job.run_as_user job) (Job.run_as_domain job)
                     (Job.run_as_password job) wrapped) ;;;
       exit_code <- lift (create_process_with_logon w (Job.run_as_user job)
                            (Job.run_as_domain job) (Job.run_as_password job)
                            wrapped) ;;
       end_time <- now w ;;
       output <- lift (read_output w output_path) ;;
       ret (RunResult.mk (if exit_code =? 0 then "success" else "failed")
                         (Some exit_code) output "" start_time end_time))
      (fun exc => failed start_time None (str_exn exc)).

Definition or_default (o : option string) (default : string) : string :=
  match o with
  | Some (String a s) => String a s
  | _ => default
  end.

(** The direct launch at the end of [run_job]. *)
Definition run_direct (command : list string) (start_time : Datetime.datetime)
  : M RunResult :=
  emit (EvSubprocess command DEFAULT_TIMEOUT) ;;;
  match subprocess_run w command DEFAULT_TIMEOUT with
  | Completed returncode stdout stderr =>
      end_time <- now w ;;
      ret (RunResult.mk (if returncode =? 0 then "success" else "failed")
                        (Some returncode) stdout stderr start_time end_time)
  | TimeoutExpired stdout stderr =>
      end_time <- now w ;;
      ret (RunResult.mk "timeout" None (or_default stdout "")
                        (or_default stderr "Process timed out.")
                        start_time end_time)
  | LaunchError exc => failed start_time None (str_exn exc)
  end.

(** The end of [run_job], once the command is built: elevated, under
    another identity, or direct. *)
Definition launch (job : Job.t) (command : list string)
           (start_time : Datetime.datetime) : M RunResult :=
  if Job.run_as_admin job then _run_as_admin command start_time
  else if (Job.run_as_enabled job && negb (is_empty (Job.run_as_user job))
           && negb (is_empty (Job.run_as_password job)))%bool
  then _run_as job command start_time
  else run_direct command start_time.

(** [JobRunner.run_job]. *)
Definition run_job (job : Job.t) (scheduled_time : Datetime.datetime) : M RunResult :=
  start_time <- now w ;;
  if http_mode job then _run_api job start_time
  else if is_tool job then _run_tool job start_time
  else
    command <- lift (_build_command job) ;;
    match command with
    | None | Some [] => failed start_time None no_target_message
    | Some command => launch job command start_time
    end.

End WithWorld.

(** ** Persisting a run *)

Definition next_rowid (rows : list RunLog.t) : Z :=
  fold_left (fun m r => Z.max m (RunLog.id r)) rows 0 + 1.

(** The unique index [idx_run_logs_unique] on [(job_id, scheduled_time)]. *)
Definition same_key (job_id : Z) (scheduled_time : string) (r : RunLog.t) : bool :=
  ((RunLog.job_id r =? job_id) && String.eqb (RunLog.scheduled_time r) scheduled_time)%bool.

Definition job_exists (db : Db.t) (job_id : Z) : bool :=
  existsb (fun j => Job.id j =? job_id) (Db.jobs db).

Definition row_of (id job_id : Z) (scheduled_time : Datetime.datetime)
           (result : RunResult.t) : RunLog.t :=
  RunLog.mk id job_id
            (Datetime.isoformat_minutes scheduled_time)
            (Some (Datetime.isoformat_seconds (RunResult.start_time result)))
            (Some (Datetime.isoformat_seconds (RunResult.end_time result)))
            (RunResult.status result)
            (RunResult.exit_code result)
            (Some (RunResult.output result))
            (Some (RunResult.error result)).

(** [INSERT OR REPLACE INTO run_logs]: rows in conflict on the unique index
    are deleted, then the row is inserted under a fresh rowid. The foreign
    key on [job_id] is enforced ([PRAGMA foreign_keys = ON]). *)
Definition insert_or_replace (db : Db.t) (job_id : Z)
           (scheduled_time : Datetime.datetime) (result : RunResult.t)
  : outcome (list RunLog.t) :=
  if negb (job_exists db job_id)
  then Raise (IntegrityError "FOREIGN KEY constraint failed")
  else
    let key := Datetime.isoformat_minutes scheduled_time in
    let kept := filter (fun r => negb (same_key job_id key r)) (Db.run_logs db) in
    Ret (kept ++ [row_of (next_rowid (Db.run_logs db)) job_id scheduled_time result]).

(** [UPDATE jobs SET last_run_at = ?, updated_at = ? WHERE id = ?]. *)
Definition update_last_run (jobs : list Job.t) (job_id : Z)
           (end_time : Datetime.datetime) : list Job.t :=
  map (fun j => if Job.id j =? job_id
                then Job.set_last_run_at j (Some (Datetime.truncate_second end_time))
                else j) jobs.

(** [JobRunner.persist_run]: the database after the call, and whether the
    call raised; nothing is committed when it does. *)
Definition persist_run (db : Db.t) (job_id : Z) (scheduled_time : Datetime.datetime)
           (result : RunResult.t) : outcome unit * Db.t :=
  match insert_or_replace db job_id scheduled_time result with
  | Raise e => (Raise e, db)
  | Ret rows =>
      (Ret tt,
       Db.mk (update_last_run (Db.jobs db) job_id (RunResult.end_time result))
             (Db.schedules db) rows)
  end.

End Runner.

(* ===================================================================== *)
(** * repository.py: the next run of a job *)
(* ===================================================================== *)

Module Repository.
Import Datetime.

Definition Slot := ScheduleSlot.t.

(** [ORDER BY minute_of_day], as a stable insertion sort of the rows. *)
Fixpoint insert_slot (s : Slot) (l : list Slot) : list Slot :=
  match l with
  | [] => [s]
  | x :: l' =>
      if ScheduleSlot.minute_of_day s <? ScheduleSlot.minute_of_day x
      then s :: x :: l'
      else x :: insert_slot s l'
  end.

Definition order_by_minute (l : list Slot) : list Slot :=
  fold_right insert_slot [] (rev l).

(** [slot["days_mask"] & day_mask] as a truth value. *)
Definition mask_has (days_mask day_mask : Z) : bool :=
  negb (Z.land days_mask day_mask =? 0).

(** [_minute_to_datetime]. *)
Definition _minute_to_datetime (reference : datetime) (minute_of_day : Z)
  : outcome datetime :=
  let hour := minute_of_day / 60 in
  let minute := minute_of_day mod 60 in
  match replace_time reference hour minute with
  | Some t => Ret t
  | None => Raise (ValueError "hour must be in 0..23")
  end.

(** The body of the loop over [day_offset] in [_next_recurring_run]. *)
Definition recurring_pick (now : datetime) (day_offset : nat) (target : date)
           (slots : list Slot) : option Slot :=
  let day_mask := Z.shiftl 1 (weekday target) in
  find (fun slot =>
          (mask_has (ScheduleSlot.days_mask slot) day_mask
           && negb ((day_offset =? 0)%nat
                    && (ScheduleSlot.minute_of_day slot <? Datetime.minute_of_day now)))%bool)
       slots.

Fixpoint recurring_loop (now : datetime) (slots : list Slot) (offsets : list nat)
  : outcome (option datetime) :=
  match offsets with
  | [] => Ret None
  | day_offset :: rest =>
      match add_days day_offset (dt_date now) with
      | None => Raise (OverflowError "date value out of range")
      | Some target =>
          match recurring_pick now day_offset target slots with
          | Some slot =>
              match _minute_to_datetime
                      (mkDT target (hour now) (minute now) (second now) (microsecond now))
                      (ScheduleSlot.minute_of_day slot) with
              | Ret t => Ret (Some t)
              | Raise e => Raise e
              end
          | None => recurring_loop now slots rest
          end
      end
  end.

(** [_next_recurring_run]. *)
Definition _next_recurring_run (now : datetime) (slots : list Slot)
  : outcome (option datetime) :=
  recurring_loop now slots (seq 0 8).

(** The loop over the slots shared by [_next_date_run] and
    [_next_monthly_run]: the first slot not already past on [target]. *)
Definition first_slot_on (now : datetime) (target : date) (slots : list Slot)
  : option Slot :=
  find (fun slot =>
          negb (date_eqb target (dt_date now)
                && (ScheduleSlot.minute_of_day slot <? Datetime.minute_of_day now)))
       slots.

Section WithParser.
(** [datetime.fromisoformat(s).date()]; [None] is the [ValueError]. *)
Variable fromisoformat_date : string -> option date.

(** [_next_date_run]. *)
Definition _next_date_run (now : datetime) (slots : list Slot)
  : outcome (option datetime) :=
  match slots with
  | [] => Raise (OtherError "list index out of range")
  | first :: _ =>
      match ScheduleSlot.date first with
      | None => Ret None
      | Some date_str =>
          if Py.is_empty date_str then Ret None
          else match fromisoformat_date date_str with
               | None => Ret None
               | Some target_date =>
                   if date_ltb target_date (dt_date now) then Ret None
                   else match first_slot_on now target_date slots with
                        | None => Ret None
                        | Some slot =>
                            match _minute_to_datetime
                                    (mkDT target_date (hour now) (minute now)
                                          (second now) (microsecond now))
                                    (ScheduleSlot.minute_of_day slot) with
                            | Ret t => Ret (Some t)
                            | Raise e => Raise e
                            end
                        end
               end
      end
  end.

(** The loop over [month_offset] in [_next_monthly_run]. *)
Fixpoint monthly_loop (now : datetime) (scheduled_day : Z) (slots : list Slot)
         (offsets : list nat) : outcome (option datetime) :=
  match offsets with
  | [] => Ret None
  | month_offset :: rest =>
      let target_month := month (dt_date now) + Z.of_nat month_offset in
      let target_year := year (dt_date now) + (target_month - 1) / 12 in
      let target_month := (target_month - 1) mod 12 + 1 in
      let last_day := days_in_month target_year target_month in
      let run_day := Z.min scheduled_day last_day in
      match make_datetime target_year target_month run_day with
      | None => Raise (ValueError "day is out of range for month")
      | Some target_date =>
          if date_ltb (dt_date target_date) (dt_date now)
          then monthly_loop now scheduled_day slots rest
          else match first_slot_on now (dt_date target_date) slots with
               | Some slot =>
                   match _minute_to_datetime target_date
                           (ScheduleSlot.minute_of_day slot) with
                   | Ret t => Ret (Some t)
                   | Raise e => Raise e
                   end
               | None => monthly_loop now scheduled_day slots rest
               end
      end
  end.

(** [_next_monthly_run]. *)
Definition _next_monthly_run (now : datetime) (slots : list Slot)
  : outcome (option datetime) :=
  match slots with
  | [] => Raise (OtherError "list index out of range")
  | first :: _ =>
      let day_str := match ScheduleSlot.date first with Some s => s | None => "" end in
      match Py.int day_str with
      | None => Ret None
      | Some scheduled_day => monthly_loop now scheduled_day slots (seq 0 13)
      end
  end.

(** The rows [next_run_for_job] selects: the active slots of the job,
    by minute of day. *)
Definition active_slots (db : Db.t) (job_id : Z) : list Slot :=
  order_by_minute
    (filter (fun s => ((ScheduleSlot.job_id s =? job_id) && ScheduleSlot.active s)%bool)
            (Db.schedules db)).

(** [Repository.next_run_for_job], with [now] for [datetime.now()]. *)
Definition next_run_for_job (db : Db.t) (now : datetime) (job_id : Z)
  : outcome (option datetime) :=
  match active_slots db job_id with
  | [] => Ret None
  | first :: rest =>
      let row := first :: rest in
      let schedule_type := ScheduleSlot.schedule_type first in
      if String.eqb schedule_type "date" then _next_date_run now row
      else if String.eqb schedule_type "monthly" then _next_monthly_run now row
      else _next_recurring_run now row
  end.

End WithParser.
End Repository.

(* ===================================================================== *)
(** * scheduler.py: due jobs and the polling engine *)
(* ===================================================================== *)

Module Scheduler.
Import Datetime.

Record DueJob := mkDueJob
  { job : Job.t; schedule_id : Z; scheduled_time : datetime }.

(** [weekday_mask]. *)
Definition weekday_mask (dt : datetime) : Z := Z.shiftl 1 (weekday (dt_date dt)).

(** The [WHERE] clause of the query of [_get_due_jobs], on a joined row. *)
Definition date_condition (s : ScheduleSlot.t) (day_mask : Z) (today day_str : string)
  : bool :=
  let date_is v := match ScheduleSlot.date s with
                   | Some d => String.eqb d v
                   | None => false
                   end in
  ((String.eqb (ScheduleSlot.schedule_type s) "recurring"
    && negb (Z.land (ScheduleSlot.days_mask s) day_mask =? 0))
   || (String.eqb (ScheduleSlot.schedule_type s) "date" && date_is today)
   || (String.eqb (ScheduleSlot.schedule_type s) "monthly" && date_is day_str))%bool.

Definition selected (j : Job.t) (s : ScheduleSlot.t) (minute_of_day day_mask : Z)
           (today day_str : string) : bool :=
  ((ScheduleSlot.job_id s =? Job.id j)
   && Job.active j && ScheduleSlot.active s
   && (ScheduleSlot.minute_of_day s =? minute_of_day)
   && date_condition s day_mask today day_str)%bool.

(** The join [schedules s JOIN jobs j ON s.job_id = j.id], filtered. *)
Definition query (db : Db.t) (minute_of_day day_mask : Z) (today day_str : string)
  : list (Job.t * ScheduleSlot.t) :=
  flat_map (fun s =>
              map (fun j => (j, s))
                  (filter (fun j => selected j s minute_of_day day_mask today day_str)
                          (Db.jobs db)))
           (Db.schedules db).

(** [_has_run_log]. *)
Definition _has_run_log (db : Db.t) (job_id : Z) (scheduled_time : datetime) : bool :=
  existsb (Runner.same_key job_id (isoformat_minutes scheduled_time)) (Db.run_logs db).

(** The first test of the loop: once per day, and already run today. *)
Definition ran_today (j : Job.t) (today : string) : bool :=
  (Job.once_per_day j
   && match Job.last_run_at j with
      | Some t => String.eqb (isoformat_date (dt_date t)) today
      | None => false
      end)%bool.

(** The test of the loop on a monthly row: [true] when the row is skipped. *)
Definition monthly_skip (s : ScheduleSlot.t) (now : datetime) (last_day : Z) : bool :=
  if String.eqb (ScheduleSlot.schedule_type s) "monthly" then
    let text := match ScheduleSlot.date s with
                | Some (String a r) => String a r
                | _ => "0"
                end in
    match Py.int text with
    | None => true
    | Some scheduled_day =>
        ((last_day <? scheduled_day) && negb (day (dt_date now) =? last_day))%bool
    end
  else false.

(** [SchedulerEngine._get_due_jobs]. *)
Definition _get_due_jobs (db : Db.t) (now : datetime) : list DueJob :=
  let minute_of_day := Datetime.minute_of_day now in
  let day_mask := weekday_mask now in
  let today := isoformat_date (dt_date now) in
  let day_str := Py.fmt02 (day (dt_date now)) in
  let last_day := days_in_month (year (dt_date now)) (month (dt_date now)) in
  let scheduled_time := truncate_minute now in
  let rows := query db minute_of_day day_mask today day_str in
  flat_map (fun row =>
              let '(job, s) := row in
              if ran_today job today then []
              else if _has_run_log db (Job.id job) scheduled_time then []
              else if monthly_skip s now last_day then []
              else [mkDueJob job (ScheduleSlot.id s) scheduled_time])
           rows.

(** ** The engine's thread handling

    [thread] is [self._thread]; [alive] holds the polling threads that
    have been started and have not finished. Each call of a method is one
    step. *)
Record Engine := mkEngine
  { thread : option nat;
    alive : list nat;
    stop_event : bool;
    next_thread : nat;
    executor_open : bool }.

(** [self._thread and self._thread.is_alive()]. *)
Definition is_running (e : Engine) : bool :=
  match thread e with
  | Some t => existsb (Nat.eqb t) (alive e)
  | None => false
  end.

Definition start (e : Engine) : Engine :=
  if is_running e then e
  else mkEngine (Some (next_thread e)) (next_thread e :: alive e) false
                (S (next_thread e)) (executor_open e).

Definition ensure_running (e : Engine) : Engine :=
  if negb (is_running e) then start e else e.

(** The polling thread [t] leaves [_run_loop]. *)
Definition thread_exit (t : nat) (e : Engine) : Engine :=
  mkEngine (thread e) (filter (fun x => negb (Nat.eqb x t)) (alive e))
           (stop_event e) (next_thread e) (executor_open e).

(** [stop]: [joined] tells whether the thread finished within the five
    seconds of the [join]. *)
Definition stop (joined : bool) (e : Engine) : Engine :=
  let e' := mkEngine (thread e) (alive e) true (next_thread e) false in
  match thread e with
  | Some t => if joined then thread_exit t e' else e'
  | None => e'
  end.

Definition init : Engine := mkEngine None [] false 0 true.

Inductive call := CallStart | CallEnsureRunning.

Definition run_call (c : call) (e : Engine) : Engine :=
  match c with
  | CallStart => start e
  | CallEnsureRunning => ensure_running e
  end.

Inductive step : Engine -> Engine -> Prop :=
| step_start e : step e (start e)
| step_ensure e : step e (ensure_running e)
| step_stop joined e : step e (stop joined e)
| step_exit t e : In t (alive e) -> step e (thread_exit t e).

Inductive reachable : Engine -> Prop :=
| reach_init : reachable init
| reach_step e e' : reachable e -> step e e' -> reachable e'.

End Scheduler.


(* ===================================================================== *)
(** * Predicates used by the statements *)
(* ===================================================================== *)

Module Wf.
Import Py.

(** A list of keys without repetition. *)
Fixpoint distinct (l : list string) : bool :=
  match l with
  | [] => true
  | x :: r => (negb (existsb (String.eqb x) r) && distinct r)%bool
  end.

(** The association list represents a [dict]: no key occurs twice. *)
Definition is_dict (p : dict) : bool := distinct (keys p).

(** Keys are non-empty and hold neither [=] nor [;]; values hold no [;]. *)
Definition plain_param (kv : string * string) : bool :=
  (negb (is_empty (fst kv)) && negb (contains "=" (fst kv))
   && negb (contains ";" (fst kv)) && negb (contains ";" (snd kv)))%bool.

Definition plain_params (p : dict) : bool := forallb plain_param p.

End Wf.

(* ===================================================================== *)
(** * Observations and sample data *)
(* ===================================================================== *)

(** The rows of [run_logs] recorded for a job at a scheduled minute. *)
Definition records_for (db : Db.t) (job_id : Z) (scheduled_time : Datetime.datetime)
  : list RunLog.t :=
  filter (Runner.same_key job_id (Datetime.isoformat_minutes scheduled_time))
         (Db.run_logs db).


Module Sample.
Import Datetime.

Definition at_time (y m d h mi s : Z) : datetime := mkDT (mkDate y m d) h mi s 0.

(** A job that launches a program; the variants below change its target. *)
Definition program_job : Job.t :=
  Job.mk 1 "backup" "" "" "C:\tools\backup.exe" "" "" false "" "" "" "" "" "" 0 0
         true false false false false "" "" "" None.

Definition slot (id job_id : Z) (kind : string) (mask : Z) (date : option string)
           (minute : Z) : ScheduleSlot.t :=
  ScheduleSlot.mk id job_id kind mask date minute true.

Definition db_with (slots : list ScheduleSlot.t) : Db.t :=
  Db.mk [program_job] slots [].

Definition ok_result (t : datetime) : RunResult.t :=
  RunResult.mk "success" (Some 0) "done" "" t t.

Definition bad_result (t : datetime) : RunResult.t :=
  RunResult.mk "failed" (Some 3) "" "disk full" t t.

End Sample.

(** The [urlopen] attempts among logged events. *)
Definition attempts_made (l : list event) : nat :=
  List.length (filter (fun e => match e with EvUrlopen _ _ _ => true | _ => false end) l).

Module SampleWorld.

(** A world in which nothing exists and every launch fails; the samples
    below override what they need. *)
Definition answers (net : nat -> attempt) (module : option exn)
           (exists_ : string -> bool) (proc : list string -> process) : World :=
  mkWorld (fun _ => Sample.at_time 2024 1 3 10 0 0)
          (fun p => Ret (exists_ p))
          (fun p => p)
          (fun s => Ret (Py.split " " s))
          (fun s => s)
          (fun s => "'" ++ s ++ "'")%string
          module
          (fun _ => None)
          (fun _ _ n => net n)
          (fun c _ => proc c)
          (fun _ _ => Raise (OSError "ShellExecuteExW failed"))
          "Linux"
          (Raise (OSError "no temporary directory"))
          (fun _ _ _ _ => Raise (OSError "CreateProcessWithLogonW failed: 1326"))
          (fun _ => Ret "")
          (fun _ => Tools.mkToolResult false "not available").

(** A host whose first two connections fail and whose third answers 200. *)
Definition flaky_host (n : nat) : attempt :=
  match n with
  | O | S O => Failed (OSError "connection refused")
  | _ => Answered 200 "ok"
  end.

(** A host that answers 404 to every request. *)
Definition missing_page (n : nat) : attempt :=
  HTTPError 404 (Ret "not found") "HTTP Error 404: Not Found".

Definition nothing_exists (p : string) : bool := false.
Definition no_process (c : list string) : process :=
  LaunchError (OSError "file not found").

Definition missing : World := answers missing_page None nothing_exists no_process.

Definition start_state : St := mkSt 0 [].

End SampleWorld.

(** A sequence of [start()] and [ensure_running()] calls, in order. *)
Definition run_calls (calls : list Scheduler.call) (e : Scheduler.Engine)
  : Scheduler.Engine :=
  fold_left (fun e c => Scheduler.run_call c e) calls e.

(** Every live polling thread is the one [self._thread] refers to, and it
    is listed once. *)
Definition one_thread (e : Scheduler.Engine) : Prop :=
  Scheduler.alive e = []
  \/ exists t, Scheduler.alive e = [t] /\ Scheduler.thread e = Some t.

(** The primary keys of [jobs] and [schedules]: no id occurs twice. *)
Fixpoint distinct_ids (l : list Z) : bool :=
  match l with
  | [] => true
  | x :: r => (negb (existsb (Z.eqb x) r) && distinct_ids r)%bool
  end.

Definition primary_keys (db : Db.t) : bool :=
  (distinct_ids (map Job.id (Db.jobs db))
   && distinct_ids (map ScheduleSlot.id (Db.schedules db)))%bool.

Module SampleJobs.
Import Datetime.

(** An active job with the given once-per-day flag and last run. *)
Definition daily_job (once_per_day : bool) (last_run_at : option datetime) : Job.t :=
  Job.mk 1 "backup" "" "" "C:\tools\backup.exe" "" "" false "" "" "" "" "" "" 0 0
         true once_per_day false false false "" "" "" last_run_at.

(** Monday to Friday. *)
Definition weekdays : Z := 31.

(** Job 1 with one recurring slot at 10:00 on weekdays. *)
Definition weekday_db (once_per_day : bool) (last_run_at : option datetime) : Db.t :=
  Db.mk [daily_job once_per_day last_run_at]
        [Sample.slot 7 1 "recurring" weekdays None 600] [].

(** Job 1 with one monthly slot on day 31 at 00:00. *)
Definition month_end_db : Db.t :=
  Db.mk [daily_job false None] [Sample.slot 7 1 "monthly" 0 (Some "31") 0] [].

End SampleJobs.

(** What it takes for a joined row to come out of [_get_due_jobs]. *)
Definition passes (db : Db.t) (now : Datetime.datetime) (j : Job.t) (s : ScheduleSlot.t)
  : Prop :=
  In j (Db.jobs db) /\ In s (Db.schedules db)
  /\ Scheduler.selected j s (Datetime.minute_of_day now) (Scheduler.weekday_mask now)
              (Datetime.isoformat_date (Datetime.dt_date now)) (Py.fmt02 (Datetime.day (Datetime.dt_date now))) = true
  /\ Scheduler.ran_today j (Datetime.isoformat_date (Datetime.dt_date now)) = false
  /\ Scheduler._has_run_log db (Job.id j) (Datetime.truncate_minute now) = false
  /\ Scheduler.monthly_skip s now
       (Datetime.days_in_month (Datetime.year (Datetime.dt_date now))
                               (Datetime.month (Datetime.dt_date now))) = false.


(** ** Reading the log of a run *)

Inductive backend := HttpClient | ToolExecutor | ProcessLaunch.

Definition backend_of (e : event) : backend :=
  match e with
  | EvUrlopen _ _ _ | EvSleep _ => HttpClient
  | EvTool _ => ToolExecutor
  | EvSubprocess _ _ | EvShellExecute _ _ | EvLogon _ _ _ _ => ProcessLaunch
  end.


(** The computation only adds events that satisfy [P] to the log. *)
Definition emits {A} (P : event -> Prop) (m : M A) : Prop :=
  forall st, exists new, log (snd (m st)) = log st ++ new /\ Forall P new.




Module SampleRuns.

(** Job 1 in HTTP mode, with the given URL. *)
Definition hook_job (url : string) : Job.t :=
  Job.mk 1 "hook" "" "" "C:\tools\backup.exe" "" "" true "POST" url "" "{}" "" "" 0 2
         true false false false false "" "" "" None.

(** Job 1 with the given program, parameters and batch file. *)
Definition target_job (program_path parameters batch_path : string) : Job.t :=
  Job.mk 1 "task" "" "" program_path parameters batch_path false "" "" "" "" "" "" 0 0
         true false false false false "" "" "" None.

(** A world where the two files named exist and processes exit with 0. *)
Definition files (p : string) : bool :=
  (String.eqb p "C:\tools\backup.exe" || String.eqb p "C:\jobs\nightly.bat")%bool.

Definition exits_zero (c : list string) : process := Completed 0 "done" "".

Definition desk : World :=
  SampleWorld.answers SampleWorld.flaky_host None files exits_zero.

(** The same world without the HTTP backend module. *)
Definition no_backend : World :=
  SampleWorld.answers SampleWorld.flaky_host
                      (Some (ImportError "Schedule API backend not found."))
                      files exits_zero.

End SampleRuns.

(* ===================================================================== *)
(** * repository.py: jobs, slots, settings and test logs *)
(* ===================================================================== *)

Module Store.
Import Datetime.

(** [get_job]. *)
Definition get_job (db : Db.t) (job_id : Z) : option Job.t :=
  find (fun j => Job.id j =? job_id) (Db.jobs db).

(** [delete_job]: the slots and run logs of the job, then the job. *)
Definition delete_job (db : Db.t) (job_id : Z) : Db.t :=
  Db.mk (filter (fun j => negb (Job.id j =? job_id)) (Db.jobs db))
        (filter (fun s => negb (ScheduleSlot.job_id s =? job_id)) (Db.schedules db))
        (filter (fun r => negb (RunLog.job_id r =? job_id)) (Db.run_logs db)).

(** [list_schedule_slots]: every slot of the job, by minute of day. *)
Definition list_schedule_slots (db : Db.t) (job_id : Z) : list ScheduleSlot.t :=
  Repository.order_by_minute
    (filter (fun s => ScheduleSlot.job_id s =? job_id) (Db.schedules db)).

(** The rowid SQLite gives the next row of [schedules]. *)
Definition next_slot_id (rows : list ScheduleSlot.t) : Z :=
  fold_left (fun m s => Z.max m (ScheduleSlot.id s)) rows 0 + 1.

(** The [executemany] of [replace_schedule_slots]: one active row for each
    minute, all with the same kind, mask and date. *)
Fixpoint insert_slots (rows : list ScheduleSlot.t) (job_id : Z) (schedule_type : string)
         (days_mask : Z) (date : option string) (slots : list Z)
  : list ScheduleSlot.t :=
  match slots with
  | [] => rows
  | minute_of_day :: rest =>
      insert_slots
        (rows ++ [ScheduleSlot.mk (next_slot_id rows) job_id schedule_type days_mask
                                  date minute_of_day true])
        job_id schedule_type days_mask date rest
  end.

(** An integer SQLite can store: [sqlite3] raises OverflowError when asked
    to bind any other. *)
Definition fits_int64 (n : Z) : bool :=
  ((- 2 ^ 63 <=? n) && (n <? 2 ^ 63))%bool.

Definition too_large : exn :=
  OverflowError "Python int too large to convert to SQLite INTEGER".

(** [replace_schedule_slots]: delete, then insert row by row. Binding an
    integer beyond 64 bits raises OverflowError; with the foreign key
    enforced, inserting the first row for a job that does not exist raises
    IntegrityError. Whenever the call raises, the transaction, the delete
    included, is not committed. *)
Definition replace_schedule_slots (db : Db.t) (job_id : Z) (schedule_type : string)
           (slots : list Z) (days_mask : Z) (date : option string)
  : outcome unit * Db.t :=
  let kept := filter (fun s => negb (ScheduleSlot.job_id s =? job_id)) (Db.schedules db) in
  if negb (fits_int64 job_id) then (Raise too_large, db)
  else
    match slots with
    | [] => (Ret tt, Db.mk (Db.jobs db) kept (Db.run_logs db))
    | first :: rest =>
        if negb (fits_int64 days_mask && fits_int64 first)%bool
        then (Raise too_large, db)
        else if negb (Runner.job_exists db job_id)
        then (Raise (IntegrityError "FOREIGN KEY constraint failed"), db)
        else if negb (forallb fits_int64 rest)
        then (Raise too_large, db)
        else (Ret tt,
              Db.mk (Db.jobs db)
                    (insert_slots kept job_id schedule_type days_mask date slots)
                    (Db.run_logs db))
    end.

(** [set_schedule_active]. *)
Definition set_schedule_active (db : Db.t) (job_id : Z) (active : bool) : Db.t :=
  Db.mk (Db.jobs db)
        (map (fun s => if ScheduleSlot.job_id s =? job_id
                       then ScheduleSlot.mk (ScheduleSlot.id s) (ScheduleSlot.job_id s)
                                            (ScheduleSlot.schedule_type s)
                                            (ScheduleSlot.days_mask s) (ScheduleSlot.date s)
                                            (ScheduleSlot.minute_of_day s) active
                       else s)
             (Db.schedules db))
        (Db.run_logs db).

(** The table [settings]: key, value. *)
Definition Settings := list (string * string).

(** [get_setting]. *)
Definition get_setting (settings : Settings) (key default : string) : string :=
  match find (fun kv => String.eqb (fst kv) key) settings with
  | Some kv => snd kv
  | None => default
  end.

(** [set_setting]: insert, or on a conflict on the key update the value. *)
Fixpoint set_setting (settings : Settings) (key value : string) : Settings :=
  match settings with
  | [] => [(key, value)]
  | (k, v) :: rest =>
      if String.eqb k key then (k, value) :: rest
      else (k, v) :: set_setting rest key value
  end.

(** [log_api_test], with [now] for [datetime.now()]: a plain [INSERT], so
    the unique index and the foreign key both can refuse the row, once its
    integers could be bound. *)
Definition log_api_test (db : Db.t) (now : datetime) (job_id status_code : Z)
           (response error : string) : outcome unit * Db.t :=
  let text := isoformat_seconds now in
  let status := if ((200 <=? status_code) && (status_code <? 300))%bool
                then "success" else "failed" in
  if negb (fits_int64 job_id && fits_int64 status_code)%bool
  then (Raise too_large, db)
  else if existsb (Runner.same_key job_id text) (Db.run_logs db)
  then (Raise (IntegrityError
                 "UNIQUE constraint failed: run_logs.job_id, run_logs.scheduled_time"),
        db)
  else if negb (Runner.job_exists db job_id)
  then (Raise (IntegrityError "FOREIGN KEY constraint failed"), db)
  else (Ret tt,
        Db.mk (Db.jobs db) (Db.schedules db)
              (Db.run_logs db
               ++ [RunLog.mk (Runner.next_rowid (Db.run_logs db)) job_id text
                             (Some text) (Some text) status
                             (if status_code =? 0 then None else Some status_code)
                             (Some response) (Some error)])).

End Store.

(* ===================================================================== *)
(** * validation.py *)
(* ===================================================================== *)

Module Validation.
Import Py.

(** [path and not Path(path).exists()]. *)
Definition named_and_missing (w : World) (path : string) : outcome bool :=
  if is_empty path then Ret false
  else match path_exists w path with
       | Ret found => Ret (negb found)
       | Raise e => Raise e
       end.

(** [validate_job_targets]; [Path(p).exists()] is asked of the world, the
    program first. *)
Definition validate_job_targets (w : World) (program_path batch_path : string)
  : outcome (list string) :=
  if (is_empty program_path && is_empty batch_path)%bool
  then Ret ["Either a program path or a batch file path is required."]
  else if startswith "tool:" program_path then Ret []
  else
    match named_and_missing w program_path with
    | Raise e => Raise e
    | Ret no_program =>
        match named_and_missing w batch_path with
        | Raise e => Raise e
        | Ret no_batch =>
            Ret ((if no_program then ["Program path does not exist."] else [])
                 ++ (if no_batch then ["Batch file path does not exist."] else []))
        end
    end.

(** [validate_send_to]. *)
Definition validate_send_to (send_to : string) : list string :=
  if is_empty send_to then []
  else if (negb (contains "@" send_to) && negb (contains ":" send_to))%bool
  then ["Send-to value looks invalid."]
  else [].

(** [validate_run_as]. *)
Definition validate_run_as (enabled admin : bool) (user password : string)
  : list string :=
  if negb enabled then []
  else if admin then []
  else (if is_empty user
        then ["Run-as user is required when RunAs is enabled."] else [])
       ++ (if is_empty password
           then ["Run-as password is required when RunAs is enabled."] else []).

(** [validate_api_request]. *)
Definition validate_api_request (enabled : bool) (method url : string) : list string :=
  if negb enabled then []
  else (if is_empty method
        then ["API method is required when Send API request is enabled."] else [])
       ++ (if is_empty url
           then ["API URL is required when Send API request is enabled."] else []).

(** [validate_api_auth]. *)
Definition validate_api_auth (enabled : bool) (auth_type auth_value : string)
  : list string :=
  if negb enabled then []
  else if (is_empty auth_type || String.eqb auth_type "None")%bool then []
  else (if is_empty auth_value
        then ["API auth value is required when auth is enabled."] else [])
       ++ (if (String.eqb auth_type "Basic" && negb (contains ":" auth_value))%bool
           then ["Basic auth value must be in 'user:password' format."] else []).

End Validation.

(* ===================================================================== *)
(** * scheduler.py: one turn of the polling loop *)
(* ===================================================================== *)

Module Polling.
Import Datetime.



      (** the new value of [_last_checked_minute] *)


(** [_run_and_persist]: the run, then the record of its outcome. *)
Definition _run_and_persist (w : World) (db : Db.t) (due_job : Scheduler.DueJob) (st : St)
  : (outcome unit * Db.t) * St :=
  match Runner.run_job w (Scheduler.job due_job) (Scheduler.scheduled_time due_job) st with
  | (Ret result, st') =>
      (Runner.persist_run db (Job.id (Scheduler.job due_job))
                          (Scheduler.scheduled_time due_job) result, st')
  | (Raise e, st') => ((Raise e, db), st')
  end.

End Polling.

(** ** Predicates on the store *)

(** The unique index of [run_logs]: no two rows share a job and a
    scheduled time. *)
Definition log_key (r : RunLog.t) : Z * string :=
  (RunLog.job_id r, RunLog.scheduled_time r).

Definition unique_run_logs (db : Db.t) : Prop := NoDup (map log_key (Db.run_logs db)).

(** The slots of a job, in table order. *)
Definition slots_of (db : Db.t) (job_id : Z) : list ScheduleSlot.t :=
  filter (fun s => ScheduleSlot.job_id s =? job_id) (Db.schedules db).

(** The fields [validate_tool_params] requires of each tool. *)
Definition required_fields (tool_name : string) : list string :=
  if (String.eqb tool_name "copy" || String.eqb tool_name "move"
      || String.eqb tool_name "zip")%bool
  then ["source"; "destination"]
  else if String.eqb tool_name "delete" then ["target"]
  else if String.eqb tool_name "download" then ["url"; "destination"]
  else if String.eqb tool_name "email"
  then ["smtp_host"; "smtp_port"; "sender"; "recipient"; "subject"; "body"]
  else if String.eqb tool_name "wallpaper" then ["image_path"]
  else if String.eqb tool_name "vpn" then ["command"]
  else [].

(** [params.get(key)] is a non-empty string. *)
Definition present (params : Py.dict) (key : string) : bool :=
  match Py.dict_get key params with
  | Some (String _ _) => true
  | _ => false
  end.

(** ** Predicates on runs *)

(** The computation returns a value from every state: no exception leaves it. *)
Definition always_returns {A} (m : M A) : Prop :=
  forall st, exists a, fst (m st) = Ret a.

(** The names [_execute_tool] knows. *)
Definition known_tools : list string :=
  ["copy"; "move"; "delete"; "zip"; "download"; "email"; "wallpaper"; "reboot";
   "shutdown"; "vpn"].

(** The message [_require_field] adds for a key. *)
Definition missing_message (key : string) : string := "Missing " ++ key ++ ".".

(** The log of [n] attempts that all failed in transport, from attempt [k]
    on: a sleep of one second between two attempts, none after the last. *)
Fixpoint retry_log (request : UrlRequest.t) (timeout : Z) (k n : nat) : list event :=
  match n with
  | O => []
  | S O => [EvUrlopen request timeout k]
  | S n' => EvUrlopen request timeout k :: EvSleep 1 :: retry_log request timeout (S k) n'
  end.



(** [max(1, retries + 1)], the number of attempts allowed. *)
Definition attempts_allowed (retries : Z) : nat := Z.to_nat (Z.max 1 (retries + 1)).

Module SampleTools.

(** Job 1 running the built-in tool [name] with the given parameters. *)
Definition tool_job (name parameters : string) : Job.t :=
  SampleRuns.target_job ("tool:" ++ name) parameters "".

(** A host that is never reached. *)
Definition dead_host (n : nat) : attempt := Failed (OSError "timed out").

Definition unreachable : World :=
  SampleWorld.answers dead_host None SampleRuns.files SampleRuns.exits_zero.

End SampleTools.

(* ===================================================================== *)
(** * Properties *)
(* ===================================================================== *)

(** ** Strings: splitting and joining *)

Section StringFacts.
Import Py.

Lemma contains_append c a b :
  contains c (a ++ b)%string = (contains c a || contains c b)%bool.
Proof.
  induction a as [|x a IH]; simpl; [reflexivity|].
  destruct (Ascii.eqb x c); [reflexivity | exact IH].
Qed.

Lemma split_nonempty sep s : split sep s <> [].
Proof.
  destruct s as [|a s]; simpl; [discriminate|].
  destruct (Ascii.eqb a sep); [discriminate|].
  destruct (split sep s); discriminate.
Qed.

Lemma split_without sep s : contains sep s = false -> split sep s = [s].
Proof.
  induction s as [|a s IH]; simpl; [reflexivity|].
  destruct (Ascii.eqb a sep); [discriminate|].
  intros H. rewrite (IH H). reflexivity.
Qed.

Lemma split_append sep a rest :
  contains sep a = false ->
  split sep (a ++ String sep rest)%string = a :: split sep rest.
Proof.
  induction a as [|x a IH]; simpl.
  - intros _. rewrite Ascii.eqb_refl. reflexivity.
  - destruct (Ascii.eqb x sep); [discriminate|].
    intros H. rewrite (IH H). reflexivity.
Qed.

Lemma split_join sep items :
  items <> [] ->
  Forall (fun s => contains sep s = false) items ->
  split sep (join (String sep EmptyString) items) = items.
Proof.
  induction items as [|x items IH]; [congruence|].
  intros _ Hall. inversion Hall as [|? ? Hx Hrest]; subst.
  destruct items as [|y items].
  - simpl. apply split_without, Hx.
  - change (join (String sep EmptyString) (x :: y :: items))
      with (x ++ String sep (join (String sep EmptyString) (y :: items)))%string.
    rewrite (split_append _ _ _ Hx), IH; [reflexivity | discriminate | exact Hrest].
Qed.

Lemma split_first_append sep k v :
  contains sep k = false ->
  split_first sep (k ++ String sep v)%string = (k, v).
Proof.
  induction k as [|x k IH]; simpl.
  - intros _. rewrite Ascii.eqb_refl. reflexivity.
  - destruct (Ascii.eqb x sep); [discriminate|].
    intros H. rewrite (IH H). reflexivity.
Qed.

Lemma distinct_NoDup l : Wf.distinct l = true <-> NoDup l.
Proof.
  induction l as [|x l IH]; simpl.
  - split; [constructor | reflexivity].
  - rewrite andb_true_iff, negb_true_iff, IH. split.
    + intros [Hx Hl]. constructor; [|exact Hl].
      intros Hin. assert (existsb (String.eqb x) l = true) as E.
      { apply existsb_exists. exists x. split; [exact Hin | apply String.eqb_refl]. }
      congruence.
    + intros H. inversion H as [|? ? Hx Hl]; subst. split; [|exact Hl].
      destruct (existsb (String.eqb x) l) eqn:E; [|reflexivity].
      apply existsb_exists in E. destruct E as [y [Hy Hxy]].
      apply String.eqb_eq in Hxy. subst y. contradiction.
Qed.

Lemma dict_set_fresh k v d :
  ~ In k (keys d) -> dict_set k v d = d ++ [(k, v)].
Proof.
  induction d as [|[k' v'] d IH]; simpl; [reflexivity|].
  intros H. destruct (String.eqb k' k) eqn:E.
  - apply String.eqb_eq in E. tauto.
  - rewrite IH; [reflexivity | tauto].
Qed.

End StringFacts.

(** ** Tool parameters *)

Section ToolParams.
Import Py Tools.

Lemma plain_param_item kv :
  Wf.plain_param kv = true ->
  is_empty (Tools.item_of kv) = false /\ contains "=" (Tools.item_of kv) = true
  /\ contains ";" (Tools.item_of kv) = false
  /\ split_first "=" (Tools.item_of kv) = kv.
Proof.
  destruct kv as [k v]. unfold Wf.plain_param, item_of. simpl fst; simpl snd.
  rewrite !andb_true_iff, !negb_true_iff. intros [[[Hk He] Hs] Hv].
  repeat split.
  - destruct k; [discriminate | reflexivity].
  - rewrite contains_append. simpl. apply orb_true_r.
  - rewrite contains_append, Hs. simpl. exact Hv.
  - apply (split_first_append "=" k v He).
Qed.

Lemma parse_items p : forall acc,
  Wf.plain_params p = true ->
  NoDup (keys (acc ++ p)) ->
  fold_left parse_item (map Tools.item_of p) acc = acc ++ p.
Proof.
  induction p as [|kv p IH]; intros acc Hp Hnd; simpl.
  - now rewrite app_nil_r.
  - simpl in Hp. apply andb_true_iff in Hp. destruct Hp as [Hkv Hp].
    destruct (plain_param_item kv Hkv) as (Hne & Heq & _ & Hsplit).
    unfold parse_item at 2. rewrite Hne, Heq, Hsplit. simpl negb. cbv iota.
    destruct kv as [k v].
    assert (~ In k (keys acc)) as Hfresh.
    { unfold keys in *. rewrite map_app in Hnd. simpl in Hnd.
      apply NoDup_remove_2 in Hnd. intros Hin. apply Hnd.
      apply in_or_app. left. exact Hin. }
    rewrite (dict_set_fresh k v acc Hfresh).
    rewrite IH; [now rewrite <- app_assoc | exact Hp |].
    now rewrite <- app_assoc.
Qed.

End ToolParams.

(** C10. Round trip of the tool parameters: for a dictionary whose keys are
    non-empty and hold neither [=] nor [;] and whose values hold no [;],
    [parse_tool_params (serialize_tool_params p)] is [p], with the entries
    in their order. *)
Theorem parse_serialize_tool_params (p : Py.dict) :
  Wf.is_dict p = true ->
  Wf.plain_params p = true ->
  Tools.parse_tool_params (Tools.serialize_tool_params p) = p.
Proof.
  intros Hd Hp. unfold Tools.parse_tool_params, Tools.serialize_tool_params.
  destruct p as [|kv p]; [reflexivity|].
  assert (Forall (fun s => Py.contains ";" s = false) (map Tools.item_of (kv :: p))) as Hall.
  { apply Forall_forall. intros s Hs. apply in_map_iff in Hs.
    destruct Hs as [x [<- Hx]].
    unfold Wf.plain_params in Hp. rewrite forallb_forall in Hp.
    apply (plain_param_item x (Hp x Hx)). }
  assert (Py.is_empty (Py.join ";" (map Tools.item_of (kv :: p))) = false) as Hne.
  { unfold Wf.plain_params in Hp. simpl in Hp. apply andb_true_iff in Hp.
    destruct Hp as [Hkv _]. destruct (plain_param_item kv Hkv) as (Hi & _).
    simpl map. destruct (map Tools.item_of p); simpl.
    - exact Hi.
    - destruct (Tools.item_of kv); [discriminate | reflexivity]. }
  rewrite Hne, split_join; [| discriminate | exact Hall].
  apply (parse_items (kv :: p) []); [exact Hp|].
  apply distinct_NoDup. exact Hd.
Qed.

Lemma parse_serialize_tool_params_witness :
  let p := [("source", "C:\in.txt"); ("destination", "D:\a=b"); ("note", "")] in
  Wf.is_dict p = true /\ Wf.plain_params p = true
  /\ Tools.parse_tool_params (Tools.serialize_tool_params p) = p.
Proof.
  intros p. split; [reflexivity|]. split; [reflexivity|].
  apply (parse_serialize_tool_params p); reflexivity.
Defined.


(** ** Persisting runs *)

Section Persist.
Import Runner.

Lemma same_key_row_of id job_id t r :
  same_key job_id (Datetime.isoformat_minutes t) (row_of id job_id t r) = true.
Proof.
  unfold same_key, row_of. cbn [RunLog.job_id RunLog.scheduled_time].
  now rewrite Z.eqb_refl, String.eqb_refl.
Qed.

Lemma job_exists_update db job_id k t rows :
  job_exists (Db.mk (update_last_run (Db.jobs db) k t) (Db.schedules db) rows) job_id
  = job_exists db job_id.
Proof.
  unfold job_exists, update_last_run. simpl.
  induction (Db.jobs db) as [|j js IH]; simpl; [reflexivity|].
  rewrite IH. f_equal. destruct (Job.id j =? k); reflexivity.
Qed.

Lemma filter_key_kept job_id key rows :
  filter (same_key job_id key)
         (filter (fun r => negb (same_key job_id key r)) rows) = [].
Proof.
  induction rows as [|r rows IH]; simpl; [reflexivity|].
  destruct (same_key job_id key r) eqn:E; simpl; [exact IH|].
  now rewrite E.
Qed.

(** After a persist that returns, the key has exactly the row just written. *)
Lemma persist_run_records db job_id t r :
  job_exists db job_id = true ->
  exists db',
    persist_run db job_id t r = (Ret tt, db')
    /\ job_exists db' job_id = true
    /\ records_for db' job_id t = [row_of (next_rowid (Db.run_logs db)) job_id t r].
Proof.
  intros Hj. unfold persist_run, insert_or_replace. rewrite Hj. simpl negb. cbv iota.
  eexists. split; [reflexivity|]. split.
  - now rewrite job_exists_update.
  - unfold records_for. simpl Db.run_logs.
    rewrite filter_app, filter_key_kept. cbn [filter app].
    now rewrite same_key_row_of.
Qed.

End Persist.





(** ** The HTTP client *)

Section HttpClient.
Import Request.
Variable w : World.
Variables (request : UrlRequest.t) (timeout attempts : Z).

Lemma attempts_made_app l1 l2 :
  attempts_made (l1 ++ l2) = (attempts_made l1 + attempts_made l2)%nat.
Proof. unfold attempts_made. now rewrite filter_app, length_app. Qed.


(** The loop over [range(attempts)] from attempt [k] on: it never falls
    off its end, and opens between one and [n] connections. *)
Lemma attempt_loop_answers n : forall k st,
  (1 <= n)%nat -> Z.of_nat (k + n) = attempts ->
  let run := attempt_loop w request timeout attempts (seq k n) st in
  fst run <> Ret None
  /\ exists new, log (snd run) = log st ++ new
                 /\ (1 <= attempts_made new <= n)%nat.
Proof.
  induction n as [|n IH]; intros k st Hn Hk; [lia|]. cbv zeta in IH |- *.
  cbn [seq attempt_loop]. unfold bind, emit, lift, ret. cbn [ticks log].
  destruct (urlopen w request timeout k) as [s text | code body msg | exc].
  - cbn. split; [discriminate|]. exists [EvUrlopen request timeout k]. cbn.
    split; [reflexivity|lia].
  - destruct body; cbn;
      (split; [discriminate|]; exists [EvUrlopen request timeout k]; cbn;
       split; [reflexivity|lia]).
  - destruct (Z.ltb_spec (Z.of_nat k) (attempts - 1)) as [Hlt | Hge].
    + cbn [ticks log].
      assert (1 <= n)%nat as Hn' by lia.
      assert (Z.of_nat (S k + n) = attempts) as Hk' by lia.
      destruct (IH (S k)
                   (mkSt (ticks st)
                         ((log st ++ [EvUrlopen request timeout k]) ++ [EvSleep 1]))
                   Hn' Hk') as [Hsome [new [Hl Hc]]].
      split; [exact Hsome|].
      exists ([EvUrlopen request timeout k] ++ [EvSleep 1] ++ new).
      rewrite Hl. cbn [log]. split; [now rewrite <- !app_assoc|].
      rewrite !attempts_made_app. cbn in *. lia.
    + cbn. split; [discriminate|]. exists [EvUrlopen request timeout k]. cbn.
      split; [reflexivity|lia].
Qed.

(** When every attempt fails in transport, all of them are made. *)
Lemma attempt_loop_exhausted (err : nat -> exn) n : forall k st,
  (1 <= n)%nat -> Z.of_nat (k + n) = attempts ->
  (forall i, urlopen w request timeout i = Failed (err i)) ->
  attempt_loop w request timeout attempts (seq k n) st
  = (Ret (Some (mkResponse 0 "" (Some (str_exn (err (k + n - 1)%nat))))),
     mkSt (ticks st) (log st ++ retry_log request timeout k n)).
Proof.
  induction n as [|n IH]; intros k st Hn Hk Hfail; [lia|].
  cbn [seq attempt_loop]. unfold bind at 1. unfold emit at 1. cbn [ticks log].
  rewrite Hfail.
  destruct (Z.ltb_spec (Z.of_nat k) (attempts - 1)) as [Hlt | Hge].
  - unfold bind at 1. unfold emit at 1. cbn [ticks log].
    destruct n as [|n]; [lia|].
    rewrite (IH (S k)) by (try lia; exact Hfail). cbn [ticks log].
    replace (S k + S n - 1)%nat with (k + S (S n) - 1)%nat by lia.
    f_equal. f_equal. rewrite <- !app_assoc. reflexivity.
  - assert (n = 0%nat) as -> by lia. cbn [retry_log]. unfold ret.
    now replace (k + 1 - 1)%nat with k by lia.
Qed.


End HttpClient.

(** A URL without a scheme has none once its fragment is split off. *)
Lemma no_scheme_before_fragment s : forall seen,
  Request.has_scheme_aux seen s = false ->
  Request.has_scheme_aux seen (fst (Request._splittag s)) = false.
Proof.
  induction s as [|a s IH]; intros seen H; [reflexivity|].
  cbn [Request._splittag]. cbn [Request.has_scheme_aux] in H.
  destruct (Request._splittag s) as [path [tag|]] eqn:E; cbn [fst] in *.
  - cbn [Request.has_scheme_aux].
    destruct (Ascii.eqb a ":"); [exact H|].
    destruct (Ascii.eqb a "/"); [reflexivity | now apply IH].
  - destruct (Ascii.eqb a "#") eqn:Eh; cbn [fst]; [reflexivity|].
    cbn [Request.has_scheme_aux].
    destruct (Ascii.eqb a ":"); [exact H|].
    destruct (Ascii.eqb a "/"); [reflexivity | now apply IH].
Qed.

(** Without a scheme the request is not built. *)
Lemma prepare_needs_scheme w method url headers body auth_type auth_value :
  Request.has_scheme url = false ->
  exists msg,
    Request.prepare w method url headers body auth_type auth_value
    = Raise (ValueError msg).
Proof.
  intros H. unfold Request.prepare, Request.new_request.
  pose proof (no_scheme_before_fragment _ _ H) as Hp.
  destruct (Request._splittag (Request.unwrap url)) as [path fragment].
  cbn [fst] in Hp. rewrite Hp. cbn [negb]. eauto.
Qed.

(** Once the request is built, [perform_request] is the loop over its
    attempts; when it is not, the exception leaves before any attempt. *)
Lemma perform_request_loop w method url headers body auth_type auth_value
      timeout retries st :
  Request.perform_request w method url headers body auth_type auth_value
                          timeout retries st
  = match Request.prepare w method url headers body auth_type auth_value with
    | Ret request =>
        Request.attempt_loop w request (Request.effective_timeout timeout)
                             (Z.max 1 (retries + 1))
                             (seq 0 (attempts_allowed retries)) st
    | Raise e => (Raise e, st)
    end.
Proof.
  unfold Request.perform_request, bind, lift.
  now destruct (Request.prepare w method url headers body auth_type auth_value).
Qed.




(** ** The engine's polling thread *)

Section EngineThread.
Import Scheduler.

Lemma one_thread_not_running e :
  one_thread e -> is_running e = false -> alive e = [].
Proof.
  intros [H | [t [Ha Ht]]] Hr; [exact H|].
  unfold is_running in Hr. rewrite Ht, Ha in Hr. simpl in Hr.
  now rewrite Nat.eqb_refl in Hr.
Qed.

Lemma one_thread_start e : one_thread e -> one_thread (start e).
Proof.
  intros H. unfold start. destruct (is_running e) eqn:Hr; [exact H|].
  right. exists (next_thread e). simpl.
  now rewrite (one_thread_not_running e H Hr).
Qed.

Lemma one_thread_exit t e : one_thread e -> one_thread (thread_exit t e).
Proof.
  intros [H | [u [Ha Hu]]]; unfold one_thread, thread_exit; simpl.
  - left. now rewrite H.
  - rewrite Ha. simpl. destruct (Nat.eqb u t); simpl; [now left|].
    right. exists u. now split.
Qed.

Lemma one_thread_stop joined e : one_thread e -> one_thread (stop joined e).
Proof.
  intros H. unfold stop.
  assert (forall b n x, one_thread (mkEngine (thread e) (alive e) b n x)) as H'
    by (intros; exact H).
  destruct joined; destruct (thread e); try apply one_thread_exit; apply H'.
Qed.

Lemma one_thread_step e e' : step e e' -> one_thread e -> one_thread e'.
Proof.
  intros Hs H. destruct Hs.
  - now apply one_thread_start.
  - unfold ensure_running. destruct (negb (is_running e)); [now apply one_thread_start | exact H].
  - now apply one_thread_stop.
  - now apply one_thread_exit.
Qed.

Lemma reachable_one_thread e : reachable e -> one_thread e.
Proof.
  induction 1 as [|e e' _ IH Hs]; [now left|].
  exact (one_thread_step e e' Hs IH).
Qed.

Lemma run_call_running c e : is_running e = true -> run_call c e = e.
Proof.
  intros Hr. destruct c; unfold run_call, ensure_running, start; now rewrite Hr.
Qed.

End EngineThread.

(** C9. In every state the engine reaches through [start], [ensure_running],
    [stop] and the exit of a polling thread, at most one polling thread is
    alive. From a running state any sequence of [start] and [ensure_running]
    calls leaves the state as it is; from a state that is not running,
    [ensure_running] does what [start] does and the new thread is then the
    only one alive. *)
Theorem engine_single_thread e :
  Scheduler.reachable e ->
  (List.length (Scheduler.alive e) <= 1)%nat
  /\ (Scheduler.is_running e = true -> forall calls, run_calls calls e = e)
  /\ (Scheduler.is_running e = false ->
      Scheduler.ensure_running e = Scheduler.start e
      /\ Scheduler.alive (Scheduler.start e) = [Scheduler.next_thread e]).
Proof.
  intros Hreach. pose proof (reachable_one_thread e Hreach) as Hone.
  split; [|split].
  - destruct Hone as [H | [t [H _]]]; rewrite H; simpl; lia.
  - intros Hr calls. unfold run_calls.
    induction calls as [|c calls IH]; simpl; [reflexivity|].
    now rewrite (run_call_running c e Hr).
  - intros Hr. unfold Scheduler.ensure_running, Scheduler.start. rewrite Hr. simpl.
    split; [reflexivity|].
    now rewrite (one_thread_not_running e Hone Hr).
Qed.

Lemma engine_single_thread_witness :
  let e := Scheduler.start Scheduler.init in
  Scheduler.is_running e = true
  /\ (List.length (Scheduler.alive e) <= 1)%nat
  /\ run_calls [Scheduler.CallStart; Scheduler.CallEnsureRunning; Scheduler.CallStart] e = e.
Proof.
  intros e.
  destruct (engine_single_thread e
              (Scheduler.reach_step _ _ Scheduler.reach_init
                                    (Scheduler.step_start Scheduler.init)))
    as (Hlen & Hrun & _).
  split; [reflexivity|]. split; [exact Hlen|].
  apply Hrun. reflexivity.
Defined.


(** ** Due jobs *)

Section DueJobs.
Import Datetime Scheduler.

Lemma in_due_jobs db now dj :
  In dj (_get_due_jobs db now) <->
  exists j s, passes db now j s
              /\ dj = mkDueJob j (ScheduleSlot.id s) (truncate_minute now).
Proof.
  unfold _get_due_jobs, query, passes. rewrite in_flat_map. split.
  - intros [[j s] [Hrow Hdj]].
    apply in_flat_map in Hrow. destruct Hrow as [s' [Hs Hin]].
    apply in_map_iff in Hin. destruct Hin as [j' [Heq Hj]].
    inversion Heq; subst j' s'. apply filter_In in Hj. destruct Hj as [Hj Hsel].
    exists j, s.
    destruct (ran_today j _); [contradiction|].
    destruct (_has_run_log db _ _); [contradiction|].
    destruct (monthly_skip s now _); [contradiction|].
    destruct Hdj as [Hdj | []]. subst dj. repeat split; assumption.
  - intros [j [s [(Hj & Hs & Hsel & Hran & Hlog & Hskip) Hdj]]].
    exists (j, s). split.
    + apply in_flat_map. exists s. split; [exact Hs|].
      apply in_map_iff. exists j. split; [reflexivity|].
      apply filter_In. now split.
    + rewrite Hran, Hlog, Hskip. left. now symmetry.
Qed.

(** The weekday of any date is one of 0..6. *)
Lemma weekday_range d : 0 <= weekday d < 7.
Proof. unfold weekday. apply Z.mod_pos_bound. lia. Qed.

(** Testing a mask against [1 << n] reads bit [n] of the mask. *)
Lemma mask_bit mask n :
  0 <= n -> negb (Z.land mask (Z.shiftl 1 n) =? 0) = Z.testbit mask n.
Proof.
  intros Hn. rewrite Z.shiftl_1_l.
  destruct (Z.testbit mask n) eqn:Hb.
  - apply negb_true_iff, Z.eqb_neq. intros H0.
    assert (Z.testbit (Z.land mask (2 ^ n)) n = false) as E
      by (rewrite H0; apply Z.bits_0).
    rewrite Z.land_spec, Hb, Z.pow2_bits_true in E by exact Hn. discriminate.
  - apply negb_false_iff, Z.eqb_eq. apply Z.bits_inj'. intros m Hm.
    rewrite Z.land_spec, Z.bits_0, Z.pow2_bits_eqb by exact Hn.
    destruct (Z.eqb_spec n m) as [->|]; [now rewrite Hb | apply andb_false_r].
Qed.

Lemma distinct_ids_NoDup l : distinct_ids l = true <-> NoDup l.
Proof.
  induction l as [|x l IH]; simpl.
  - split; [constructor | reflexivity].
  - rewrite andb_true_iff, negb_true_iff, IH. split.
    + intros [Hx Hl]. constructor; [|exact Hl].
      intros Hin. assert (existsb (Z.eqb x) l = true) as E.
      { apply existsb_exists. exists x. split; [exact Hin | apply Z.eqb_refl]. }
      congruence.
    + intros H. inversion H as [|? ? Hx Hl]; subst. split; [|exact Hl].
      destruct (existsb (Z.eqb x) l) eqn:E; [|reflexivity].
      apply existsb_exists in E. destruct E as [y [Hy Hxy]].
      apply Z.eqb_eq in Hxy. subst y. contradiction.
Qed.


End DueJobs.

(** C8. A job with [once_per_day] set whose [last_run_at] falls on the date
    of [now] is not among the due jobs, whatever its slots. *)
Theorem once_per_day_suppressed db now j last :
  Job.once_per_day j = true ->
  Job.last_run_at j = Some last ->
  Datetime.dt_date last = Datetime.dt_date now ->
  forall dj, In dj (Scheduler._get_due_jobs db now) -> Scheduler.job dj <> j.
Proof.
  intros Honce Hlast Hdate dj Hin Heq.
  apply in_due_jobs in Hin. destruct Hin as [j' [s [(_ & _ & _ & Hran & _) Hdj]]].
  subst dj. simpl in Heq. subst j'.
  unfold Scheduler.ran_today in Hran.
  now rewrite Honce, Hlast, Hdate, String.eqb_refl in Hran.
Qed.

Lemma once_per_day_suppressed_witness :
  let last := Sample.at_time 2024 1 3 9 0 0 in
  let now := Sample.at_time 2024 1 3 10 0 30 in
  let j := SampleJobs.daily_job true (Some last) in
  Job.once_per_day j = true /\ Job.last_run_at j = Some last
  /\ Datetime.dt_date last = Datetime.dt_date now
  /\ forall dj, In dj (Scheduler._get_due_jobs (SampleJobs.weekday_db true (Some last)) now)
                -> Scheduler.job dj <> j.
Proof.
  intros last now j. repeat split.
  apply (once_per_day_suppressed _ now j last); reflexivity.
Defined.




(** C2: what the code does. Job 1 has a monthly slot on day 31 at 00:00. It
    is due on 31 January, but on the last day of a shorter month (30 April,
    29 February) it is not, at the very minute that [next_run_for_job]
    announces as its next run. *)
Theorem monthly_clamp_not_due :
  let db := SampleJobs.month_end_db in
  map Scheduler.schedule_id
      (Scheduler._get_due_jobs db (Sample.at_time 2024 1 31 0 0 0)) = [7]
  /\ Scheduler._get_due_jobs db (Sample.at_time 2024 4 30 0 0 0) = []
  /\ Scheduler._get_due_jobs db (Sample.at_time 2024 2 29 0 0 0) = []
  /\ Repository.next_run_for_job Datetime.parse_iso_date db
       (Sample.at_time 2024 4 1 12 0 0) 1
     = Ret (Some (Sample.at_time 2024 4 30 0 0 0))
  /\ Repository.next_run_for_job Datetime.parse_iso_date db
       (Sample.at_time 2024 2 1 12 0 0) 1
     = Ret (Some (Sample.at_time 2024 2 29 0 0 0)).
Proof.
  repeat split; vm_compute; reflexivity.
Qed.


(** ** What a run adds to the log *)

Section Emits.
Context {A B : Type} (P : event -> Prop).







End Emits.



(** A computation that adds nothing leaves the log as it was. *)
Lemma emits_nothing {A} (m : M A) st :
  emits (fun _ => False) m -> log (snd (m st)) = log st.
Proof.
  intros Hm. destruct (Hm st) as [n [E F]]. destruct n as [|e n].
  - now rewrite app_nil_r in E.
  - inversion F; contradiction.
Qed.


Section RunnerLog.
Import Runner.
Variable w : World.















(** [run_job] after the clock was read. *)
Lemma run_job_dispatch job t st :
  run_job w job t st
  = (if http_mode job then _run_api w job (clock w (ticks st))
     else if is_tool job then _run_tool w job (clock w (ticks st))
     else bind (lift (_build_command w job))
               (fun command =>
                  match command with
                  | None | Some [] =>
                      failed w (clock w (ticks st)) None no_target_message
                  | Some command => launch w job command (clock w (ticks st))
                  end))
      (mkSt (S (ticks st)) (log st)).
Proof. reflexivity. Qed.

(** ** What each backend adds to the log *)






End RunnerLog.

(** C5: what the code does. In HTTP mode [run_job] propagates the
    exception when the backend module cannot be loaded or when the URL has
    no scheme: no outcome record is returned. *)
Theorem run_job_propagates w job t st :
  Runner.http_mode job = true ->
  backend_module w <> None \/ Request.has_scheme (Job.api_url job) = false ->
  exists e, fst (Runner.run_job w job t st) = Raise e.
Proof.
  intros Hh Hbad. rewrite run_job_dispatch, Hh.
  unfold Runner._run_api, ScheduleApi.perform_request, ScheduleApi._load_module, bind.
  destruct (backend_module w) as [e|] eqn:Hm.
  - exists e. reflexivity.
  - destruct Hbad as [Hbad | Hbad]; [congruence|].
    destruct (prepare_needs_scheme w (Job.api_method job) (Job.api_url job)
                (Runner._parse_headers (Job.api_headers job)) (Job.api_body job)
                (Job.api_auth_type job) (Job.api_auth_value job) Hbad) as [msg Hp].
    unfold ret at 1. rewrite perform_request_loop, Hp. eexists. reflexivity.
Qed.

Lemma run_job_propagates_witness :
  let t := Sample.at_time 2024 1 3 10 0 0 in
  let job := SampleRuns.hook_job "example.com/hook" in
  Runner.http_mode job = true
  /\ Request.has_scheme (Job.api_url job) = false
  /\ exists e, fst (Runner.run_job SampleRuns.desk job t SampleWorld.start_state) = Raise e.
Proof.
  intros t job. split; [reflexivity|]. split; [reflexivity|].
  apply (run_job_propagates SampleRuns.desk job t SampleWorld.start_state);
    [reflexivity | right; reflexivity].
Defined.




(** ** Dates and their order *)

Section DateOrder.
Import Datetime.

Lemma date_ltb_lt a b :
  date_ltb a b = true <->
  year a < year b
  \/ (year a = year b
      /\ (month a < month b \/ (month a = month b /\ day a < day b))).
Proof.
  unfold date_ltb.
  rewrite !orb_true_iff, !andb_true_iff, !orb_true_iff, !andb_true_iff,
    !Z.ltb_lt, !Z.eqb_eq. tauto.
Qed.

Lemma date_eqb_eq a b : date_eqb a b = true <-> a = b.
Proof.
  unfold date_eqb. rewrite !andb_true_iff, !Z.eqb_eq.
  destruct a, b; simpl. split.
  - intros [[-> ->] ->]. reflexivity.
  - intros H. inversion H. auto.
Qed.

Lemma date_eqb_refl a : date_eqb a a = true.
Proof. now apply date_eqb_eq. Qed.

Lemma date_ltb_irrefl a : date_ltb a a = false.
Proof.
  destruct (date_ltb a a) eqn:E; [|reflexivity].
  apply date_ltb_lt in E. lia.
Qed.

Lemma date_ltb_trans a b c :
  date_ltb a b = true -> date_ltb b c = true -> date_ltb a c = true.
Proof. rewrite !date_ltb_lt. lia. Qed.

Lemma days_in_month_pos y m : 28 <= days_in_month y m <= 31.
Proof.
  unfold days_in_month.
  destruct (m =? 2); [destruct (is_leap y); lia|].
  destruct ((m =? 4) || (m =? 6) || (m =? 9) || (m =? 11))%bool; lia.
Qed.

Lemma next_day_later d : date_ltb d (next_day d) = true.
Proof.
  apply date_ltb_lt. unfold next_day.
  destruct (Z.ltb_spec (day d) (days_in_month (year d) (month d))); simpl; [lia|].
  destruct (Z.ltb_spec (month d) 12); simpl; lia.
Qed.

(** Adding days never moves a date back. *)
Lemma add_days_later k : forall d d',
  add_days k d = Some d' ->
  (k = 0%nat /\ d' = d) \/ (k <> 0%nat /\ date_ltb d d' = true).
Proof.
  induction k as [|k IH]; intros d d'; simpl.
  - intros H. inversion H. now left.
  - destruct (MAXYEAR <? year (next_day d)); [discriminate|].
    intros H. right. split; [discriminate|].
    destruct (IH _ _ H) as [[_ ->] | [_ Hlt]].
    + apply next_day_later.
    + eapply date_ltb_trans; [apply next_day_later | exact Hlt].
Qed.

Lemma datetime_ltb_lt a b :
  datetime_ltb a b = true <->
  date_ltb (dt_date a) (dt_date b) = true
  \/ (dt_date a = dt_date b
      /\ (hour a < hour b
          \/ (hour a = hour b
              /\ (minute a < minute b
                  \/ (minute a = minute b
                      /\ (second a < second b
                          \/ (second a = second b
                              /\ microsecond a < microsecond b))))))).
Proof.
  unfold datetime_ltb.
  repeat rewrite ?orb_true_iff, ?andb_true_iff.
  rewrite !Z.ltb_lt, !Z.eqb_eq, date_eqb_eq. tauto.
Qed.

End DateOrder.

(** ** The next run *)

Section NextRun.
Import Datetime Repository.

Lemma find_stronger {T} (p q : T -> bool) l s :
  find p l = Some s ->
  (forall x, q x = true -> p x = true) ->
  q s = true ->
  find q l = Some s.
Proof.
  intros Hf Hqp Hs. induction l as [|x l IH]; simpl in *; [discriminate|].
  destruct (p x) eqn:Hp.
  - inversion Hf; subst. now rewrite Hs.
  - destruct (q x) eqn:Hq; [|now apply IH].
    rewrite (Hqp x Hq) in Hp. discriminate.
Qed.

(** [_minute_to_datetime] keeps the date of the reference and lands on
    the minute asked for. *)
Lemma minute_to_datetime_ret reference m r :
  _minute_to_datetime reference m = Ret r ->
  r = mkDT (dt_date reference) (m / 60) (m mod 60) 0 0
  /\ 0 <= m / 60 <= 23
  /\ Datetime.minute_of_day r = m.
Proof.
  unfold _minute_to_datetime, replace_time.
  destruct ((0 <=? m / 60) && (m / 60 <=? 23) && (0 <=? m mod 60) && (m mod 60 <=? 59))%bool
    eqn:E; [|discriminate].
  intros H. inversion H; subst r. clear H.
  rewrite !andb_true_iff, !Z.leb_le in E.
  unfold Datetime.minute_of_day. cbn [hour minute].
  pose proof (Z.div_mod m 60). repeat split; lia.
Qed.

Lemma minute_to_datetime_same_date reference reference' m r :
  dt_date reference' = dt_date reference ->
  _minute_to_datetime reference m = Ret r ->
  _minute_to_datetime reference' m = Ret r.
Proof.
  unfold _minute_to_datetime, replace_time. intros ->.
  now destruct ((0 <=? m / 60) && _ && _ && _)%bool.
Qed.

(** An instant at a whole minute [m] of a date is not before a reference
    on that date whose minute of day is at most [m], seconds dropped. *)
Lemma minute_not_before now d m :
  valid_datetime now = true ->
  (d = dt_date now /\ Datetime.minute_of_day now <= m
   \/ date_ltb (dt_date now) d = true) ->
  datetime_leb (truncate_minute now) (mkDT d (m / 60) (m mod 60) 0 0) = true.
Proof.
  intros Hv Hcase. unfold datetime_leb. apply negb_true_iff.
  destruct (datetime_ltb _ _) eqn:E; [|reflexivity]. exfalso.
  apply datetime_ltb_lt in E. cbn [dt_date hour minute second microsecond truncate_minute] in E.
  unfold valid_datetime in Hv. rewrite !andb_true_iff, !Z.leb_le in Hv.
  unfold Datetime.minute_of_day in Hcase.
  pose proof (Z.div_mod m 60). pose proof (Z.mod_pos_bound m 60).
  destruct Hcase as [[-> Hm] | Hlt].
  - destruct E as [E | E]; [now rewrite date_ltb_irrefl in E | lia].
  - destruct E as [E | [E _]].
    + pose proof (date_ltb_trans _ _ _ E Hlt) as C. now rewrite date_ltb_irrefl in C.
    + rewrite E, date_ltb_irrefl in Hlt. discriminate.
Qed.

(** Where [recurring_loop] stops. *)
Lemma recurring_loop_ret now slots offsets r :
  recurring_loop now slots offsets = Ret (Some r) ->
  exists day_offset target slot,
    add_days day_offset (dt_date now) = Some target
    /\ recurring_pick now day_offset target slots = Some slot
    /\ _minute_to_datetime
         (mkDT target (hour now) (minute now) (second now) (microsecond now))
         (ScheduleSlot.minute_of_day slot) = Ret r.
Proof.
  induction offsets as [|day_offset rest IH]; simpl; [discriminate|].
  destruct (add_days day_offset (dt_date now)) as [target|] eqn:Ha; [|discriminate].
  destruct (recurring_pick now day_offset target slots) as [slot|] eqn:Hp; [|exact IH].
  destruct (_minute_to_datetime _ _) as [t|] eqn:Hm; [|discriminate].
  intros H. inversion H; subst t. now exists day_offset, target, slot.
Qed.

Lemma recurring_run_stable now slots r :
  valid_datetime now = true ->
  _next_recurring_run now slots = Ret (Some r) ->
  (second r = 0 /\ microsecond r = 0)
  /\ datetime_leb (truncate_minute now) r = true
  /\ _next_recurring_run r slots = Ret (Some r).
Proof.
  intros Hv H. apply recurring_loop_ret in H.
  destruct H as (day_offset & target & slot & Ha & Hp & Hm).
  destruct (minute_to_datetime_ret _ _ _ Hm) as (Hr & Hh & Hmin).
  cbn [dt_date] in Hr.
  unfold recurring_pick in Hp. pose proof (find_some _ _ Hp) as [_ Hs].
  apply andb_true_iff in Hs. destruct Hs as [Hbit Hpast].
  assert (day_offset = 0%nat ->
          Datetime.minute_of_day now <= ScheduleSlot.minute_of_day slot) as Hle.
  { intros ->. cbn in Hpast. now apply negb_true_iff, Z.ltb_ge in Hpast. }
  split; [now rewrite Hr|]. split.
  - rewrite Hr. apply minute_not_before; [exact Hv|].
    destruct (add_days_later _ _ _ Ha) as [[E0 ->] | [_ Hlt]]; [left | now right].
    split; [reflexivity | now apply Hle].
  - unfold _next_recurring_run. cbn [seq recurring_loop add_days].
    assert (dt_date r = target) as Hd by now rewrite Hr.
    rewrite Hd.
    assert (recurring_pick r 0 target slots = Some slot) as Hp'.
    { unfold recurring_pick. eapply find_stronger; [exact Hp | |].
      - intros x Hx. apply andb_true_iff in Hx. destruct Hx as [Hb Hx].
        rewrite Hb. cbn [andb]. apply negb_true_iff.
        destruct (Nat.eqb_spec day_offset 0) as [E0|]; [|reflexivity]. cbn [andb].
        cbn in Hx. apply negb_true_iff in Hx. rewrite Hmin in Hx.
        apply Z.ltb_ge in Hx. specialize (Hle E0). apply Z.ltb_ge. lia.
      - rewrite Hbit, Hmin. cbn. now rewrite Z.ltb_irrefl. }
    rewrite Hp'.
    now rewrite (minute_to_datetime_same_date
                   _ (mkDT target (hour r) (minute r) (second r) (microsecond r))
                   _ r eq_refl Hm).
Qed.

(** The slot picked on [target] is picked again when the reference is the
    instant of that slot on [target]. *)
Lemma first_slot_again now target slots slot r :
  first_slot_on now target slots = Some slot ->
  dt_date r = target ->
  Datetime.minute_of_day r = ScheduleSlot.minute_of_day slot ->
  first_slot_on r target slots = Some slot
  /\ (target = dt_date now ->
      Datetime.minute_of_day now <= ScheduleSlot.minute_of_day slot).
Proof.
  intros Hf Hd Hm. unfold first_slot_on in *.
  pose proof (find_some _ _ Hf) as [_ Hs]. apply negb_true_iff in Hs.
  assert (target = dt_date now ->
          Datetime.minute_of_day now <= ScheduleSlot.minute_of_day slot) as Hle.
  { intros ->. rewrite date_eqb_refl in Hs. cbn in Hs. now apply Z.ltb_ge in Hs. }
  split; [|exact Hle].
  eapply find_stronger; [exact Hf | |].
  - intros x Hx. rewrite Hd, date_eqb_refl, Hm in Hx. cbn in Hx.
    apply negb_true_iff, Z.ltb_ge in Hx. apply negb_true_iff.
    destruct (date_eqb target (dt_date now)) eqn:E; [|reflexivity]. cbn.
    apply date_eqb_eq in E. specialize (Hle E). apply Z.ltb_ge. lia.
  - rewrite Hd, date_eqb_refl, Hm. cbn. now rewrite Z.ltb_irrefl.
Qed.

Lemma not_before_target now target m :
  valid_datetime now = true ->
  date_ltb target (dt_date now) = false ->
  (target = dt_date now -> Datetime.minute_of_day now <= m) ->
  datetime_leb (truncate_minute now) (mkDT target (m / 60) (m mod 60) 0 0) = true.
Proof.
  intros Hv Hnlt Hle. apply minute_not_before; [exact Hv|].
  destruct (date_eqb target (dt_date now)) eqn:E.
  - apply date_eqb_eq in E. left. auto.
  - right. apply date_ltb_lt.
    assert (~ (year target < year (dt_date now)
               \/ (year target = year (dt_date now)
                   /\ (month target < month (dt_date now)
                       \/ (month target = month (dt_date now)
                           /\ day target < day (dt_date now)))))) as Hn
      by (rewrite <- date_ltb_lt; congruence).
    assert (target <> dt_date now) as Hne
      by (intros C; apply date_eqb_eq in C; congruence).
    destruct target as [y m' d], (dt_date now) as [y0 m0 d0]. simpl in *.
    assert (~ (y = y0 /\ m' = m0 /\ d = d0)) by (intros (-> & -> & ->); now apply Hne).
    lia.
Qed.

Variable fromisoformat_date : string -> option date.

Lemma date_run_stable now slots r :
  valid_datetime now = true ->
  _next_date_run fromisoformat_date now slots = Ret (Some r) ->
  (second r = 0 /\ microsecond r = 0)
  /\ datetime_leb (truncate_minute now) r = true
  /\ _next_date_run fromisoformat_date r slots = Ret (Some r).
Proof.
  intros Hv. unfold _next_date_run.
  destruct slots as [|first rest]; [discriminate|].
  destruct (ScheduleSlot.date first) as [date_str|]; [|discriminate].
  destruct (Py.is_empty date_str); [discriminate|].
  destruct (fromisoformat_date date_str) as [target|]; [|discriminate].
  destruct (date_ltb target (dt_date now)) eqn:Hlt; [discriminate|].
  destruct (first_slot_on now target (first :: rest)) as [slot|] eqn:Hf; [|discriminate].
  destruct (_minute_to_datetime _ _) as [t|] eqn:Hm; [|discriminate].
  intros H. inversion H; subst t. clear H.
  destruct (minute_to_datetime_ret _ _ _ Hm) as (Hr & _ & Hmin). cbn [dt_date] in Hr.
  assert (dt_date r = target) as Hd by now rewrite Hr.
  destruct (first_slot_again now target _ slot r Hf Hd Hmin) as [Hf' Hle].
  split; [now rewrite Hr|]. split.
  - rewrite Hr. now apply not_before_target.
  - rewrite Hd, date_ltb_irrefl, Hf'.
    now rewrite (minute_to_datetime_same_date
                   _ (mkDT target (hour r) (minute r) (second r) (microsecond r))
                   _ r eq_refl Hm).
Qed.

(** Where [monthly_loop] stops: on a valid date, not before today, that is
    the scheduled day clamped to its month. *)
Lemma monthly_loop_ret now scheduled_day slots offsets r :
  monthly_loop now scheduled_day slots offsets = Ret (Some r) ->
  exists target slot,
    valid_date target = true
    /\ day target = Z.min scheduled_day (days_in_month (year target) (month target))
    /\ date_ltb target (dt_date now) = false
    /\ first_slot_on now target slots = Some slot
    /\ _minute_to_datetime (mkDT target 0 0 0 0) (ScheduleSlot.minute_of_day slot) = Ret r.
Proof.
  induction offsets as [|month_offset rest IH]; cbn [monthly_loop]; [discriminate|].
  cbv zeta. unfold make_datetime.
  set (tm := (month (dt_date now) + Z.of_nat month_offset - 1) mod 12 + 1).
  set (ty := year (dt_date now) + (month (dt_date now) + Z.of_nat month_offset - 1) / 12).
  destruct (valid_date (mkDate ty tm (Z.min scheduled_day (days_in_month ty tm)))) eqn:Hv;
    [|discriminate].
  cbn [dt_date].
  destruct (date_ltb _ (dt_date now)) eqn:Hlt; [exact IH|].
  destruct (first_slot_on now _ slots) as [slot|] eqn:Hf; [|exact IH].
  destruct (_minute_to_datetime _ _) as [t|] eqn:Hm; [|discriminate].
  intros H. inversion H; subst t.
  eexists _, slot. repeat split; eauto.
Qed.

Lemma monthly_run_stable now slots r :
  valid_datetime now = true ->
  _next_monthly_run now slots = Ret (Some r) ->
  (second r = 0 /\ microsecond r = 0)
  /\ datetime_leb (truncate_minute now) r = true
  /\ _next_monthly_run r slots = Ret (Some r).
Proof.
  intros Hv. unfold _next_monthly_run.
  destruct slots as [|first rest]; [discriminate|].
  destruct (Py.int _) as [scheduled_day|]; [|discriminate].
  intros H. apply monthly_loop_ret in H.
  destruct H as (target & slot & Hvt & Hday & Hlt & Hf & Hm).
  destruct (minute_to_datetime_ret _ _ _ Hm) as (Hr & _ & Hmin). cbn [dt_date] in Hr.
  assert (dt_date r = target) as Hd by now rewrite Hr.
  destruct (first_slot_again now target _ slot r Hf Hd Hmin) as [Hf' Hle].
  split; [now rewrite Hr|]. split.
  - rewrite Hr. now apply not_before_target.
  - cbn [seq monthly_loop]. cbv zeta. rewrite Hd.
    unfold valid_date in Hvt. rewrite !andb_true_iff, !Z.leb_le in Hvt.
    assert ((month target + Z.of_nat 0 - 1) / 12 = 0) as E1
      by (apply Z.div_small; cbn; lia).
    assert ((month target + Z.of_nat 0 - 1) mod 12 + 1 = month target) as E2
      by (rewrite Z.mod_small; cbn; lia).
    rewrite E1, E2, Z.add_0_r, <- Hday.
    assert (mkDate (year target) (month target) (day target) = target) as E3
      by (now destruct target).
    unfold make_datetime. rewrite E3.
    assert (valid_date target = true) as Hvt'.
    { unfold valid_date. rewrite !andb_true_iff, !Z.leb_le. exact Hvt. }
    rewrite Hvt'. cbn [dt_date]. rewrite date_ltb_irrefl, Hf'.
    now rewrite Hm.
Qed.

End NextRun.

(** C3, as the code has it. When [next_run_for_job] returns an instant for
    a reference time, the instant is at a whole minute and is not before the
    reference with its seconds dropped; and asked again with that instant
    as the reference, it returns the same instant. *)
Theorem next_run_stable fromisoformat_date db now job_id r :
  Datetime.valid_datetime now = true ->
  Repository.next_run_for_job fromisoformat_date db now job_id = Ret (Some r) ->
  (Datetime.second r = 0 /\ Datetime.microsecond r = 0)
  /\ Datetime.datetime_leb (Datetime.truncate_minute now) r = true
  /\ Repository.next_run_for_job fromisoformat_date db r job_id = Ret (Some r).
Proof.
  intros Hv. unfold Repository.next_run_for_job.
  destruct (Repository.active_slots db job_id) as [|first rest]; [discriminate|].
  destruct (String.eqb (ScheduleSlot.schedule_type first) "date");
    [apply date_run_stable; exact Hv|].
  destruct (String.eqb (ScheduleSlot.schedule_type first) "monthly");
    [apply monthly_run_stable; exact Hv|].
  apply recurring_run_stable; exact Hv.
Qed.

Lemma next_run_stable_witness :
  let db := SampleJobs.month_end_db in
  let now := Sample.at_time 2024 4 1 12 0 0 in
  let r := Sample.at_time 2024 4 30 0 0 0 in
  Datetime.valid_datetime now = true
  /\ Repository.next_run_for_job Datetime.parse_iso_date db now 1 = Ret (Some r)
  /\ (Datetime.second r = 0 /\ Datetime.microsecond r = 0)
  /\ Datetime.datetime_leb (Datetime.truncate_minute now) r = true
  /\ Repository.next_run_for_job Datetime.parse_iso_date db r 1 = Ret (Some r).
Proof.
  intros db now r.
  assert (Datetime.valid_datetime now = true) as Hv by reflexivity.
  assert (Repository.next_run_for_job Datetime.parse_iso_date db now 1 = Ret (Some r))
    as Hr by (vm_compute; reflexivity).
  split; [exact Hv|]. split; [exact Hr|].
  exact (next_run_stable Datetime.parse_iso_date db now 1 r Hv Hr).
Defined.

(** C3 as stated fails: for the weekday job with its slot at 10:00 and the
    reference Wednesday 2024-01-03 10:00:30, the next run is 10:00:00 of
    that day, before the reference, and asking again from 10:00:00 gives
    10:00:00 once more. *)
Lemma next_run_repeats :
  let db := SampleJobs.weekday_db false None in
  let now := Sample.at_time 2024 1 3 10 0 30 in
  let r := Sample.at_time 2024 1 3 10 0 0 in
  Repository.next_run_for_job Datetime.parse_iso_date db now 1 = Ret (Some r)
  /\ Datetime.datetime_ltb r now = true
  /\ Repository.next_run_for_job Datetime.parse_iso_date db r 1 = Ret (Some r).
Proof.
  repeat split; vm_compute; reflexivity.
Qed.


(** ** Persistence and the due jobs *)

Section PersistAndDue.
Import Datetime Runner.

Lemma isoformat_minutes_truncate now :
  isoformat_minutes (truncate_minute now) = isoformat_minutes now.
Proof. reflexivity. Qed.

Lemma persist_run_ret db job_id t r db' :
  persist_run db job_id t r = (Ret tt, db') ->
  job_exists db job_id = true
  /\ db' = Db.mk (update_last_run (Db.jobs db) job_id (RunResult.end_time r))
                 (Db.schedules db)
                 (filter (fun x => negb (same_key job_id (isoformat_minutes t) x))
                         (Db.run_logs db)
                  ++ [row_of (next_rowid (Db.run_logs db)) job_id t r]).
Proof.
  unfold persist_run, insert_or_replace.
  destruct (job_exists db job_id); cbn [negb]; [|discriminate].
  intros H. inversion H. now split.
Qed.

Lemma has_run_log_after db job_id t r db' :
  persist_run db job_id t r = (Ret tt, db') ->
  Scheduler._has_run_log db' job_id t = true.
Proof.
  intros H. apply persist_run_ret in H. destruct H as [_ ->].
  unfold Scheduler._has_run_log. cbn [Db.run_logs].
  rewrite existsb_app. cbn [existsb]. rewrite same_key_row_of.
  now rewrite orb_true_r.
Qed.

Lemma last_run_after db job_id t r db' j :
  persist_run db job_id t r = (Ret tt, db') ->
  In j (Db.jobs db') -> Job.id j = job_id ->
  Job.last_run_at j = Some (truncate_second (RunResult.end_time r))
  /\ exists j0, In j0 (Db.jobs db) /\ Job.once_per_day j = Job.once_per_day j0.
Proof.
  intros H Hin Hid. apply persist_run_ret in H. destruct H as [_ ->].
  cbn [Db.jobs] in Hin. unfold update_last_run in Hin.
  apply in_map_iff in Hin. destruct Hin as [j0 [Hj Hin0]].
  destruct (Job.id j0 =? job_id) eqn:E.
  - subst j. split; [reflexivity|]. now exists j0.
  - subst j. apply Z.eqb_neq in E. contradiction.
Qed.

Lemma same_key_log_key job_id key r :
  same_key job_id key r = true <-> log_key r = (job_id, key).
Proof.
  unfold same_key, log_key. rewrite andb_true_iff, Z.eqb_eq, String.eqb_eq.
  split; [intros [-> ->]; reflexivity | intros H; inversion H; auto].
Qed.

End PersistAndDue.

(** X1. Once a run is persisted for a job at the scheduled minute of
    [now], [_get_due_jobs] at [now] no longer returns that job: the run log
    guards against a second execution within the minute. *)
Theorem persisted_job_not_due db now job_id result db' :
  Runner.persist_run db job_id (Datetime.truncate_minute now) result = (Ret tt, db') ->
  forall dj, In dj (Scheduler._get_due_jobs db' now) ->
             Job.id (Scheduler.job dj) <> job_id.
Proof.
  intros Hp dj Hin Hid.
  apply in_due_jobs in Hin. destruct Hin as [j [s [(_ & _ & _ & _ & Hlog & _) ->]]].
  cbn in Hid. subst job_id.
  now rewrite (has_run_log_after _ _ _ _ _ Hp) in Hlog.
Qed.

Lemma persisted_job_not_due_witness :
  let now := Sample.at_time 2024 1 3 10 0 30 in
  let db := SampleJobs.weekday_db false None in
  let db' := snd (Runner.persist_run db 1 (Datetime.truncate_minute now)
                                     (Sample.ok_result now)) in
  map Scheduler.schedule_id (Scheduler._get_due_jobs db now) = [7]
  /\ Runner.persist_run db 1 (Datetime.truncate_minute now) (Sample.ok_result now)
     = (Ret tt, db')
  /\ forall dj, In dj (Scheduler._get_due_jobs db' now) ->
                Job.id (Scheduler.job dj) <> 1.
Proof.
  intros now db db'.
  assert (Runner.persist_run db 1 (Datetime.truncate_minute now) (Sample.ok_result now)
          = (Ret tt, db')) as Hp by (vm_compute; reflexivity).
  split; [vm_compute; reflexivity|]. split; [exact Hp|].
  exact (persisted_job_not_due db now 1 (Sample.ok_result now) db' Hp).
Defined.

(** X2. Once a run that ended on some day is persisted for a job, a job
    with that id that is marked once-per-day is not due at any time of that
    day, whatever minute the run was scheduled for. *)
Theorem persisted_once_per_day_rests db job_id t result db' now :
  Runner.persist_run db job_id t result = (Ret tt, db') ->
  Datetime.dt_date now = Datetime.dt_date (RunResult.end_time result) ->
  forall dj, In dj (Scheduler._get_due_jobs db' now) ->
             Job.id (Scheduler.job dj) = job_id ->
             Job.once_per_day (Scheduler.job dj) = false.
Proof.
  intros Hp Hday dj Hin Hid.
  apply in_due_jobs in Hin. destruct Hin as [j [s [(Hj & _ & _ & Hran & _) ->]]].
  cbn in Hid |- *.
  destruct (last_run_after _ _ _ _ _ j Hp Hj Hid) as [Hlast _].
  unfold Scheduler.ran_today in Hran. rewrite Hlast in Hran.
  cbn [Datetime.truncate_second Datetime.dt_date] in Hran.
  rewrite Hday, String.eqb_refl, andb_true_r in Hran. exact Hran.
Qed.

Lemma persisted_once_per_day_rests_witness :
  let ran := Sample.at_time 2024 1 3 8 15 0 in
  let later := Sample.at_time 2024 1 3 10 0 0 in
  let db := SampleJobs.weekday_db true None in
  let db' := snd (Runner.persist_run db 1 ran (Sample.ok_result ran)) in
  map Scheduler.schedule_id (Scheduler._get_due_jobs db later) = [7]
  /\ Scheduler._get_due_jobs db' later = []
  /\ forall dj, In dj (Scheduler._get_due_jobs db' later) ->
                Job.id (Scheduler.job dj) = 1 ->
                Job.once_per_day (Scheduler.job dj) = false.
Proof.
  intros ran later db db'.
  split; [vm_compute; reflexivity|]. split; [vm_compute; reflexivity|].
  apply (persisted_once_per_day_rests db 1 ran (Sample.ok_result ran) db' later);
    vm_compute; reflexivity.
Defined.

(** X3. [persist_run] keeps the unique index of [run_logs] and touches no
    other key: when no two rows shared a job and scheduled time before, none
    do after, and every row under another key is still there. *)
Theorem persist_run_keeps_index db job_id t result :
  unique_run_logs db ->
  let db' := snd (Runner.persist_run db job_id t result) in
  unique_run_logs db'
  /\ forall row, In row (Db.run_logs db) ->
                 log_key row <> (job_id, Datetime.isoformat_minutes t) ->
                 In row (Db.run_logs db').
Proof.
  intros Hu db'. subst db'. unfold Runner.persist_run, Runner.insert_or_replace.
  destruct (Runner.job_exists db job_id); cbn [negb snd];
    [| split; [exact Hu | auto]].
  unfold unique_run_logs in *. cbn [Db.run_logs]. split.
  - rewrite map_app. cbn [map].
    assert (forall l, NoDup (map log_key l) ->
              NoDup (map log_key
                       (filter (fun r => negb (Runner.same_key job_id
                                                 (Datetime.isoformat_minutes t) r)) l)))
      as Hfilter.
    { induction l as [|x l IH]; cbn; [auto|].
      intros Hn. inversion Hn as [|? ? Hx Hl]; subst.
      destruct (negb _); [|now apply IH]. cbn. constructor; [|now apply IH].
      intros Hin. apply Hx. apply in_map_iff in Hin. destruct Hin as [y [Hy Hin]].
      apply filter_In in Hin. rewrite <- Hy. apply in_map. tauto. }
    apply NoDup_app; [now apply Hfilter | repeat constructor; intros [] |].
    intros k Hk [Hnew | []]. apply in_map_iff in Hk. destruct Hk as [y [Hy Hin]].
    apply filter_In in Hin. destruct Hin as [_ Hneg]. apply negb_true_iff in Hneg.
    assert (Runner.same_key job_id (Datetime.isoformat_minutes t) y = true) as C.
    { apply same_key_log_key. rewrite Hy, <- Hnew. reflexivity. }
    congruence.
  - intros row Hin Hkey. apply in_or_app. left. apply filter_In. split; [exact Hin|].
    apply negb_true_iff. destruct (Runner.same_key _ _ row) eqn:E; [|reflexivity].
    apply same_key_log_key in E. contradiction.
Qed.

Lemma persist_run_keeps_index_witness :
  let t := Sample.at_time 2024 1 3 10 0 0 in
  let db := snd (Runner.persist_run (Sample.db_with []) 1
                                    (Sample.at_time 2024 1 2 10 0 0)
                                    (Sample.bad_result t)) in
  let db' := snd (Runner.persist_run db 1 t (Sample.ok_result t)) in
  unique_run_logs db
  /\ unique_run_logs db'
  /\ map RunLog.scheduled_time (Db.run_logs db') = ["2024-01-02T10:00"; "2024-01-03T10:00"].
Proof.
  intros t db db'.
  assert (unique_run_logs db) as Hu.
  { unfold unique_run_logs. vm_compute. repeat constructor. intros []. }
  split; [exact Hu|]. split.
  - exact (proj1 (persist_run_keeps_index db 1 t (Sample.ok_result t) Hu)).
  - vm_compute. reflexivity.
Defined.

(** X4. The worker's [_run_and_persist] on a job returned by
    [_get_due_jobs]: when [run_job] returns, exactly one record holds its
    outcome under the job and minute and the job is no longer due at [now];
    when [run_job] raises, the exception goes on and the database is as it
    was. *)
Theorem run_and_persist_due_job w db now dj st :
  In dj (Scheduler._get_due_jobs db now) ->
  let job := Scheduler.job dj in
  let run := Runner.run_job w job (Scheduler.scheduled_time dj) st in
  let done := Polling._run_and_persist w db dj st in
  (forall result, fst run = Ret result ->
     exists id db',
       done = ((Ret tt, db'), snd run)
       /\ records_for db' (Job.id job) now = [Runner.row_of id (Job.id job) now result]
       /\ forall dj', In dj' (Scheduler._get_due_jobs db' now) ->
                      Job.id (Scheduler.job dj') <> Job.id job)
  /\ (forall e, fst run = Raise e -> done = ((Raise e, db), snd run)).
Proof.
  intros Hin job run done.
  apply in_due_jobs in Hin. destruct Hin as [j [s [(Hj & _) Hdj]]].
  assert (Scheduler.scheduled_time dj = Datetime.truncate_minute now) as Ht
    by now rewrite Hdj.
  assert (job = j) as Hjob by (unfold job; now rewrite Hdj).
  assert (Runner.job_exists db (Job.id job) = true) as Hex.
  { unfold Runner.job_exists. apply existsb_exists. exists j.
    split; [exact Hj | rewrite Hjob; apply Z.eqb_refl]. }
  unfold done, Polling._run_and_persist. fold job. fold run.
  destruct run as [[result | e] st'] eqn:Hrun; cbn [fst snd]; split;
    intros x Hx; inversion Hx; subst x; [|reflexivity].
  destruct (persist_run_records db (Job.id job) (Scheduler.scheduled_time dj) result Hex)
    as (db' & Hp & _ & Hrec).
  exists (Runner.next_rowid (Db.run_logs db)), db'. rewrite Hp.
  split; [reflexivity|]. split.
  - rewrite Ht in Hrec. exact Hrec.
  - intros dj' Hin' Hid. rewrite Ht in Hp.
    apply in_due_jobs in Hin'.
    destruct Hin' as [j' [s' [(_ & _ & _ & _ & Hlog & _) ->]]]. cbn in Hid.
    rewrite Hid in Hlog.
    now rewrite (has_run_log_after _ _ _ _ _ Hp) in Hlog.
Qed.

Lemma run_and_persist_due_job_witness :
  let now := Sample.at_time 2024 1 3 10 0 30 in
  let db := SampleJobs.weekday_db false None in
  let dj := Scheduler.mkDueJob (SampleJobs.daily_job false None) 7
                               (Datetime.truncate_minute now) in
  In dj (Scheduler._get_due_jobs db now)
  /\ exists db',
       Polling._run_and_persist SampleRuns.desk db dj SampleWorld.start_state
       = ((Ret tt, db'),
          snd (Runner.run_job SampleRuns.desk (Scheduler.job dj)
                              (Scheduler.scheduled_time dj) SampleWorld.start_state))
       /\ map RunLog.status (records_for db' 1 now) = ["success"]
       /\ Scheduler._get_due_jobs db' now = [].
Proof.
  intros now db dj.
  assert (In dj (Scheduler._get_due_jobs db now)) as Hin by (vm_compute; left; reflexivity).
  split; [exact Hin|].
  destruct (run_and_persist_due_job SampleRuns.desk db now dj SampleWorld.start_state Hin)
    as [Hret _].
  destruct (Hret _ eq_refl) as (id & db' & Hdone & Hrec & _).
  exists db'. split; [exact Hdone|].
  change (Job.id (Scheduler.job dj)) with 1 in Hrec. rewrite Hrec.
  split; [reflexivity|].
  vm_compute in Hdone. inversion Hdone. vm_compute. reflexivity.
Defined.


(** ** The repository's writes *)

Section StoreFacts.
Import Store.

Lemma due_job_slot db now dj :
  In dj (Scheduler._get_due_jobs db now) ->
  exists s, In s (Db.schedules db)
            /\ ScheduleSlot.job_id s = Job.id (Scheduler.job dj)
            /\ ScheduleSlot.id s = Scheduler.schedule_id dj
            /\ ScheduleSlot.active s = true
            /\ Job.active (Scheduler.job dj) = true
            /\ In (Scheduler.job dj) (Db.jobs db)
            /\ ScheduleSlot.minute_of_day s = Datetime.minute_of_day now.
Proof.
  intros Hin. apply in_due_jobs in Hin.
  destruct Hin as [j [s [(Hj & Hs & Hsel & _) ->]]]. exists s. cbn.
  unfold Scheduler.selected in Hsel. rewrite !andb_true_iff, !Z.eqb_eq in Hsel.
  tauto.
Qed.

End StoreFacts.

(** The text of an instant to the second depends on no finer part of it. *)
Lemma isoformat_seconds_truncate a b :
  Datetime.truncate_second a = Datetime.truncate_second b ->
  Datetime.isoformat_seconds a = Datetime.isoformat_seconds b.
Proof.
  unfold Datetime.truncate_second. intros H. inversion H as [[Hd Hh Hm Hs]].
  unfold Datetime.isoformat_seconds, Datetime.isoformat_minutes.
  now rewrite Hd, Hh, Hm, Hs.
Qed.

(** X5. [log_api_test] writes with a plain insert, keyed by the instant to
    the second: after a test of a job was logged at [now], a test of the
    same job at any instant [now'] of the same second, whatever its
    microseconds, is refused and the database stays as the first test left
    it: by the unique index with an [IntegrityError], or already with an
    [OverflowError] when its status code does not fit 64 bits. *)
Theorem log_api_test_twice db now now' job_id status_code response error db1 :
  Store.log_api_test db now job_id status_code response error = (Ret tt, db1) ->
  Datetime.truncate_second now' = Datetime.truncate_second now ->
  forall status_code' response' error',
    exists e,
      Store.log_api_test db1 now' job_id status_code' response' error' = (Raise e, db1)
      /\ (Store.fits_int64 status_code' = true -> exists msg, e = IntegrityError msg)
      /\ (Store.fits_int64 status_code' = false -> e = Store.too_large).
Proof.
  intros H Hsame. apply isoformat_seconds_truncate in Hsame. revert H.
  unfold Store.log_api_test. rewrite Hsame.
  destruct (Store.fits_int64 job_id) eqn:Hjob; cbn [andb negb]; [|discriminate].
  destruct (Store.fits_int64 status_code); cbn [negb]; [|discriminate].
  destruct (existsb _ (Db.run_logs db)) eqn:Hdup; [discriminate|].
  destruct (negb (Runner.job_exists db job_id)); [discriminate|].
  intros H. inversion H; subst db1. clear H. intros s' r' e'. cbn [Db.run_logs].
  destruct (Store.fits_int64 s'); cbn [negb].
  - rewrite existsb_app. cbn [existsb].
    assert (Runner.same_key job_id (Datetime.isoformat_seconds now)
              (RunLog.mk (Runner.next_rowid (Db.run_logs db)) job_id
                         (Datetime.isoformat_seconds now)
                         (Some (Datetime.isoformat_seconds now))
                         (Some (Datetime.isoformat_seconds now))
                         (if ((200 <=? status_code) && (status_code <? 300))%bool
                          then "success" else "failed")
                         (if status_code =? 0 then None else Some status_code)
                         (Some response) (Some error)) = true) as E.
    { unfold Runner.same_key. cbn [RunLog.job_id RunLog.scheduled_time].
      now rewrite Z.eqb_refl, String.eqb_refl. }
    rewrite E, orb_true_r. eexists. split; [reflexivity|]. split; [eauto | discriminate].
  - eexists. split; [reflexivity|]. split; [discriminate | reflexivity].
Qed.

Lemma log_api_test_twice_witness :
  let now := Datetime.mkDT (Datetime.mkDate 2024 1 3) 10 0 7 120000 in
  let now' := Datetime.mkDT (Datetime.mkDate 2024 1 3) 10 0 7 980000 in
  let db := Sample.db_with [] in
  let db1 := snd (Store.log_api_test db now 1 200 "ok" "") in
  Store.log_api_test db now 1 200 "ok" "" = (Ret tt, db1)
  /\ now' <> now
  /\ exists msg, Store.log_api_test db1 now' 1 503 "" "unavailable"
                 = (Raise (IntegrityError msg), db1).
Proof.
  intros now now' db db1.
  assert (Store.log_api_test db now 1 200 "ok" "" = (Ret tt, db1)) as H
    by (vm_compute; reflexivity).
  split; [exact H|]. split; [discriminate|].
  destruct (log_api_test_twice db now now' 1 200 "ok" "" db1 H eq_refl 503 "" "unavailable")
    as (e & Hrun & Hfits & _).
  destruct (Hfits eq_refl) as [msg ->]. now exists msg.
Defined.

(** X6. [delete_job] cascades: afterwards the job cannot be fetched, has no
    slots and no run logs, is never due and has no next run, while every
    other job, with its slots, is as before. *)
Theorem delete_job_cascades fromisoformat_date db job_id :
  let db' := Store.delete_job db job_id in
  Store.get_job db' job_id = None
  /\ slots_of db' job_id = []
  /\ (forall r, In r (Db.run_logs db') -> RunLog.job_id r <> job_id)
  /\ (forall now dj, In dj (Scheduler._get_due_jobs db' now) ->
                     Job.id (Scheduler.job dj) <> job_id)
  /\ (forall now, Repository.next_run_for_job fromisoformat_date db' now job_id = Ret None)
  /\ (forall other, other <> job_id ->
        Store.get_job db' other = Store.get_job db other
        /\ slots_of db' other = slots_of db other).
Proof.
  intros db'. subst db'. unfold Store.delete_job.
  assert (slots_of (Store.delete_job db job_id) job_id = []) as Hslots.
  { unfold slots_of, Store.delete_job. cbn [Db.schedules].
    induction (Db.schedules db) as [|s l IH]; cbn; [reflexivity|].
    destruct (ScheduleSlot.job_id s =? job_id) eqn:E; cbn; [exact IH|].
    now rewrite E. }
  split; [|split; [exact Hslots|split; [|split; [|split]]]].
  - unfold Store.get_job. cbn [Db.jobs].
    induction (Db.jobs db) as [|j l IH]; cbn; [reflexivity|].
    destruct (Job.id j =? job_id) eqn:E; cbn; [exact IH|]. now rewrite E.
  - cbn [Db.run_logs]. intros r Hin. apply filter_In in Hin. destruct Hin as [_ H].
    apply negb_true_iff, Z.eqb_neq in H. exact H.
  - intros now dj Hin Hid. apply due_job_slot in Hin.
    destruct Hin as (s & Hs & Hjoin & _). cbn [Db.schedules] in Hs.
    apply filter_In in Hs. destruct Hs as [_ H].
    apply negb_true_iff, Z.eqb_neq in H. congruence.
  - intros now. unfold Repository.next_run_for_job, Repository.active_slots.
    fold (Store.delete_job db job_id).
    assert (filter (fun s => ((ScheduleSlot.job_id s =? job_id)
                              && ScheduleSlot.active s)%bool)
                   (Db.schedules (Store.delete_job db job_id)) = []) as E.
    { unfold slots_of in Hslots. revert Hslots.
      induction (Db.schedules (Store.delete_job db job_id)) as [|s l IH]; cbn;
        [reflexivity|].
      destruct (ScheduleSlot.job_id s =? job_id); cbn; [discriminate | exact IH]. }
    now rewrite E.
  - intros other Hne. split.
    + unfold Store.get_job. cbn [Db.jobs].
      induction (Db.jobs db) as [|j l IH]; cbn; [reflexivity|].
      destruct (Job.id j =? job_id) eqn:E; cbn.
      * apply Z.eqb_eq in E.
        assert ((Job.id j =? other) = false) as -> by (apply Z.eqb_neq; congruence).
        exact IH.
      * destruct (Job.id j =? other); [reflexivity | exact IH].
    + unfold slots_of. cbn [Db.schedules].
      induction (Db.schedules db) as [|s l IH]; cbn; [reflexivity|].
      destruct (ScheduleSlot.job_id s =? job_id) eqn:E; cbn.
      * apply Z.eqb_eq in E.
        assert ((ScheduleSlot.job_id s =? other) = false) as ->
            by (apply Z.eqb_neq; congruence).
        exact IH.
      * destruct (ScheduleSlot.job_id s =? other); [now rewrite IH | exact IH].
Qed.

(** X7. [set_schedule_active] with [False] silences a job: it is never due
    afterwards and has no next run, until its schedule is activated again. *)
Theorem deactivated_schedule_is_silent fromisoformat_date db job_id now :
  let db' := Store.set_schedule_active db job_id false in
  (forall dj, In dj (Scheduler._get_due_jobs db' now) ->
              Job.id (Scheduler.job dj) <> job_id)
  /\ Repository.next_run_for_job fromisoformat_date db' now job_id = Ret None.
Proof.
  intros db'. subst db'. split.
  - intros dj Hin Hid. apply due_job_slot in Hin.
    destruct Hin as (s & Hs & Hjoin & _ & Hact & _).
    unfold Store.set_schedule_active in Hs. cbn [Db.schedules] in Hs.
    apply in_map_iff in Hs. destruct Hs as [s0 [Hs0 _]].
    destruct (ScheduleSlot.job_id s0 =? job_id) eqn:E.
    + subst s. cbn in Hact. discriminate.
    + subst s. apply Z.eqb_neq in E. congruence.
  - unfold Repository.next_run_for_job, Repository.active_slots,
      Store.set_schedule_active. cbn [Db.schedules].
    assert (filter (fun s => ((ScheduleSlot.job_id s =? job_id)
                              && ScheduleSlot.active s)%bool)
              (map (fun s => if ScheduleSlot.job_id s =? job_id
                             then ScheduleSlot.mk (ScheduleSlot.id s)
                                    (ScheduleSlot.job_id s)
                                    (ScheduleSlot.schedule_type s)
                                    (ScheduleSlot.days_mask s) (ScheduleSlot.date s)
                                    (ScheduleSlot.minute_of_day s) false
                             else s) (Db.schedules db)) = []) as E.
    { induction (Db.schedules db) as [|s l IH]; cbn; [reflexivity|].
      destruct (ScheduleSlot.job_id s =? job_id) eqn:E; cbn; rewrite E; cbn; exact IH. }
    now rewrite E.
Qed.

Lemma set_setting_keys settings key value k :
  In k (map fst (Store.set_setting settings key value)) ->
  k = key \/ In k (map fst settings).
Proof.
  induction settings as [|[k0 v0] rest IH]; cbn.
  - intros [<- | []]. now left.
  - destruct (String.eqb k0 key); cbn; intros [<- | Hin]; auto.
    destruct (IH Hin); auto.
Qed.

(** X8. Settings are last-write-wins per key: a value set is the value
    read, other keys read as before, and the key stays unique in the
    table. *)
Theorem set_then_get_setting settings key value :
  (forall default, Store.get_setting (Store.set_setting settings key value) key default
                   = value)
  /\ (forall other default, other <> key ->
        Store.get_setting (Store.set_setting settings key value) other default
        = Store.get_setting settings other default)
  /\ (NoDup (map fst settings) ->
      NoDup (map fst (Store.set_setting settings key value))).
Proof.
  split; [|split].
  - intros default. unfold Store.get_setting.
    induction settings as [|[k v] rest IH]; cbn.
    + now rewrite String.eqb_refl.
    + destruct (String.eqb k key) eqn:E; cbn; rewrite E; [reflexivity | exact IH].
  - intros other default Hne. unfold Store.get_setting.
    induction settings as [|[k v] rest IH]; cbn.
    + assert (String.eqb key other = false) as -> by (apply String.eqb_neq; congruence).
      reflexivity.
    + destruct (String.eqb k key) eqn:E; cbn.
      * apply String.eqb_eq in E. subst k.
        assert (String.eqb key other = false) as -> by (apply String.eqb_neq; congruence).
        reflexivity.
      * destruct (String.eqb k other); [reflexivity | exact IH].
  - induction settings as [|[k v] rest IH]; cbn.
    + intros _. repeat constructor. intros [].
    + intros Hn. inversion Hn as [|? ? Hk Hrest]; subst.
      destruct (String.eqb k key) eqn:E; cbn; [exact Hn|].
      constructor; [|now apply IH].
      intros Hin. destruct (set_setting_keys rest key value k Hin) as [-> | Hin'].
      * now rewrite String.eqb_refl in E.
      * contradiction.
Qed.


Section ReplaceSlots.
Import Store.

Lemma fold_max_le (rows : list ScheduleSlot.t) : forall m,
  m <= fold_left (fun m s => Z.max m (ScheduleSlot.id s)) rows m
  /\ forall s, In s rows ->
               ScheduleSlot.id s
               <= fold_left (fun m s => Z.max m (ScheduleSlot.id s)) rows m.
Proof.
  induction rows as [|x rows IH]; intros m; cbn.
  - split; [lia | intros s []].
  - destruct (IH (Z.max m (ScheduleSlot.id x))) as [Hm Hs]. split; [lia|].
    intros s [<- | Hin]; [lia | now apply Hs].
Qed.

Lemma next_slot_id_fresh rows s :
  In s rows -> ScheduleSlot.id s < next_slot_id rows.
Proof.
  intros Hin. unfold next_slot_id.
  destruct (fold_max_le rows 0) as [_ H]. specialize (H s Hin). lia.
Qed.

(** The rows [insert_slots] adds, after the rows that were there. *)
Lemma insert_slots_adds job_id kind mask date slots : forall rows,
  NoDup (map ScheduleSlot.id rows) ->
  exists added,
    insert_slots rows job_id kind mask date slots = rows ++ added
    /\ map ScheduleSlot.minute_of_day added = slots
    /\ Forall (fun s => ScheduleSlot.job_id s = job_id
                        /\ ScheduleSlot.schedule_type s = kind
                        /\ ScheduleSlot.days_mask s = mask
                        /\ ScheduleSlot.date s = date
                        /\ ScheduleSlot.active s = true) added
    /\ NoDup (map ScheduleSlot.id (rows ++ added)).
Proof.
  induction slots as [|minute rest IH]; intros rows Hn; cbn [insert_slots].
  - exists []. rewrite app_nil_r. repeat split; [constructor | exact Hn].
  - set (x := ScheduleSlot.mk (next_slot_id rows) job_id kind mask date minute true).
    assert (NoDup (map ScheduleSlot.id (rows ++ [x]))) as Hn'.
    { rewrite map_app. apply NoDup_app; [exact Hn | repeat constructor; intros [] |].
      intros k Hk [Hx | []]. apply in_map_iff in Hk. destruct Hk as [s [Hs Hin]].
      pose proof (next_slot_id_fresh rows s Hin). cbn in Hx. lia. }
    destruct (IH (rows ++ [x]) Hn') as (added & E & Hm & Hf & Hnd).
    exists (x :: added). rewrite E, <- app_assoc. cbn [app].
    split; [reflexivity|]. split; [cbn; now rewrite Hm|].
    split; [constructor; [now repeat split | exact Hf]|].
    now rewrite <- app_assoc in Hnd.
Qed.

Lemma slots_of_kept db job_id other :
  filter (fun s => ScheduleSlot.job_id s =? other)
         (filter (fun s => negb (ScheduleSlot.job_id s =? job_id)) (Db.schedules db))
  = if other =? job_id then [] else slots_of db other.
Proof.
  unfold slots_of. induction (Db.schedules db) as [|s l IH]; cbn.
  - now destruct (other =? job_id).
  - destruct (ScheduleSlot.job_id s =? job_id) eqn:E; cbn.
    + apply Z.eqb_eq in E. rewrite IH.
      destruct (Z.eqb_spec other job_id) as [->|Hne]; [reflexivity|].
      assert ((ScheduleSlot.job_id s =? other) = false) as ->
          by (apply Z.eqb_neq; congruence).
      reflexivity.
    + destruct (ScheduleSlot.job_id s =? other) eqn:E2; rewrite IH.
      * apply Z.eqb_eq in E2. apply Z.eqb_neq in E.
        assert ((other =? job_id) = false) as -> by (apply Z.eqb_neq; congruence).
        reflexivity.
      * reflexivity.
Qed.

Lemma filter_all {T} (p : T -> bool) l :
  Forall (fun x => p x = true) l -> filter p l = l.
Proof.
  induction 1 as [|x l Hx _ IH]; cbn; [reflexivity|]. now rewrite Hx, IH.
Qed.

Lemma filter_none {T} (p : T -> bool) l :
  Forall (fun x => p x = false) l -> filter p l = [].
Proof.
  induction 1 as [|x l Hx _ IH]; cbn; [reflexivity|]. now rewrite Hx, IH.
Qed.

End ReplaceSlots.

(** X9. [replace_schedule_slots] replaces all slots of the job: afterwards
    the job has exactly one active slot for each minute given, in that
    order, every one with the kind, mask and date given; the slots of other
    jobs and the primary key of the table are untouched. *)
Theorem replace_schedule_slots_replaces db job_id kind slots mask date db' :
  primary_keys db = true ->
  Store.replace_schedule_slots db job_id kind slots mask date = (Ret tt, db') ->
  map ScheduleSlot.minute_of_day (slots_of db' job_id) = slots
  /\ Forall (fun s => ScheduleSlot.schedule_type s = kind
                      /\ ScheduleSlot.days_mask s = mask
                      /\ ScheduleSlot.date s = date
                      /\ ScheduleSlot.active s = true) (slots_of db' job_id)
  /\ (forall other, other <> job_id -> slots_of db' other = slots_of db other)
  /\ primary_keys db' = true.
Proof.
  intros Hk. unfold primary_keys in Hk. apply andb_true_iff in Hk.
  destruct Hk as [Hkj Hks]. apply distinct_ids_NoDup in Hks.
  assert (NoDup (map ScheduleSlot.id
                     (filter (fun s => negb (ScheduleSlot.job_id s =? job_id))
                             (Db.schedules db)))) as Hkept.
  { revert Hks. induction (Db.schedules db) as [|s l IH]; cbn; [auto|].
    intros Hn. inversion Hn as [|? ? Hx Hl]; subst.
    destruct (negb _); [|now apply IH]. cbn. constructor; [|now apply IH].
    intros Hin. apply Hx. apply in_map_iff in Hin. destruct Hin as [y [Hy Hin]].
    apply filter_In in Hin. rewrite <- Hy. apply in_map. tauto. }
  destruct (insert_slots_adds job_id kind mask date slots _ Hkept)
    as (added & E & Hm & Hf & Hnd).
  assert (forall other,
            filter (fun s => ScheduleSlot.job_id s =? other) added
            = if other =? job_id then added else []) as Hadded.
  { intros other. destruct (Z.eqb_spec other job_id) as [->|Hne].
    - apply filter_all. eapply Forall_impl; [|exact Hf].
      intros s (-> & _). apply Z.eqb_refl.
    - apply filter_none. eapply Forall_impl; [|exact Hf].
      intros s (-> & _). apply Z.eqb_neq. congruence. }
  unfold Store.replace_schedule_slots.
  destruct (negb (Store.fits_int64 job_id)); [discriminate|].
  destruct slots as [|minute rest].
  - intros H. inversion H; subst db'. clear H.
    unfold slots_of, primary_keys. cbn [Db.schedules Db.jobs].
    split; [|split; [|split]].
    + rewrite slots_of_kept, Z.eqb_refl. reflexivity.
    + rewrite slots_of_kept, Z.eqb_refl. constructor.
    + intros other Hne. rewrite slots_of_kept.
      now assert ((other =? job_id) = false) as -> by (now apply Z.eqb_neq).
    + rewrite Hkj. now apply distinct_ids_NoDup.
  - destruct (negb (Store.fits_int64 mask && Store.fits_int64 minute)); [discriminate|].
    destruct (negb (Runner.job_exists db job_id)); [discriminate|].
    destruct (negb (forallb Store.fits_int64 rest)); [discriminate|].
    intros H. inversion H; subst db'. clear H.
    unfold slots_of, primary_keys. cbn [Db.schedules Db.jobs].
    cbn [Store.insert_slots] in E. rewrite E.
    split; [|split; [|split]].
    + rewrite filter_app, slots_of_kept, Hadded, Z.eqb_refl. exact Hm.
    + rewrite filter_app, slots_of_kept, Hadded, Z.eqb_refl. cbn [app].
      eapply Forall_impl; [|exact Hf]. intros s (_ & H1 & H2 & H3 & H4). auto.
    + intros other Hne. rewrite filter_app, slots_of_kept, Hadded.
      assert ((other =? job_id) = false) as -> by (now apply Z.eqb_neq).
      now rewrite app_nil_r.
    + rewrite Hkj. now apply distinct_ids_NoDup.
Qed.

Lemma replace_schedule_slots_replaces_witness :
  let db := SampleJobs.weekday_db false None in
  let db' := snd (Store.replace_schedule_slots db 1 "monthly" [0; 720] 0 (Some "15")) in
  primary_keys db = true
  /\ Store.replace_schedule_slots db 1 "monthly" [0; 720] 0 (Some "15") = (Ret tt, db')
  /\ map ScheduleSlot.minute_of_day (slots_of db' 1) = [0; 720]
  /\ map ScheduleSlot.schedule_type (slots_of db' 1) = ["monthly"; "monthly"].
Proof.
  intros db db'.
  assert (primary_keys db = true) as Hk by reflexivity.
  assert (Store.replace_schedule_slots db 1 "monthly" [0; 720] 0 (Some "15")
          = (Ret tt, db')) as Hr by (vm_compute; reflexivity).
  split; [exact Hk|]. split; [exact Hr|].
  split.
  - exact (proj1 (replace_schedule_slots_replaces db 1 "monthly" [0; 720] 0 (Some "15")
                    db' Hk Hr)).
  - vm_compute. reflexivity.
Defined.


(** ** Runs that return *)

Section Returns.
Context {A B : Type}.

Lemma returns_ret (a : A) : always_returns (ret a).
Proof. intros st. now exists a. Qed.

Lemma returns_bind (m : M A) (k : A -> M B) :
  always_returns m -> (forall a, always_returns (k a)) -> always_returns (bind m k).
Proof.
  intros Hm Hk st. unfold bind. destruct (Hm st) as [a Ha].
  destruct (m st) as [[a' | e] st1]; cbn in Ha; [|discriminate].
  apply Hk.
Qed.

(** A handler that returns makes the whole [try] return. *)
Lemma returns_try (m : M A) (h : exn -> M A) :
  (forall e, always_returns (h e)) -> always_returns (try_except m h).
Proof.
  intros Hh st. unfold try_except.
  destruct (m st) as [[a | e] st1]; [now exists a | apply Hh].
Qed.

End Returns.

Lemma returns_now w : always_returns (now w).
Proof. intros st. now eexists. Qed.

Lemma returns_failed w start_time exit_code error :
  always_returns (Runner.failed w start_time exit_code error).
Proof.
  unfold Runner.failed. apply returns_bind; [apply returns_now | intros; apply returns_ret].
Qed.

Lemma returns_run_tool w job start_time :
  always_returns (Runner._run_tool w job start_time).
Proof.
  unfold Runner._run_tool. destruct (Tools.validate_tool_params _ _).
  - apply returns_try. intros e. apply returns_failed.
  - apply returns_failed.
Qed.

Lemma returns_launch w job command start_time :
  always_returns (Runner.launch w job command start_time).
Proof.
  unfold Runner.launch.
  destruct (Job.run_as_admin job);
    [unfold Runner._run_as_admin; apply returns_try; intros; apply returns_failed|].
  destruct (_ && _ && _)%bool.
  - unfold Runner._run_as. destruct (negb _); [apply returns_failed|].
    apply returns_try. intros; apply returns_failed.
  - unfold Runner.run_direct. intros st. unfold bind, emit.
    destruct (subprocess_run w command Runner.DEFAULT_TIMEOUT); cbn; eauto.
Qed.

(** X10. Outside HTTP mode [run_job] returns an outcome record whenever
    the command can be built, which a tool job never needs: tool failures,
    launch failures, timeouts and missing targets all come back as a
    [RunResult]. The command cannot be built exactly when the check of the
    one path consulted raises, the batch file if named and else the program,
    or when the parameters of an existing program cannot be tokenized; that
    exception then leaves [run_job] with nothing executed. *)
Theorem run_job_returns w job t :
  Runner.http_mode job = false ->
  (returns (Runner._build_command w job) = true ->
   always_returns (Runner.run_job w job t))
  /\ (Runner.is_tool job = true -> always_returns (Runner.run_job w job t))
  /\ (forall e,
         Runner.is_tool job = false -> Runner._build_command w job = Raise e ->
         forall st, Runner.run_job w job t st = (Raise e, mkSt (S (ticks st)) (log st)))
  /\ (forall e,
         Runner._build_command w job = Raise e <->
         Runner.is_tool job = false
         /\ ((Py.is_empty (Job.batch_path job) = false
              /\ path_exists w (Job.batch_path job) = Raise e)
             \/ (Py.is_empty (Job.batch_path job) = true
                 /\ Py.is_empty (Job.program_path job) = false
                 /\ (path_exists w (Job.program_path job) = Raise e
                     \/ (path_exists w (Job.program_path job) = Ret true
                         /\ Py.is_empty (Job.parameters job) = false
                         /\ shlex_split w (Job.parameters job) = Raise e))))).
Proof.
  intros Hh.
  assert (returns (Runner._build_command w job) = true ->
          always_returns (Runner.run_job w job t)) as Hret.
  { intros Hc. unfold Runner.run_job.
    apply returns_bind; [apply returns_now | intros start_time].
    rewrite Hh. destruct (Runner.is_tool job); [apply returns_run_tool|].
    destruct (Runner._build_command w job) as [command | e]; [|discriminate].
    intros st. unfold bind, lift.
    destruct command as [[|file rest]|];
      [apply returns_failed | apply returns_launch | apply returns_failed]. }
  split; [exact Hret|]. split; [|split].
  - intros Ht. apply Hret. unfold Runner._build_command. now rewrite Ht.
  - intros e Ht Hc st. rewrite run_job_dispatch, Hh, Ht. unfold bind, lift.
    now rewrite Hc.
  - intros e. unfold Runner._build_command, Runner._split_params.
    destruct (Runner.is_tool job);
      [split; [discriminate | intros [C _]; discriminate]|].
    destruct (Py.is_empty (Job.batch_path job)); cbn [negb].
    + destruct (Py.is_empty (Job.program_path job)); cbn [negb].
      * split; [discriminate|]. intros [_ [[C _] | [_ [C _]]]]; discriminate.
      * destruct (path_exists w (Job.program_path job)) as [[|]|e1].
        -- destruct (Py.is_empty (Job.parameters job)); cbn [negb].
           ++ split; [discriminate|].
              intros [_ [[C _] | [_ [_ [C | [_ [C _]]]]]]]; discriminate.
           ++ destruct (shlex_split w (Job.parameters job)) as [extra|e2].
              ** split; [discriminate|].
                 intros [_ [[C _] | [_ [_ [C | [_ [_ C]]]]]]]; discriminate.
              ** split.
                 --- intros H. inversion H; subst. split; [reflexivity|].
                     right. repeat split. right. repeat split.
                 --- intros [_ [[C _] | [_ [_ [C | [_ [_ C]]]]]]];
                       try discriminate. now inversion C.
        -- split; [discriminate|].
           intros [_ [[C _] | [_ [_ [C | [C _]]]]]]; discriminate.
        -- split.
           ++ intros H. inversion H; subst. split; [reflexivity|].
              right. repeat split. now left.
           ++ intros [_ [[C _] | [_ [_ [C | [C _]]]]]]; try discriminate.
              now inversion C.
    + destruct (path_exists w (Job.batch_path job)) as [[|]|e1].
      * split; [discriminate|]. intros [_ [[_ C] | [C _]]]; discriminate.
      * split; [discriminate|]. intros [_ [[_ C] | [C _]]]; discriminate.
      * split.
        -- intros H. inversion H; subst. split; [reflexivity|]. left. now split.
        -- intros [_ [[_ C] | [C _]]]; [now inversion C | discriminate].
Qed.

Lemma run_job_returns_witness :
  let job := SampleRuns.target_job "C:\tools\gone.exe" "-v" "" in
  Runner.http_mode job = false
  /\ returns (Runner._build_command SampleRuns.desk job) = true
  /\ always_returns (Runner.run_job SampleRuns.desk job (Sample.at_time 2024 1 3 10 0 0)).
Proof.
  intros job. split; [reflexivity|]. split; [reflexivity|].
  destruct (run_job_returns SampleRuns.desk job (Sample.at_time 2024 1 3 10 0 0) eq_refl)
    as (Hret & _).
  apply Hret. reflexivity.
Defined.


(** ** Tool jobs *)

Section ToolJobs.
Import Py Tools.

Lemma require_fields_fold params keys : forall errors,
  fold_left (fun errors key => require_field params key errors) keys errors
  = errors ++ map missing_message (filter (fun k => negb (present params k)) keys).
Proof.
  induction keys as [|key keys IH]; intros errors; cbn [fold_left filter map].
  - now rewrite app_nil_r.
  - rewrite IH. unfold require_field, present.
    destruct (dict_get key params) as [[|c s]|]; cbn [negb map];
      now rewrite <- ?app_assoc.
Qed.

(** The errors of [validate_tool_params]: one message for each required
    field that is missing or empty, in the order of the fields. *)
Lemma validate_tool_params_missing tool_name params :
  validate_tool_params tool_name params
  = map missing_message
        (filter (fun k => negb (present params k)) (required_fields tool_name)).
Proof.
  unfold validate_tool_params, required_fields.
  repeat match goal with
         | |- (if ?c then _ else _) = _ => destruct c
         end; try apply (require_fields_fold params _ []); reflexivity.
Qed.

End ToolJobs.

(** X11. A tool job with a required parameter missing or empty fails
    validation before anything is executed: [run_job] returns [failed] with
    exit code 1, the error text being the messages joined by spaces, the
    message for that field among them, and nothing is added to the log. *)
Theorem tool_job_missing_field w job t st key :
  Runner.http_mode job = false ->
  Runner.is_tool job = true ->
  let tool_name := Py.split_last "tool:" (Job.program_path job) in
  let params := Tools.parse_tool_params (Job.parameters job) in
  In key (required_fields tool_name) ->
  present params key = false ->
  exists r st',
    Runner.run_job w job t st = (Ret r, st')
    /\ log st' = log st
    /\ RunResult.status r = "failed" /\ RunResult.exit_code r = Some 1
    /\ RunResult.output r = ""
    /\ RunResult.error r = Py.join " " (Tools.validate_tool_params tool_name params)
    /\ In (missing_message key) (Tools.validate_tool_params tool_name params).
Proof.
  intros Hh Ht tool_name params Hkey Habsent.
  assert (In (missing_message key) (Tools.validate_tool_params tool_name params)) as Hin.
  { rewrite validate_tool_params_missing. apply in_map. apply filter_In.
    split; [exact Hkey | now rewrite Habsent]. }
  unfold Runner.run_job, bind, now. rewrite Hh, Ht. unfold Runner._run_tool.
  fold tool_name. fold params.
  destruct (Tools.validate_tool_params tool_name params) as [|msg rest] eqn:E;
    [destruct Hin|].
  unfold Runner.failed, bind, now, ret. cbn [ticks log].
  eexists. eexists. split; [reflexivity|]. cbn. repeat split. exact Hin.
Qed.

Lemma tool_job_missing_field_witness :
  let job := SampleTools.tool_job "copy" "source=C:\a.txt" in
  let run := Runner.run_job SampleRuns.desk job (Sample.at_time 2024 1 3 10 0 0)
                            SampleWorld.start_state in
  Runner.http_mode job = false /\ Runner.is_tool job = true
  /\ In "destination" (required_fields "copy")
  /\ exists r st',
       run = (Ret r, st') /\ log st' = []
       /\ RunResult.exit_code r = Some 1
       /\ RunResult.error r = "Missing destination.".
Proof.
  intros job run.
  split; [reflexivity|]. split; [reflexivity|]. split; [right; left; reflexivity|].
  destruct (tool_job_missing_field SampleRuns.desk job (Sample.at_time 2024 1 3 10 0 0)
              SampleWorld.start_state "destination" eq_refl eq_refl
              (or_intror (or_introl eq_refl)) eq_refl)
    as (r & st' & Hrun & Hlog & _ & Hcode & _ & Herr & _).
  exists r, st'. repeat split; assumption.
Defined.

(** X12. A tool job whose name is none of the ten the dispatcher knows
    passes validation, but nothing is executed: the outcome is [failed],
    without an exit code, with the error naming the unknown tool. *)
Theorem unknown_tool_fails w job t st :
  Runner.http_mode job = false ->
  Runner.is_tool job = true ->
  let tool_name := Py.split_last "tool:" (Job.program_path job) in
  existsb (String.eqb tool_name) known_tools = false ->
  exists r st',
    Runner.run_job w job t st = (Ret r, st')
    /\ log st' = log st
    /\ RunResult.status r = "failed" /\ RunResult.exit_code r = None
    /\ RunResult.error r = ("Unknown tool: " ++ tool_name)%string.
Proof.
  intros Hh Ht tool_name Hunknown.
  unfold known_tools in Hunknown. cbn [existsb] in Hunknown.
  repeat (apply orb_false_iff in Hunknown;
          let H := fresh "H" in destruct Hunknown as [H Hunknown]).
  unfold Runner.run_job, bind, now. rewrite Hh, Ht. unfold Runner._run_tool.
  fold tool_name. rewrite validate_tool_params_missing.
  unfold required_fields. rewrite H, H0, H1, H2, H3, H4, H5, H8. cbn [orb filter map].
  unfold try_except, Runner._execute_tool, bind.
  rewrite H, H0, H1, H2, H3, H4, H5, H6, H7, H8.
  unfold raise, Runner.failed, bind, now, ret. cbn [ticks log].
  eexists. eexists. split; [reflexivity|]. now repeat split.
Qed.

Lemma unknown_tool_fails_witness :
  let job := SampleTools.tool_job "defrag" "" in
  Runner.http_mode job = false /\ Runner.is_tool job = true
  /\ exists r st',
       Runner.run_job SampleRuns.desk job (Sample.at_time 2024 1 3 10 0 0)
                      SampleWorld.start_state = (Ret r, st')
       /\ log st' = [] /\ RunResult.error r = "Unknown tool: defrag".
Proof.
  intros job. split; [reflexivity|]. split; [reflexivity|].
  destruct (unknown_tool_fails SampleRuns.desk job (Sample.at_time 2024 1 3 10 0 0)
              SampleWorld.start_state eq_refl eq_refl eq_refl)
    as (r & st' & Hrun & Hlog & _ & _ & Herr).
  exists r, st'. repeat split; assumption.
Defined.


(** ** The HTTP client, for any retry count *)


(** X13. [perform_request] for any retry count: when the request cannot
    be built, the exception of the constructor leaves before any attempt, and
    that is the case of every URL without a scheme, one whose only colon
    lies in its fragment included; once the request is built, the function
    never returns [None], and it makes at least one attempt and at most
    [max(1, retries + 1)], even for a negative retry count. *)
Theorem perform_request_attempts w method url headers body auth_type auth_value
        timeout retries st :
  let built := Request.prepare w method url headers body auth_type auth_value in
  let run := Request.perform_request w method url headers body auth_type auth_value
                                     timeout retries st in
  (forall e, built = Raise e -> run = (Raise e, st))
  /\ (Request.has_scheme_aux false (fst (Request._splittag (Request.unwrap url))) = false ->
      exists msg, built = Raise (ValueError msg))
  /\ (Request.has_scheme url = false -> exists msg, built = Raise (ValueError msg))
  /\ (forall request, built = Ret request ->
      fst run <> Ret None
      /\ exists new, log (snd run) = log st ++ new
                     /\ (1 <= attempts_made new <= attempts_allowed retries)%nat).
Proof.
  intros built run. subst built run. rewrite perform_request_loop.
  split; [|split; [|split]].
  - intros e ->. reflexivity.
  - intros H. unfold Request.prepare, Request.new_request.
    destruct (Request._splittag (Request.unwrap url)) as [path fragment].
    cbn [fst] in H. rewrite H. cbn [negb]. eauto.
  - apply prepare_needs_scheme.
  - intros request ->.
    apply attempt_loop_answers; unfold attempts_allowed; lia.
Qed.

(** X14. When the request is built and every attempt fails in transport,
    [perform_request] makes all [max(1, retries + 1)] attempts, sleeping one
    second between two of them, and returns status 0 with an empty response
    and the text of the last failure. *)
Theorem perform_request_exhausted w method url headers body auth_type auth_value
        timeout retries st (err : nat -> exn) request :
  Request.prepare w method url headers body auth_type auth_value = Ret request ->
  let tmo := Request.effective_timeout timeout in
  (forall i, urlopen w request tmo i = Failed (err i)) ->
  Request.perform_request w method url headers body auth_type auth_value
                          timeout retries st
  = (Ret (Some (Request.mkResponse
                  0 "" (Some (str_exn (err (attempts_allowed retries - 1)%nat))))),
     mkSt (ticks st)
          (log st ++ retry_log request tmo 0 (attempts_allowed retries))).
Proof.
  intros Hreq tmo Hfail. rewrite perform_request_loop, Hreq. fold tmo.
  apply (attempt_loop_exhausted w request tmo (Z.max 1 (retries + 1)) err
                                (attempts_allowed retries) 0%nat st);
    unfold attempts_allowed; try lia. exact Hfail.
Qed.

Lemma perform_request_exhausted_witness :
  let url := "http://example.com/hook" in
  let request := UrlRequest.mk url None [] "GET" in
  let run := Request.perform_request SampleTools.unreachable "GET" url [] "" "" "" 5 1
                                     SampleWorld.start_state in
  Request.prepare SampleTools.unreachable "GET" url [] "" "" "" = Ret request
  /\ fst run = Ret (Some (Request.mkResponse 0 "" (Some "timed out")))
  /\ map backend_of (log (snd run)) = [HttpClient; HttpClient; HttpClient]
  /\ attempts_made (log (snd run)) = 2%nat.
Proof.
  intros url request run.
  assert (Request.prepare SampleTools.unreachable "GET" url [] "" "" "" = Ret request)
    as Hreq by reflexivity.
  split; [exact Hreq|].
  unfold run.
  rewrite (perform_request_exhausted SampleTools.unreachable "GET" url [] "" "" "" 5 1
             SampleWorld.start_state (fun _ => OSError "timed out") request Hreq
             (fun i => eq_refl)).
  repeat split.
Defined.

(** X15. How [run_job] reports an HTTP run: when the request comes back
    with a response, the outcome is [success] exactly for a status in
    200..299, the exit code is the status (absent when it is 0), the output
    is the response text and the error is the error text, if any. *)
Theorem run_job_http_outcome w job t st response st' :
  Runner.http_mode job = true ->
  ScheduleApi.perform_request w (Job.api_method job) (Job.api_url job)
    (Runner._parse_headers (Job.api_headers job)) (Job.api_body job)
    (Job.api_auth_type job) (Job.api_auth_value job) (Job.api_timeout job)
    (Job.api_retries job) (mkSt (S (ticks st)) (log st))
  = (Ret (Some response), st') ->
  exists r,
    fst (Runner.run_job w job t st) = Ret r
    /\ (RunResult.status r = "success" <->
        200 <= Request.status response < 300)
    /\ (RunResult.status r = "success" \/ RunResult.status r = "failed")
    /\ RunResult.exit_code r
       = (if Request.status response =? 0 then None else Some (Request.status response))
    /\ RunResult.output r = Request.response response
    /\ RunResult.error r
       = match Request.error response with Some e => e | None => "" end.
Proof.
  intros Hh Hreq. unfold Runner.run_job, bind, now. rewrite Hh. cbn [ticks log].
  unfold Runner._run_api, bind. rewrite Hreq. unfold now, ret. cbn [fst].
  eexists. split; [reflexivity|]. cbn.
  destruct (Z.leb_spec 200 (Request.status response));
    destruct (Z.ltb_spec (Request.status response) 300); cbn;
    repeat split; auto; try lia; try discriminate.
Qed.

Lemma run_job_http_outcome_witness :
  let job := SampleRuns.hook_job "http://example.com/hook" in
  let st := SampleWorld.start_state in
  Runner.http_mode job = true
  /\ exists r,
       fst (Runner.run_job SampleWorld.missing job (Sample.at_time 2024 1 3 10 0 0) st)
       = Ret r
       /\ RunResult.status r <> "success"
       /\ RunResult.exit_code r = Some 404.
Proof.
  intros job st. split; [reflexivity|].
  destruct (run_job_http_outcome SampleWorld.missing job (Sample.at_time 2024 1 3 10 0 0)
              st (Request.mkResponse 404 "not found" (Some "HTTP Error 404: Not Found"))
              (mkSt 1 [EvUrlopen (UrlRequest.mk "http://example.com/hook" (Some "{}")
                                                [("Content-type", "application/json")]
                                                "POST")
                                 30 0])
              eq_refl eq_refl)
    as (r & Hr & Hs & _ & Hc & _).
  exists r. split; [exact Hr|]. split; [|exact Hc].
  intros C. apply Hs in C. cbn in C. lia.
Defined.


(** ** Dictionaries *)

Section DictFacts.
Import Py.

Lemma dict_get_set_same k v d : dict_get k (dict_set k v d) = Some v.
Proof.
  induction d as [|[k' v'] d IH]; cbn.
  - now rewrite String.eqb_refl.
  - destruct (String.eqb k' k) eqn:E; cbn; now rewrite E.
Qed.


Lemma dict_set_keys k v d x :
  In x (keys (dict_set k v d)) -> x = k \/ In x (keys d).
Proof.
  induction d as [|[k0 v0] d IH]; cbn.
  - intros [<- | []]. now left.
  - destruct (String.eqb k0 k); cbn; intros [<- | Hin]; auto.
    destruct (IH Hin); auto.
Qed.

Lemma dict_set_NoDup k v d : NoDup (keys d) -> NoDup (keys (dict_set k v d)).
Proof.
  induction d as [|[k0 v0] d IH]; cbn.
  - intros _. repeat constructor. intros [].
  - intros Hn. inversion Hn as [|? ? Hk Hrest]; subst.
    destruct (String.eqb k0 k) eqn:E; cbn; [exact Hn|].
    constructor; [|now apply IH].
    intros Hin. destruct (dict_set_keys k v d k0 Hin) as [-> | Hin'].
    + now rewrite String.eqb_refl in E.
    + contradiction.
Qed.

Lemma split_append_any sep a b :
  split sep (a ++ String sep b)%string = split sep a ++ split sep b.
Proof.
  induction a as [|x a IH]; cbn.
  - now rewrite Ascii.eqb_refl.
  - destruct (Ascii.eqb x sep); [now rewrite IH|].
    rewrite IH. destruct (split sep a) eqn:E; [now apply split_nonempty in E|].
    reflexivity.
Qed.

Lemma parse_item_NoDup params item :
  NoDup (keys params) -> NoDup (keys (Tools.parse_item params item)).
Proof.
  intros Hn. unfold Tools.parse_item.
  destruct (is_empty item); [exact Hn|].
  destruct (negb (contains "=" item)); [now apply dict_set_NoDup|].
  destruct (split_first "=" item). now apply dict_set_NoDup.
Qed.

Lemma parse_items_NoDup items : forall acc,
  NoDup (keys acc) -> NoDup (keys (fold_left Tools.parse_item items acc)).
Proof.
  induction items as [|item items IH]; intros acc Hn; cbn; [exact Hn|].
  apply IH. now apply parse_item_NoDup.
Qed.

Lemma is_empty_append a b :
  is_empty (a ++ b)%string = (is_empty a && is_empty b)%bool.
Proof. now destruct a. Qed.

End DictFacts.

(** X16. [parse_tool_params] always yields a dictionary, whatever the
    text: no key occurs twice. A trailing [;] changes nothing, and an entry
    appended after a [;] overrides any earlier value of its key. *)
Theorem parse_tool_params_dict raw :
  Wf.is_dict (Tools.parse_tool_params raw) = true
  /\ Tools.parse_tool_params (raw ++ ";") = Tools.parse_tool_params raw
  /\ (forall key value,
        Wf.plain_param (key, value) = true ->
        Py.dict_get key (Tools.parse_tool_params (raw ++ ";" ++ Tools.item_of (key, value)))
        = Some value).
Proof.
  split; [|split].
  - apply distinct_NoDup. unfold Tools.parse_tool_params.
    destruct (Py.is_empty raw); [constructor|].
    apply parse_items_NoDup. constructor.
  - unfold Tools.parse_tool_params. rewrite is_empty_append. cbn [Py.is_empty andb].
    rewrite andb_false_r.
    change (raw ++ ";")%string with (raw ++ String ";" EmptyString)%string.
    rewrite split_append_any, fold_left_app. cbn [Py.split fold_left].
    unfold Tools.parse_item at 1. cbn [Py.is_empty].
    destruct raw as [|c raw]; reflexivity.
  - intros key value Hplain.
    destruct (plain_param_item (key, value) Hplain) as (Hne & Heq & Hsep & Hsplit).
    unfold Tools.parse_tool_params.
    rewrite is_empty_append. cbn [Py.is_empty andb]. rewrite andb_false_r.
    change (raw ++ ";" ++ Tools.item_of (key, value))%string
      with (raw ++ String ";" (Tools.item_of (key, value)))%string.
    rewrite split_append_any, fold_left_app, (split_without _ _ Hsep).
    cbn [fold_left]. unfold Tools.parse_item at 1.
    rewrite Hne, Heq, Hsplit. cbn [negb]. apply dict_get_set_same.
Qed.


(** ** The request that is sent *)



Section RequestHeaders.
Import Py.











End RequestHeaders.



(** ** Validation and the dispatcher *)

(** X18. The editor's validation agrees with what the dispatcher does: a
    job runs in HTTP mode exactly when it is API-enabled and
    [validate_api_request] has no complaint; a job that is no tool and
    passes [validate_job_targets] never meets the missing-target error of
    [_build_command]; and a job that is not elevated and passes
    [validate_run_as] with run-as enabled is launched under the other
    identity. *)
Theorem validation_matches_dispatch w job :
  (Runner.http_mode job = true <->
   Job.api_enabled job = true
   /\ Validation.validate_api_request true (Job.api_method job) (Job.api_url job) = [])
  /\ (Runner.is_tool job = false ->
      Validation.validate_job_targets w (Job.program_path job) (Job.batch_path job)
      = Ret [] ->
      Runner._build_command w job <> Ret None)
  /\ (Job.run_as_enabled job = true -> Job.run_as_admin job = false ->
      Validation.validate_run_as true false (Job.run_as_user job)
                                 (Job.run_as_password job) = [] ->
      forall command start_time,
        Runner.launch w job command start_time
        = Runner._run_as w job command start_time).
Proof.
  split; [|split].
  - unfold Runner.http_mode, Validation.validate_api_request. cbn [negb].
    destruct (Job.api_enabled job), (Py.is_empty (Job.api_url job)),
      (Py.is_empty (Job.api_method job)); cbn; split; try tauto;
      try discriminate; intros [_ H]; discriminate.
  - unfold Runner.is_tool, Validation.validate_job_targets,
      Validation.named_and_missing, Runner._build_command, Runner.is_tool,
      Runner._split_params.
    intros ->.
    destruct (Py.is_empty (Job.program_path job)), (Py.is_empty (Job.batch_path job));
      cbn [andb negb app]; try discriminate.
    + destruct (path_exists w (Job.batch_path job)) as [[|]|]; cbn; discriminate.
    + destruct (path_exists w (Job.program_path job)) as [[|]|]; cbn; try discriminate.
      intros _. destruct (Py.is_empty (Job.parameters job)); cbn; [discriminate|].
      destruct (shlex_split w (Job.parameters job)); discriminate.
    + destruct (path_exists w (Job.program_path job)) as [[|]|];
        destruct (path_exists w (Job.batch_path job)) as [[|]|]; cbn; discriminate.
  - unfold Validation.validate_run_as, Runner.launch. cbn [negb].
    intros -> ->.
    destruct (Py.is_empty (Job.run_as_user job)),
      (Py.is_empty (Job.run_as_password job)); cbn; try discriminate.
    reflexivity.
Qed.


(** ** The calendar *)

Section Calendar.
Import Datetime.

Lemma days_before_year_succ y :
  days_before_year (y + 1) = days_before_year y + (if is_leap y then 366 else 365).
Proof.
  unfold days_before_year, is_leap.
  replace (y + 1 - 1) with y by lia.
  destruct (Z.eqb_spec (y mod 4) 0), (Z.eqb_spec (y mod 100) 0),
    (Z.eqb_spec (y mod 400) 0); cbn [negb andb orb];
    pose proof (Z.div_mod y 4); pose proof (Z.div_mod y 100);
    pose proof (Z.div_mod y 400); pose proof (Z.div_mod (y - 1) 4);
    pose proof (Z.div_mod (y - 1) 100); pose proof (Z.div_mod (y - 1) 400);
    pose proof (Z.mod_pos_bound y 4); pose proof (Z.mod_pos_bound y 100);
    pose proof (Z.mod_pos_bound y 400); pose proof (Z.mod_pos_bound (y - 1) 4);
    pose proof (Z.mod_pos_bound (y - 1) 100); pose proof (Z.mod_pos_bound (y - 1) 400);
    lia.
Qed.

Lemma days_before_month_succ y m :
  1 <= m -> days_before_month y (m + 1) = days_before_month y m + days_in_month y m.
Proof.
  intros Hm. unfold days_before_month.
  replace (Z.to_nat (m + 1 - 1)) with (S (Z.to_nat (m - 1))) by lia.
  cbn [days_before_month_aux]. f_equal. f_equal. lia.
Qed.

Lemma days_before_december y :
  days_before_month y 12 + 31 = (if is_leap y then 366 else 365).
Proof.
  unfold days_before_month.
  change (Z.to_nat (12 - 1)) with 11%nat.
  cbn [days_before_month_aux Z.of_nat Pos.of_succ_nat Pos.succ].
  unfold days_in_month. cbn [Z.eqb Pos.eqb orb].
  destruct (is_leap y); lia.
Qed.

(** The day after has the next ordinal. *)
Lemma toordinal_next_day d :
  valid_date d = true -> toordinal (next_day d) = toordinal d + 1.
Proof.
  unfold valid_date. rewrite !andb_true_iff, !Z.leb_le. intros Hv.
  unfold next_day, toordinal.
  destruct (Z.ltb_spec (day d) (days_in_month (year d) (month d))); cbn [year month day];
    [lia|].
  destruct (Z.ltb_spec (month d) 12); cbn [year month day].
  - rewrite days_before_month_succ by lia. lia.
  - assert (month d = 12) as Hm by lia. rewrite Hm in *.
    rewrite days_before_year_succ. pose proof (days_before_december (year d)).
    change (days_before_month (year d + 1) 1) with 0.
    assert (days_in_month (year d) 12 = 31) as Hd by reflexivity. lia.
Qed.

Lemma weekday_next_day d :
  valid_date d = true -> weekday (next_day d) = (weekday d + 1) mod 7.
Proof.
  intros Hv. unfold weekday. rewrite (toordinal_next_day d Hv).
  rewrite Z.add_mod_idemp_l by lia. f_equal. lia.
Qed.

Lemma valid_next_day d :
  valid_date d = true -> year d < MAXYEAR -> valid_date (next_day d) = true.
Proof.
  unfold valid_date, MAXYEAR, MINYEAR. rewrite !andb_true_iff, !Z.leb_le.
  intros Hv Hy. unfold next_day.
  destruct (Z.ltb_spec (day d) (days_in_month (year d) (month d))); cbn [year month day].
  - lia.
  - destruct (Z.ltb_spec (month d) 12); cbn [year month day].
    + pose proof (days_in_month_pos (year d) (month d + 1)). lia.
    + pose proof (days_in_month_pos (year d + 1) 1). lia.
Qed.

Lemma year_next_day d : year d <= year (next_day d) <= year d + 1.
Proof.
  unfold next_day.
  destruct (day d <? _); cbn; [lia|]. destruct (month d <? 12); cbn; lia.
Qed.

(** Far enough from the end of the calendar, adding days gives a valid
    date whose weekday has moved on by as many days. *)
Lemma add_days_weekday k : forall d,
  valid_date d = true -> year d + Z.of_nat k <= MAXYEAR ->
  exists d', add_days k d = Some d'
             /\ valid_date d' = true
             /\ weekday d' = (weekday d + Z.of_nat k) mod 7.
Proof.
  induction k as [|k IH]; intros d Hv Hy.
  - exists d. cbn. split; [reflexivity|]. split; [exact Hv|].
    rewrite Z.add_0_r. unfold weekday. now rewrite Z.mod_mod by lia.
  - cbn [add_days]. pose proof (year_next_day d) as Hyn.
    destruct (Z.ltb_spec MAXYEAR (year (next_day d))); [lia|].
    assert (valid_date (next_day d) = true) as Hv' by (apply valid_next_day; [exact Hv|lia]).
    destruct (IH (next_day d) Hv') as (d' & Ha & Hvd & Hw); [lia|].
    exists d'. split; [exact Ha|]. split; [exact Hvd|].
    rewrite Hw, (weekday_next_day d Hv), Z.add_mod_idemp_l by lia. f_equal. lia.
Qed.

End Calendar.


(** ** Recurring schedules *)

Section Recurring.
Import Datetime Repository.

Lemma minute_to_datetime_total reference m :
  0 <= m <= 1439 -> exists r, _minute_to_datetime reference m = Ret r.
Proof.
  intros Hm. unfold _minute_to_datetime, replace_time.
  pose proof (Z.div_mod m 60). pose proof (Z.mod_pos_bound m 60).
  assert (((0 <=? m / 60) && (m / 60 <=? 23) && (0 <=? m mod 60) && (m mod 60 <=? 59))%bool
          = true) as ->.
  { rewrite !andb_true_iff, !Z.leb_le. lia. }
  eauto.
Qed.

(** The scan of [recurring_loop] over offsets that stay inside the
    calendar either stops at a run or finds no slot on any of them. *)
Lemma recurring_loop_scan now slots offsets :
  valid_datetime now = true ->
  Forall (fun s => 0 <= ScheduleSlot.minute_of_day s <= 1439) slots ->
  (forall j, In j offsets -> year (dt_date now) + Z.of_nat j <= MAXYEAR) ->
  (exists r, recurring_loop now slots offsets = Ret (Some r))
  \/ (recurring_loop now slots offsets = Ret None
      /\ forall j target, In j offsets -> add_days j (dt_date now) = Some target ->
                          recurring_pick now j target slots = None).
Proof.
  intros Hv Hm. unfold valid_datetime in Hv. rewrite !andb_true_iff in Hv.
  assert (valid_date (dt_date now) = true) as Hvd by tauto.
  induction offsets as [|j rest IH]; intros Hy; cbn [recurring_loop].
  - right. split; [reflexivity | intros j target []].
  - destruct (add_days_weekday j (dt_date now) Hvd (Hy j (or_introl eq_refl)))
      as (target & Ha & _ & _).
    rewrite Ha.
    destruct (recurring_pick now j target slots) as [slot|] eqn:Hp.
    + left. unfold recurring_pick in Hp. apply find_some in Hp. destruct Hp as [Hin _].
      rewrite Forall_forall in Hm.
      destruct (minute_to_datetime_total
                  (mkDT target (hour now) (minute now) (second now) (microsecond now))
                  _ (Hm slot Hin)) as [r ->].
      eauto.
    + destruct IH as [Hsome | [Hnone Hall]]; [intros; apply Hy; now right | now left |].
      right. split; [exact Hnone|].
      intros j' target' [<- | Hin] Ha'; [|now apply Hall].
      rewrite Ha in Ha'. inversion Ha'. now subst target'.
Qed.

(** Within the seven days after any day, every weekday occurs. *)
Lemma weekday_reached wd0 wd :
  0 <= wd0 <= 6 -> 0 <= wd <= 6 ->
  exists k, In k [1; 2; 3; 4; 5; 6; 7]%nat /\ (wd0 + Z.of_nat k) mod 7 = wd.
Proof.
  intros H0 H1.
  assert (wd0 = 0 \/ wd0 = 1 \/ wd0 = 2 \/ wd0 = 3 \/ wd0 = 4 \/ wd0 = 5 \/ wd0 = 6)
    as C0 by lia.
  assert (wd = 0 \/ wd = 1 \/ wd = 2 \/ wd = 3 \/ wd = 4 \/ wd = 5 \/ wd = 6)
    as C1 by lia.
  destruct C0 as [-> | [-> | [-> | [-> | [-> | [-> | ->]]]]]];
    destruct C1 as [-> | [-> | [-> | [-> | [-> | [-> | ->]]]]]];
    first [ exists 1%nat; split; [cbn; tauto | reflexivity]
          | exists 2%nat; split; [cbn; tauto | reflexivity]
          | exists 3%nat; split; [cbn; tauto | reflexivity]
          | exists 4%nat; split; [cbn; tauto | reflexivity]
          | exists 5%nat; split; [cbn; tauto | reflexivity]
          | exists 6%nat; split; [cbn; tauto | reflexivity]
          | exists 7%nat; split; [cbn; tauto | reflexivity] ].
Qed.




End Recurring.

(** X19. The scan of the next eight days in [_next_recurring_run] covers
    every weekday: for a reference at least eight years before the end of
    the calendar and slots with minutes in 0..1439, a next run is returned
    whenever some slot has one of the weekday bits 0..6 in its mask, and
    [None] is returned when no slot has one. It never raises there. *)
Theorem recurring_next_run_exists now slots :
  Datetime.valid_datetime now = true ->
  Datetime.year (Datetime.dt_date now) + 8 <= Datetime.MAXYEAR ->
  Forall (fun s => 0 <= ScheduleSlot.minute_of_day s <= 1439) slots ->
  ((exists s wd, In s slots /\ 0 <= wd <= 6
                 /\ Z.testbit (ScheduleSlot.days_mask s) wd = true) ->
   exists r, Repository._next_recurring_run now slots = Ret (Some r))
  /\ ((forall s wd, In s slots -> 0 <= wd <= 6 ->
                    Z.testbit (ScheduleSlot.days_mask s) wd = false) ->
      Repository._next_recurring_run now slots = Ret None).
Proof.
  intros Hv Hy Hm.
  assert (forall j, In j (seq 0 8) -> Datetime.year (Datetime.dt_date now) + Z.of_nat j
                                      <= Datetime.MAXYEAR) as Hys.
  { intros j Hj. apply in_seq in Hj. lia. }
  pose proof (recurring_loop_scan now slots (seq 0 8) Hv Hm Hys) as Hscan.
  assert (Datetime.valid_date (Datetime.dt_date now) = true) as Hvd.
  { unfold Datetime.valid_datetime in Hv. rewrite !andb_true_iff in Hv. tauto. }
  unfold Repository._next_recurring_run. split.
  - intros (s & wd & Hin & Hwd & Hbit).
    destruct Hscan as [Hsome | [_ Hall]]; [exact Hsome | exfalso].
    destruct (weekday_reached (Datetime.weekday (Datetime.dt_date now)) wd)
      as (k & Hk & Hreach); [pose proof (weekday_range (Datetime.dt_date now)); lia
                            | exact Hwd |].
    assert (In k (seq 0 8)) as Hk8 by (apply in_seq; cbn in Hk; lia).
    destruct (add_days_weekday k (Datetime.dt_date now) Hvd (Hys k Hk8))
      as (target & Ha & _ & Hw).
    pose proof (Hall k target Hk8 Ha) as Hnone.
    unfold Repository.recurring_pick in Hnone.
    pose proof (find_none _ _ Hnone s Hin) as Hs. cbn beta in Hs.
    unfold Repository.mask_has in Hs.
    rewrite mask_bit in Hs by apply weekday_range.
    rewrite Hw, Hreach, Hbit in Hs.
    assert ((k =? 0)%nat = false) as E by (apply Nat.eqb_neq; cbn in Hk; lia).
    rewrite E in Hs. discriminate.
  - intros Hnobit.
    destruct Hscan as [[r Hr] | [Hnone _]]; [exfalso | exact Hnone].
    apply recurring_loop_ret in Hr.
    destruct Hr as (j & target & slot & _ & Hp & _).
    unfold Repository.recurring_pick in Hp. apply find_some in Hp.
    destruct Hp as [Hin Hs]. apply andb_true_iff in Hs. destruct Hs as [Hbit _].
    unfold Repository.mask_has in Hbit.
    rewrite mask_bit in Hbit by apply weekday_range.
    rewrite (Hnobit slot (Datetime.weekday target) Hin) in Hbit; [discriminate|].
    pose proof (weekday_range target). lia.
Qed.

Lemma recurring_next_run_exists_witness :
  let now := Sample.at_time 2024 1 5 10 1 0 in
  let slots := [Sample.slot 7 1 "recurring" SampleJobs.weekdays None 600] in
  Datetime.valid_datetime now = true
  /\ Repository._next_recurring_run now slots
     = Ret (Some (Sample.at_time 2024 1 8 10 0 0))
  /\ exists r, Repository._next_recurring_run now slots = Ret (Some r).
Proof.
  intros now slots. split; [reflexivity|]. split; [vm_compute; reflexivity|].
  apply (recurring_next_run_exists now slots); [reflexivity | vm_compute; discriminate | |].
  - repeat constructor; cbn; lia.
  - exists (Sample.slot 7 1 "recurring" SampleJobs.weekdays None 600), 0.
    split; [left; reflexivity|]. split; [lia | reflexivity].
Defined.




(** ** Timestamps as text *)

Section IsoText.
Import Datetime.

Lemma digit_char_inj a b :
  0 <= a <= 9 -> 0 <= b <= 9 -> Py.digit_char a = Py.digit_char b -> a = b.
Proof.
  intros Ha Hb H. unfold Py.digit_char in H.
  apply (f_equal nat_of_ascii) in H.
  rewrite !nat_ascii_embedding in H by lia. lia.
Qed.

Lemma fmt02_inj a b :
  0 <= a <= 99 -> 0 <= b <= 99 -> Py.fmt02 a = Py.fmt02 b -> a = b.
Proof.
  intros Ha Hb H. unfold Py.fmt02 in H. cbn [Py.digits_fixed] in H.
  inversion H as [[H1 H0]].
  pose proof (Z.div_mod a 10). pose proof (Z.div_mod b 10).
  pose proof (Z.mod_pos_bound a 10). pose proof (Z.mod_pos_bound b 10).
  pose proof (Z.div_mod (a / 10) 10). pose proof (Z.div_mod (b / 10) 10).
  pose proof (Z.mod_pos_bound (a / 10) 10). pose proof (Z.mod_pos_bound (b / 10) 10).
  apply digit_char_inj in H1; [|lia|lia]. apply digit_char_inj in H0; [|lia|lia].
  assert (a / 10 / 10 = 0) by (apply Z.div_small; lia).
  assert (b / 10 / 10 = 0) by (apply Z.div_small; lia).
  lia.
Qed.

Lemma fmt04_inj a b :
  0 <= a <= 9999 -> 0 <= b <= 9999 -> Py.fmt04 a = Py.fmt04 b -> a = b.
Proof.
  intros Ha Hb H. unfold Py.fmt04 in H. cbn [Py.digits_fixed] in H.
  inversion H as [[H3 H2 H1 H0]].
  pose proof (Z.div_mod a 10). pose proof (Z.div_mod b 10).
  pose proof (Z.mod_pos_bound a 10). pose proof (Z.mod_pos_bound b 10).
  pose proof (Z.div_mod (a / 10) 10). pose proof (Z.div_mod (b / 10) 10).
  pose proof (Z.mod_pos_bound (a / 10) 10). pose proof (Z.mod_pos_bound (b / 10) 10).
  pose proof (Z.div_mod (a / 10 / 10) 10). pose proof (Z.div_mod (b / 10 / 10) 10).
  pose proof (Z.mod_pos_bound (a / 10 / 10) 10).
  pose proof (Z.mod_pos_bound (b / 10 / 10) 10).
  pose proof (Z.div_mod (a / 10 / 10 / 10) 10).
  pose proof (Z.div_mod (b / 10 / 10 / 10) 10).
  pose proof (Z.mod_pos_bound (a / 10 / 10 / 10) 10).
  pose proof (Z.mod_pos_bound (b / 10 / 10 / 10) 10).
  apply digit_char_inj in H3; [|lia|lia]. apply digit_char_inj in H2; [|lia|lia].
  apply digit_char_inj in H1; [|lia|lia]. apply digit_char_inj in H0; [|lia|lia].
  assert (a / 10 / 10 / 10 / 10 = 0) by (apply Z.div_small; lia).
  assert (b / 10 / 10 / 10 / 10 = 0) by (apply Z.div_small; lia).
  lia.
Qed.

(** Two-digit and four-digit fields are strings of that length. *)
Lemma fmt02_shape n : exists c1 c0, Py.fmt02 n = String c1 (String c0 EmptyString).
Proof. unfold Py.fmt02. cbn [Py.digits_fixed]. eauto. Qed.

Lemma fmt04_shape n :
  exists c3 c2 c1 c0,
    Py.fmt04 n = String c3 (String c2 (String c1 (String c0 EmptyString))).
Proof. unfold Py.fmt04. cbn [Py.digits_fixed]. eauto 6. Qed.

(** The ISO text of a valid date tells the date. *)
Lemma isoformat_date_inj a b :
  valid_date a = true -> valid_date b = true ->
  isoformat_date a = isoformat_date b -> a = b.
Proof.
  unfold valid_date, MINYEAR, MAXYEAR. rewrite !andb_true_iff, !Z.leb_le.
  intros Ha Hb H. unfold isoformat_date in H.
  pose proof (days_in_month_pos (year a) (month a)).
  pose proof (days_in_month_pos (year b) (month b)).
  destruct (fmt04_shape (year a)) as (x3 & x2 & x1 & x0 & Ea).
  destruct (fmt04_shape (year b)) as (y3 & y2 & y1 & y0 & Eb).
  destruct (fmt02_shape (month a)) as (m1 & m0 & Ema).
  destruct (fmt02_shape (month b)) as (n1 & n0 & Emb).
  assert (Py.fmt04 (year a) = Py.fmt04 (year b)
          /\ Py.fmt02 (month a) = Py.fmt02 (month b)
          /\ Py.fmt02 (day a) = Py.fmt02 (day b)) as (Hy & Hm & Hd).
  { rewrite Ea, Eb, Ema, Emb in *. cbn [append] in H. inversion H. subst.
    repeat split; congruence. }
  apply fmt04_inj in Hy; [|lia|lia]. apply fmt02_inj in Hm; [|lia|lia].
  apply fmt02_inj in Hd; [|lia|lia].
  destruct a, b. cbn in *. congruence.
Qed.


End IsoText.




(** ** What a due job guarantees *)

(** X22. Every job [_get_due_jobs] returns is a stored, active job with an
    active slot of its own at the minute of day of [now], scheduled for
    [now] with the seconds dropped; it is not held back by once-per-day and
    has no run recorded for that minute; and the slot matches by its kind:
    the weekday bit, today's ISO date, or the two-digit day of the month. *)
Theorem due_jobs_sound db now dj :
  In dj (Scheduler._get_due_jobs db now) ->
  In (Scheduler.job dj) (Db.jobs db)
  /\ Job.active (Scheduler.job dj) = true
  /\ Scheduler.scheduled_time dj = Datetime.truncate_minute now
  /\ Scheduler.ran_today (Scheduler.job dj)
                         (Datetime.isoformat_date (Datetime.dt_date now)) = false
  /\ Scheduler._has_run_log db (Job.id (Scheduler.job dj)) (Datetime.truncate_minute now)
     = false
  /\ exists s,
       In s (Db.schedules db)
       /\ ScheduleSlot.id s = Scheduler.schedule_id dj
       /\ ScheduleSlot.job_id s = Job.id (Scheduler.job dj)
       /\ ScheduleSlot.active s = true
       /\ ScheduleSlot.minute_of_day s = Datetime.hour now * 60 + Datetime.minute now
       /\ ((ScheduleSlot.schedule_type s = "recurring"
            /\ Z.testbit (ScheduleSlot.days_mask s)
                         (Datetime.weekday (Datetime.dt_date now)) = true)
           \/ (ScheduleSlot.schedule_type s = "date"
               /\ ScheduleSlot.date s
                  = Some (Datetime.isoformat_date (Datetime.dt_date now)))
           \/ (ScheduleSlot.schedule_type s = "monthly"
               /\ ScheduleSlot.date s
                  = Some (Py.fmt02 (Datetime.day (Datetime.dt_date now))))).
Proof.
  intros Hin. apply in_due_jobs in Hin.
  destruct Hin as [j [s [(Hj & Hs & Hsel & Hran & Hlog & _) ->]]].
  cbn [Scheduler.job Scheduler.schedule_id Scheduler.scheduled_time].
  unfold Scheduler.selected in Hsel. rewrite !andb_true_iff, !Z.eqb_eq in Hsel.
  destruct Hsel as ((((Hjoin & Hja) & Hsa) & Hmin) & Hcond).
  repeat split; try assumption.
  exists s. repeat split; try assumption.
  unfold Scheduler.date_condition, Scheduler.weekday_mask in Hcond.
  rewrite mask_bit in Hcond by apply weekday_range.
  rewrite !orb_true_iff, !andb_true_iff, !String.eqb_eq in Hcond.
  destruct Hcond as [[[Hk Hb] | [Hk Hd]] | [Hk Hd]].
  - now left.
  - right. left. split; [exact Hk|].
    destruct (ScheduleSlot.date s); [|discriminate].
    apply String.eqb_eq in Hd. now subst.
  - right. right. split; [exact Hk|].
    destruct (ScheduleSlot.date s); [|discriminate].
    apply String.eqb_eq in Hd. now subst.
Qed.

Lemma due_jobs_sound_witness :
  let db := SampleJobs.weekday_db false None in
  let now := Sample.at_time 2024 1 3 10 0 30 in
  let dj := Scheduler.mkDueJob (SampleJobs.daily_job false None) 7
                               (Datetime.truncate_minute now) in
  In dj (Scheduler._get_due_jobs db now)
  /\ Job.active (Scheduler.job dj) = true
  /\ Scheduler.scheduled_time dj = Sample.at_time 2024 1 3 10 0 0.
Proof.
  intros db now dj.
  assert (In dj (Scheduler._get_due_jobs db now)) as Hin by (vm_compute; left; reflexivity).
  split; [exact Hin|].
  destruct (due_jobs_sound db now dj Hin) as (_ & Ha & Ht & _).
  split; [exact Ha | exact Ht].
Defined.

(** X23. The once-per-day test compares ISO date texts, and for real
    dates that is the comparison of the dates: a job is held back exactly
    when it is marked once-per-day and its last run is on the date of
    [now]. *)
Theorem ran_today_iff j now :
  Datetime.valid_datetime now = true ->
  (forall last, Job.last_run_at j = Some last -> Datetime.valid_datetime last = true) ->
  Scheduler.ran_today j (Datetime.isoformat_date (Datetime.dt_date now)) = true
  <-> Job.once_per_day j = true
      /\ exists last, Job.last_run_at j = Some last
                      /\ Datetime.dt_date last = Datetime.dt_date now.
Proof.
  intros Hv Hlast. unfold Scheduler.ran_today. rewrite andb_true_iff.
  assert (forall t, Datetime.valid_datetime t = true ->
                    Datetime.valid_date (Datetime.dt_date t) = true) as Hvd.
  { intros t Ht. unfold Datetime.valid_datetime in Ht. rewrite !andb_true_iff in Ht.
    tauto. }
  split.
  - intros [Ho Hl]. split; [exact Ho|].
    destruct (Job.last_run_at j) as [last|] eqn:E; [|discriminate].
    exists last. split; [reflexivity|].
    apply String.eqb_eq in Hl.
    apply isoformat_date_inj; [apply Hvd; now apply Hlast | now apply Hvd | exact Hl].
  - intros [Ho [last [-> Hd]]]. split; [exact Ho|].
    rewrite Hd. apply String.eqb_refl.
Qed.

Lemma ran_today_iff_witness :
  let now := Sample.at_time 2024 1 3 10 0 0 in
  let yesterday := Sample.at_time 2024 1 2 23 59 0 in
  Datetime.valid_datetime now = true
  /\ Scheduler.ran_today (SampleJobs.daily_job true (Some yesterday))
                         (Datetime.isoformat_date (Datetime.dt_date now)) <> true.
Proof.
  intros now yesterday. split; [reflexivity|].
  intros H.
  apply (ran_today_iff (SampleJobs.daily_job true (Some yesterday)) now eq_refl) in H.
  - destruct H as [_ [last [Hl Hd]]]. inversion Hl; subst last. discriminate.
  - intros last Hl. inversion Hl. reflexivity.
Defined.




(** ** Monthly and one-time schedules *)

Section MonthlyAndDate.
Import Datetime Repository.

(** Where [monthly_loop] stops, with the month offset it stopped at. *)
Lemma monthly_loop_offset now scheduled_day slots offsets r :
  monthly_loop now scheduled_day slots offsets = Ret (Some r) ->
  exists k, In k offsets
            /\ year (dt_date r) * 12 + month (dt_date r)
               = year (dt_date now) * 12 + month (dt_date now) + Z.of_nat k.
Proof.
  induction offsets as [|month_offset rest IH]; cbn [monthly_loop]; [discriminate|].
  cbv zeta. unfold make_datetime.
  set (tm := (month (dt_date now) + Z.of_nat month_offset - 1) mod 12 + 1).
  set (ty := year (dt_date now) + (month (dt_date now) + Z.of_nat month_offset - 1) / 12).
  destruct (valid_date (mkDate ty tm (Z.min scheduled_day (days_in_month ty tm))));
    [|discriminate].
  cbn [dt_date].
  assert (forall x, (exists k, In k rest /\ x k) ->
                    exists k, (month_offset = k \/ In k rest) /\ x k) as Hrest
    by (intros x (k & Hk & Hx); exists k; auto).
  destruct (date_ltb _ (dt_date now)); [intros H; apply Hrest, IH, H|].
  destruct (first_slot_on now _ slots) as [slot|]; [|intros H; apply Hrest, IH, H].
  destruct (_minute_to_datetime _ _) as [t|] eqn:Hm; [|discriminate].
  intros H. inversion H; subst t.
  destruct (minute_to_datetime_ret _ _ _ Hm) as (Hr & _). cbn [dt_date] in Hr.
  exists month_offset. split; [now left|]. rewrite Hr. cbn [dt_date year month].
  unfold ty, tm.
  pose proof (Z.div_mod (month (dt_date now) + Z.of_nat month_offset - 1) 12). lia.
Qed.

End MonthlyAndDate.

(** X25. The next run of a monthly schedule falls on the scheduled day of
    the month, or on the month's last day when the month is shorter: the
    date returned is a real date, not before today, at most twelve months
    after the month of [now], and its day is the smaller of the stored day
    and the length of its month. *)
Theorem monthly_next_run_clamped now first rest r :
  Repository._next_monthly_run now (first :: rest) = Ret (Some r) ->
  exists scheduled_day,
    Py.int (match ScheduleSlot.date first with Some s => s | None => "" end)
    = Some scheduled_day
    /\ let d := Datetime.dt_date r in
       Datetime.valid_date d = true
       /\ Datetime.day d
          = Z.min scheduled_day (Datetime.days_in_month (Datetime.year d) (Datetime.month d))
       /\ Datetime.date_ltb d (Datetime.dt_date now) = false
       /\ 0 <= (Datetime.year d * 12 + Datetime.month d)
               - (Datetime.year (Datetime.dt_date now) * 12
                  + Datetime.month (Datetime.dt_date now)) <= 12.
Proof.
  unfold Repository._next_monthly_run.
  destruct (Py.int _) as [scheduled_day|]; [|discriminate].
  intros H. exists scheduled_day. split; [reflexivity|]. cbv zeta.
  destruct (monthly_loop_offset _ _ _ _ _ H) as (k & Hk & Hmonths).
  apply in_seq in Hk.
  apply monthly_loop_ret in H.
  destruct H as (target & slot & Hv & Hday & Hlt & _ & Hm).
  destruct (minute_to_datetime_ret _ _ _ Hm) as (Hr & _). cbn [Datetime.dt_date] in Hr.
  assert (Datetime.dt_date r = target) as Hd by now rewrite Hr.
  rewrite Hd in *. repeat split; try assumption; lia.
Qed.

Lemma monthly_next_run_clamped_witness :
  let now := Sample.at_time 2023 2 1 12 0 0 in
  let first := Sample.slot 7 1 "monthly" 0 (Some "31") 0 in
  Repository._next_monthly_run now [first] = Ret (Some (Sample.at_time 2023 2 28 0 0 0))
  /\ exists scheduled_day,
       Py.int "31" = Some scheduled_day
       /\ 28 = Z.min scheduled_day (Datetime.days_in_month 2023 2).
Proof.
  intros now first.
  assert (Repository._next_monthly_run now [first]
          = Ret (Some (Sample.at_time 2023 2 28 0 0 0))) as H by (vm_compute; reflexivity).
  split; [exact H|].
  destruct (monthly_next_run_clamped now first [] _ H) as (sd & Hint & _ & Hday & _).
  exists sd. split; [exact Hint | exact Hday].
Defined.

(** X26. The next run of a one-time schedule: a date that cannot be read,
    or one before today, gives no run; otherwise a run returned lies on
    exactly the stored date. *)
Theorem date_next_run fromisoformat_date now first rest :
  (forall target date_str,
      ScheduleSlot.date first = Some date_str ->
      fromisoformat_date date_str = Some target ->
      Datetime.date_ltb target (Datetime.dt_date now) = true ->
      Repository._next_date_run fromisoformat_date now (first :: rest) = Ret None)
  /\ (forall date_str,
        ScheduleSlot.date first = Some date_str ->
        fromisoformat_date date_str = None ->
        Repository._next_date_run fromisoformat_date now (first :: rest) = Ret None)
  /\ (forall r,
        Repository._next_date_run fromisoformat_date now (first :: rest) = Ret (Some r) ->
        exists date_str,
          ScheduleSlot.date first = Some date_str
          /\ fromisoformat_date date_str = Some (Datetime.dt_date r)
          /\ Datetime.date_ltb (Datetime.dt_date r) (Datetime.dt_date now) = false).
Proof.
  unfold Repository._next_date_run. split; [|split].
  - intros target date_str -> Hp Hlt. destruct (Py.is_empty date_str); [reflexivity|].
    now rewrite Hp, Hlt.
  - intros date_str -> Hp. destruct (Py.is_empty date_str); [reflexivity|].
    now rewrite Hp.
  - intros r. destruct (ScheduleSlot.date first) as [date_str|]; [|discriminate].
    destruct (Py.is_empty date_str); [discriminate|].
    destruct (fromisoformat_date date_str) as [target|] eqn:Hp; [|discriminate].
    destruct (Datetime.date_ltb target (Datetime.dt_date now)) eqn:Hlt; [discriminate|].
    destruct (Repository.first_slot_on now target (first :: rest)); [|discriminate].
    destruct (Repository._minute_to_datetime _ _) as [t|] eqn:Hm; [|discriminate].
    intros H. inversion H; subst t.
    destruct (minute_to_datetime_ret _ _ _ Hm) as (Hr & _). cbn [Datetime.dt_date] in Hr.
    exists date_str. rewrite Hr. cbn [Datetime.dt_date].
    split; [reflexivity|]. split; [exact Hp | exact Hlt].
Qed.

(** ** Stopping the engine *)

(** X27. [stop] and the polling thread: when the thread ends within the
    join, the engine is no longer running and [ensure_running] starts a new
    thread with the stop event cleared; when the join times out, the thread
    is still alive with the stop event set, and [start] changes nothing, so
    the event stays set. *)
Theorem stop_then_restart e :
  Scheduler.reachable e ->
  Scheduler.is_running e = true ->
  (let stopped := Scheduler.stop true e in
   Scheduler.is_running stopped = false
   /\ Scheduler.stop_event stopped = true
   /\ Scheduler.is_running (Scheduler.ensure_running stopped) = true
   /\ Scheduler.stop_event (Scheduler.ensure_running stopped) = false
   /\ Scheduler.alive (Scheduler.ensure_running stopped) = [Scheduler.next_thread e])
  /\ (let pending := Scheduler.stop false e in
      Scheduler.is_running pending = true
      /\ Scheduler.stop_event pending = true
      /\ Scheduler.start pending = pending).
Proof.
  intros Hreach Hrun. pose proof (reachable_one_thread e Hreach) as Hone.
  unfold Scheduler.is_running in Hrun.
  destruct (Scheduler.thread e) as [t|] eqn:Ht; [|discriminate].
  destruct Hone as [Hnil | [u [Ha Hu]]]; [rewrite Hnil in Hrun; discriminate|].
  rewrite Ht in Hu. inversion Hu; subst u.
  assert (Scheduler.stop true e
          = Scheduler.mkEngine (Some t) [] true (Scheduler.next_thread e) false) as Hst.
  { unfold Scheduler.stop, Scheduler.thread_exit. rewrite Ht. cbn. rewrite Ha. cbn.
    now rewrite Nat.eqb_refl. }
  assert (Scheduler.stop false e
          = Scheduler.mkEngine (Some t) [t] true (Scheduler.next_thread e) false) as Hpe.
  { unfold Scheduler.stop. rewrite Ht, Ha. reflexivity. }
  split; cbv zeta.
  - rewrite Hst. unfold Scheduler.ensure_running, Scheduler.start, Scheduler.is_running.
    cbn. rewrite Nat.eqb_refl. repeat split.
  - rewrite Hpe. unfold Scheduler.start, Scheduler.is_running. cbn.
    rewrite Nat.eqb_refl. repeat split.
Qed.

Lemma stop_then_restart_witness :
  let e := Scheduler.start Scheduler.init in
  Scheduler.is_running e = true
  /\ Scheduler.is_running (Scheduler.stop true e) = false
  /\ Scheduler.start (Scheduler.stop false e) = Scheduler.stop false e.
Proof.
  intros e.
  destruct (stop_then_restart e
              (Scheduler.reach_step _ _ Scheduler.reach_init
                                    (Scheduler.step_start Scheduler.init)) eq_refl)
    as ((Hs & _) & (_ & _ & Hp)).
  split; [reflexivity|]. split; [exact Hs | exact Hp].
Defined.
